(** * Gateway admin lifecycle service: a shallow embedding

    This development embeds the write-side gateway lifecycle service of the
    Mission Control backend

      - [backend/app/services/openclaw/admin_service.py]
        ([GatewayAdminLifecycleService]) and
      - [backend/app/services/openclaw/onboarding_service.py]
        ([BoardOnboardingMessagingService])

    and proves the properties of its reconciler, provisioner, roster check,
    self-healing sweep, cascading cleanup and onboarding dispatch.

    Python values are modelled as follows.
      - [str] is [string]; a character stands for the code point of the same
        number (0..255).
      - A decoded JSON payload is a [json] value; a [dict] is a [gmap].
      - An ORM object is a slot of the session's table; a Python reference to
        it is the index of the slot, so that a mutation through one reference
        is seen through every other one.
      - [async] methods are computations of the monad [M]: they thread the
        [World] (session, durable database, effect trace) and either return a
        value or raise an exception.
      - Collaborators whose results the service cannot predict (the clock,
        the token generator, the remote gateway) are oracles indexed by the
        number of effects performed so far. *)

From stdpp Require Import gmap strings list.

Local Set Warnings "-register-all".
Local Open Scope string_scope.

(** ** Python strings *)

Module PyStr.

(** [str.isspace] on the code points below 256. *)
Definition isspace (c : Ascii.ascii) : bool :=
  let n := Ascii.N_of_ascii c in
  ((9 <=? n) && (n <=? 13) || (28 <=? n) && (n <=? 32)
   || (n =? 133) || (n =? 160))%N.

Fixpoint lstrip (s : string) : string :=
  match s with
  | EmptyString => EmptyString
  | String c r => if isspace c then lstrip r else s
  end.

Fixpoint rstrip (s : string) : string :=
  match s with
  | EmptyString => EmptyString
  | String c r =>
      match rstrip r with
      | EmptyString => if isspace c then EmptyString else String c EmptyString
      | r' => String c r'
      end
  end.

(** [s.strip()] *)
Definition strip (s : string) : string := rstrip (lstrip s).

(** [bool(s)] *)
Definition truthy (s : string) : bool :=
  match s with EmptyString => false | _ => true end.

(** [bool(o)] for an [Optional[str]] *)
Definition truthy_opt (o : option string) : bool :=
  match o with Some s => truthy s | None => false end.

(** [value or None] *)
Definition or_none (s : string) : option string :=
  if truthy s then Some s else None.

End PyStr.

(** ** Decoded JSON payloads *)

Inductive json : Type :=
| JNull
| JBool (b : bool)
| JInt (z : Z)
| JFloat (bits : N)        (* the IEEE-754 binary64 pattern *)
| JStr (s : string)
| JList (items : list json)
| JDict (fields : gmap string json).

Module Json.

(** [bool(v)]: [None], [False], zeros and empty containers are falsy. *)
Definition truthy (v : json) : bool :=
  match v with
  | JNull => false
  | JBool b => b
  | JInt z => negb (z =? 0)%Z
  | JFloat bits => negb (N.land bits (2 ^ 63 - 1) =? 0)%N
  | JStr s => PyStr.truthy s
  | JList items => match items with [] => false | _ => true end
  | JDict fields => negb (bool_decide (fields = ∅))
  end.

(** [d.get(key)]: a missing key reads as [None]. *)
Definition get (d : gmap string json) (key : string) : json :=
  default JNull (d !! key).

(** [a or b] *)
Definition or (a b : json) : json := if truthy a then a else b.

End Json.

(** ** Exceptions *)

Inductive ExcClass : Type :=
| BaseException
| Exception
| OSError
| TimeoutError
| RuntimeError
| ValueError
| OpenClawGatewayError
| HTTPException
| CancelledError
| OtherException (name : string)        (* any further subclass of Exception *)
| OtherBaseException (name : string).   (* any further subclass of BaseException only *)

#[export] Instance ExcClass_eq_dec : EqDecision ExcClass.
Proof. solve_decision. Defined.

(** The linearised ancestry of a class, the class itself first.  The base of
    [OpenClawGatewayError] is declared in the gateway client; every handler
    below tests for it before any of its ancestors. *)
Definition mro (c : ExcClass) : list ExcClass :=
  match c with
  | BaseException => [BaseException]
  | Exception => [Exception; BaseException]
  | OSError => [OSError; Exception; BaseException]
  | TimeoutError => [TimeoutError; OSError; Exception; BaseException]
  | RuntimeError => [RuntimeError; Exception; BaseException]
  | ValueError => [ValueError; Exception; BaseException]
  | OpenClawGatewayError => [OpenClawGatewayError; Exception; BaseException]
  | HTTPException => [HTTPException; Exception; BaseException]
  | CancelledError => [CancelledError; BaseException]
  | OtherException n => [OtherException n; Exception; BaseException]
  | OtherBaseException n => [OtherBaseException n; BaseException]
  end.

Record exn : Type := MkExn {
  exc_class : ExcClass;
  exc_str : string;          (* str(exc) *)
}.

(** [isinstance(exc, cls)] *)
Definition isinstance (exc : exn) (cls : ExcClass) : bool :=
  bool_decide (cls ∈ mro (exc_class exc)).

(** [isinstance(exc, (c1, c2, ...))] *)
Definition isinstance_any (exc : exn) (clss : list ExcClass) : bool :=
  existsb (isinstance exc) clss.

Inductive result (A : Type) : Type :=
| Ok (a : A)
| Raise (e : exn).
Arguments Ok {A} a.
Arguments Raise {A} e.

(** ** Data model *)

Definition UUID := N.
Definition datetime := Z.

Module Gateway.
Record t : Type := Mk {
  id : UUID;
  organization_id : UUID;
  name : string;
  url : option string;
  token : option string;
}.
End Gateway.

Module Agent.
Record t : Type := Mk {
  id : UUID;
  name : string;
  status : string;
  board_id : option UUID;
  gateway_id : UUID;
  is_board_lead : bool;
  openclaw_session_id : option string;
  agent_token_hash : option string;
  heartbeat_config : option (gmap string json);
  identity_profile : option (gmap string string);
  provision_requested_at : option datetime;
  provision_action : option string;
  updated_at : datetime;
}.

(** Attribute assignments [agent.field = value]. *)
Definition set_name (v : string) (a : t) : t :=
  Mk (id a) v (status a) (board_id a) (gateway_id a) (is_board_lead a)
     (openclaw_session_id a) (agent_token_hash a) (heartbeat_config a)
     (identity_profile a) (provision_requested_at a) (provision_action a)
     (updated_at a).
Definition set_status (v : string) (a : t) : t :=
  Mk (id a) (name a) v (board_id a) (gateway_id a) (is_board_lead a)
     (openclaw_session_id a) (agent_token_hash a) (heartbeat_config a)
     (identity_profile a) (provision_requested_at a) (provision_action a)
     (updated_at a).
Definition set_board_id (v : option UUID) (a : t) : t :=
  Mk (id a) (name a) (status a) v (gateway_id a) (is_board_lead a)
     (openclaw_session_id a) (agent_token_hash a) (heartbeat_config a)
     (identity_profile a) (provision_requested_at a) (provision_action a)
     (updated_at a).
Definition set_gateway_id (v : UUID) (a : t) : t :=
  Mk (id a) (name a) (status a) (board_id a) v (is_board_lead a)
     (openclaw_session_id a) (agent_token_hash a) (heartbeat_config a)
     (identity_profile a) (provision_requested_at a) (provision_action a)
     (updated_at a).
Definition set_is_board_lead (v : bool) (a : t) : t :=
  Mk (id a) (name a) (status a) (board_id a) (gateway_id a) v
     (openclaw_session_id a) (agent_token_hash a) (heartbeat_config a)
     (identity_profile a) (provision_requested_at a) (provision_action a)
     (updated_at a).
Definition set_openclaw_session_id (v : option string) (a : t) : t :=
  Mk (id a) (name a) (status a) (board_id a) (gateway_id a) (is_board_lead a)
     v (agent_token_hash a) (heartbeat_config a)
     (identity_profile a) (provision_requested_at a) (provision_action a)
     (updated_at a).
Definition set_agent_token_hash (v : option string) (a : t) : t :=
  Mk (id a) (name a) (status a) (board_id a) (gateway_id a) (is_board_lead a)
     (openclaw_session_id a) v (heartbeat_config a)
     (identity_profile a) (provision_requested_at a) (provision_action a)
     (updated_at a).
Definition set_heartbeat_config (v : option (gmap string json)) (a : t) : t :=
  Mk (id a) (name a) (status a) (board_id a) (gateway_id a) (is_board_lead a)
     (openclaw_session_id a) (agent_token_hash a) v
     (identity_profile a) (provision_requested_at a) (provision_action a)
     (updated_at a).
Definition set_identity_profile (v : option (gmap string string)) (a : t) : t :=
  Mk (id a) (name a) (status a) (board_id a) (gateway_id a) (is_board_lead a)
     (openclaw_session_id a) (agent_token_hash a) (heartbeat_config a)
     v (provision_requested_at a) (provision_action a)
     (updated_at a).
Definition set_provision_requested_at (v : option datetime) (a : t) : t :=
  Mk (id a) (name a) (status a) (board_id a) (gateway_id a) (is_board_lead a)
     (openclaw_session_id a) (agent_token_hash a) (heartbeat_config a)
     (identity_profile a) v (provision_action a)
     (updated_at a).
Definition set_provision_action (v : option string) (a : t) : t :=
  Mk (id a) (name a) (status a) (board_id a) (gateway_id a) (is_board_lead a)
     (openclaw_session_id a) (agent_token_hash a) (heartbeat_config a)
     (identity_profile a) (provision_requested_at a) v
     (updated_at a).
Definition set_updated_at (v : datetime) (a : t) : t :=
  Mk (id a) (name a) (status a) (board_id a) (gateway_id a) (is_board_lead a)
     (openclaw_session_id a) (agent_token_hash a) (heartbeat_config a)
     (identity_profile a) (provision_requested_at a) (provision_action a)
     v.
End Agent.

Module Task.
Record t : Type := Mk {
  id : UUID;
  status : string;
  assigned_agent_id : option UUID;
  in_progress_at : option datetime;
  updated_at : datetime;
}.
End Task.

Module ActivityEvent.
Record t : Type := Mk {
  id : UUID;
  agent_id : option UUID;
}.
End ActivityEvent.

Module Approval.
Record t : Type := Mk {
  id : UUID;
  agent_id : option UUID;
}.
End Approval.

Module Board.
Record t : Type := Mk {
  id : UUID;
  gateway_id : option UUID;
}.
End Board.

(** [GatewayConfig(url=..., token=...)] of the gateway client. *)
Record GatewayClientConfig : Type := MkConfig {
  cfg_url : string;
  cfg_token : option string;
}.

(** [ProvisionOptions] and [MainAgentProvisionRequest] of the provisioning
    module, as the service fills them in. *)
Record ProvisionOptions : Type := MkProvisionOptions {
  opt_action : string;
}.

Record MainAgentProvisionRequest : Type := MkProvisionRequest {
  req_gateway : Gateway.t;
  req_auth_token : string;
  req_user : option UUID;
  req_session_key : string;
  req_options : ProvisionOptions;
}.

Inductive GatewayOperation : Type :=
| ONBOARDING_START_DISPATCH
| ONBOARDING_ANSWER_DISPATCH.

(** ** Effects *)

(** The calls that leave the process.  [ObjRef] is a reference to an Agent
    object of the session. *)
Definition ObjRef := nat.

Inductive RemoteCall : Type :=
| OpenclawCall (method : string) (config : GatewayClientConfig)
| ProvisionMainAgent (agent : Agent.t) (request : MainAgentProvisionRequest)
| EnsureSession (session_key : string) (config : GatewayClientConfig)
                (label : string)
| SendMessage (message : string) (session_key : string)
              (config : GatewayClientConfig) (deliver : bool)
| DispatchGatewayMessage (session_key : string) (config : GatewayClientConfig)
                         (agent_name : string) (message : string)
                         (deliver : bool).

Inductive LogLevel : Type :=
| TRACE5      (* logger.log(5, ...) *)
| INFO
| WARNING
| ERROR
| CRITICAL.

Inductive Event : Type :=
| EvCommit
| EvRemote (call : RemoteCall) (outcome : result json)
| EvLog (level : LogLevel) (message : string) (exc : option exn).

(** The tables a database session works on. *)
Record Db : Type := MkDb {
  agents : list Agent.t;
  tasks : list Task.t;
  activity_events : list ActivityEvent.t;
  approvals : list Approval.t;
}.

Record World : Type := MkWorld {
  session : Db;          (* the rows as the open transaction sees them *)
  durable : Db;          (* the rows as of the last commit *)
  ticks : nat;           (* number of oracle consultations so far *)
  trace : list Event;    (* effects, oldest first *)
}.

Definition set_session (d : Db) (w : World) : World :=
  MkWorld d (durable w) (ticks w) (trace w).
Definition set_agents (l : list Agent.t) (d : Db) : Db :=
  MkDb l (tasks d) (activity_events d) (approvals d).
Definition set_tasks (l : list Task.t) (d : Db) : Db :=
  MkDb (agents d) l (activity_events d) (approvals d).
Definition set_activity_events (l : list ActivityEvent.t) (d : Db) : Db :=
  MkDb (agents d) (tasks d) l (approvals d).
Definition set_approvals (l : list Approval.t) (d : Db) : Db :=
  MkDb (agents d) (tasks d) (activity_events d) l.
Definition tick (w : World) : World :=
  MkWorld (session w) (durable w) (S (ticks w)) (trace w).
Definition emit (e : Event) (w : World) : World :=
  MkWorld (session w) (durable w) (ticks w) (trace w ++ [e]).

(** ** The monad of service methods *)

Definition M (A : Type) : Type := World -> result A * World.

Definition ret {A} (a : A) : M A := fun w => (Ok a, w).

Definition raise {A} (e : exn) : M A := fun w => (Raise e, w).

Definition bind {A B} (m : M A) (k : A -> M B) : M B :=
  fun w =>
    match m w with
    | (Ok a, w') => k a w'
    | (Raise e, w') => (Raise e, w')
    end.

(** [try: body except ...: handler]: [handler exc] is the body of the first
    [except] clause that matches [exc], [None] when no clause matches. *)
Definition try_except {A} (body : M A) (handler : exn -> option (M A)) : M A :=
  fun w =>
    match body w with
    | (Ok a, w') => (Ok a, w')
    | (Raise e, w') =>
        match handler e with
        | Some h => h w'
        | None => (Raise e, w')
        end
    end.

Declare Scope service_scope.
Delimit Scope service_scope with service.
Notation "'let*' x ':=' m 'in' k" := (bind m (fun x => k))
  (at level 10, x pattern, m at level 100, k at level 200) : service_scope.
Notation "m ';;' k" := (bind m (fun _ => k))
  (at level 100, k at level 200, right associativity) : service_scope.
Local Open Scope service_scope.

Definition get_world : M World := fun w => (Ok w, w).
Definition modify (f : World -> World) : M unit := fun w => (Ok tt, f w).

(** ** Collaborators and the service *)

(** [AbstractGatewayMainAgentManager]: naming and profile strategy. *)
Class AbstractGatewayMainAgentManager : Type := {
  build_main_agent_name : Gateway.t -> string;
  build_identity_profile : gmap string string;
}.

#[export] Instance DefaultGatewayMainAgentManager
  : AbstractGatewayMainAgentManager := {
  build_main_agent_name gateway := Gateway.name gateway ++ " Gateway Agent";
  build_identity_profile :=
    <["role" := "Gateway Agent"]>
    (<["communication_style" := "direct, concise, practical"]>
    (<["emoji" := ":compass:"]> ∅));
}.

(** What the service takes from the modules around it. *)
Class Collaborators : Type := {
  (** [GatewayAgentIdentity]: pure derivations from the gateway. *)
  session_key : Gateway.t -> string;
  openclaw_agent_id : Gateway.t -> string;
  (** [DEFAULT_HEARTBEAT_CONFIG] of the constants module. *)
  DEFAULT_HEARTBEAT_CONFIG : gmap string json;
  (** Credential helpers, the clock and the identifier factory; the
      impure ones answer by the tick at which they are asked. *)
  hash_agent_token : string -> string;
  generate_agent_token_at : nat -> string;
  utcnow_at : nat -> datetime;
  uuid4_at : nat -> UUID;
  (** The remote gateway: what the call made at a given tick does. *)
  gateway_rpc : nat -> RemoteCall -> result json;
  (** Helpers of the messaging flow. *)
  map_gateway_error_to_http_exception : GatewayOperation -> exn -> exn;
  require_gateway_config_for_board
    : Db -> Board.t -> result (Gateway.t * GatewayClientConfig);
  resolve_trace_id_at : nat -> option string -> string -> string;
}.

Section Service.

Context {collaborators : Collaborators}.
Context {main_agent_manager : AbstractGatewayMainAgentManager}.

(** *** Primitive effects *)

Definition utcnow : M datetime :=
  fun w => (Ok (utcnow_at (ticks w)), tick w).

Definition uuid4 : M UUID :=
  fun w => (Ok (uuid4_at (ticks w)), tick w).

Definition generate_agent_token : M string :=
  fun w => (Ok (generate_agent_token_at (ticks w)), tick w).

Definition resolve_trace_id (correlation_id : option string) (prefix : string)
  : M string :=
  fun w => (Ok (resolve_trace_id_at (ticks w) correlation_id prefix), tick w).

(** A remote call: the gateway answers or the call raises; either way the
    call is on the trace. *)
Definition remote (call : RemoteCall) : M json :=
  fun w =>
    let outcome := gateway_rpc (ticks w) call in
    (outcome, emit (EvRemote call outcome) (tick w)).

Definition log (level : LogLevel) (message : string) (exc : option exn)
  : M unit :=
  modify (emit (EvLog level message exc)).

(** [session.commit()]: the transaction's rows become the durable ones. *)
Definition session_commit : M unit :=
  modify (fun w =>
    emit EvCommit (MkWorld (session w) (session w) (ticks w) (trace w))).

(** The error of dereferencing an index that denotes no Agent object.  The
    source cannot do that; it is not an [Exception], so that no handler of
    the service intercepts it. *)
Definition dangling : exn :=
  MkExn (OtherBaseException "DanglingReference") "".

(** Reading the attributes of the object behind a reference. *)
Definition read_agent (agent : ObjRef) : M Agent.t :=
  fun w =>
    match agents (session w) !! agent with
    | Some a => (Ok a, w)
    | None => (Raise dangling, w)
    end.

(** [agent.attr = value] *)
Definition setattr (agent : ObjRef) (f : Agent.t -> Agent.t) : M unit :=
  let* a := read_agent agent in
  modify (fun w =>
    set_session (set_agents (<[agent := f a]> (agents (session w))) (session w)) w).

(** [agent = Agent(...); session.add(agent)]: the new object takes the next
    slot of the session; with the session's autoflush a later query sees
    it. *)
Definition session_add_new (a : Agent.t) : M ObjRef :=
  fun w =>
    (Ok (length (agents (session w))),
     set_session (set_agents (agents (session w) ++ [a]) (session w)) w).

(** [session.add(agent)] for an object the session already holds. *)
Definition session_add (agent : ObjRef) : M unit :=
  let* _ := read_agent agent in ret tt.

(** [session.refresh(agent)]: reload the attributes from the database, to
    which the session's changes have been flushed. *)
Definition session_refresh (agent : ObjRef) : M unit :=
  let* a := read_agent agent in setattr agent (fun _ => a).

(** Modelled from the spec: [crud.update_where] of the database helpers,
    "[update_where(session, model, ...predicates, **field_updates, commit:
    bool)] for bulk conditional updates": every row of the table that
    satisfies all the predicates gets the field updates, inside the open
    transaction; the transaction is committed only when [commit] is set. *)
Definition update_where {R : Type}
    (rows : Db -> list R) (set_rows : list R -> Db -> Db)
    (criteria : R -> bool) (values : R -> R) (commit : bool) : M unit :=
  modify (fun w =>
    set_session
      (set_rows (map (fun r => if criteria r then values r else r)
                     (rows (session w)))
                (session w)) w) ;;
  if commit then session_commit else ret tt.

(** A [for] loop over a list. *)
Fixpoint for_each {A : Type} (items : list A) (body : A -> M unit) : M unit :=
  match items with
  | [] => ret tt
  | item :: rest => body item ;; for_each rest body
  end.

(** *** [GatewayAdminLifecycleService] *)

(** The filter of [find_main_agent]:
    [filter_by(gateway_id=gateway.id).filter(col(Agent.board_id).is_(None))]. *)
Definition main_agent_of (gateway : Gateway.t) (a : Agent.t) : Prop :=
  Agent.gateway_id a = Gateway.id gateway ∧ Agent.board_id a = None.

#[export] Instance main_agent_of_dec gateway a : Decision (main_agent_of gateway a).
Proof. unfold main_agent_of. apply _. Defined.

Definition find_main_agent (gateway : Gateway.t) : M (option ObjRef) :=
  let* w := get_world in
  ret (fst <$> list_find (main_agent_of gateway) (agents (session w))).

(** The loop [for key in ("id", "agentId", "agent_id")] over a dict entry:
    the first key that holds a string which is not blank decides. *)
Fixpoint first_id_under (item : gmap string json) (keys : list string)
  : option string :=
  match keys with
  | [] => None
  | key :: keys' =>
      match Json.get item key with
      | JStr raw =>
          if PyStr.truthy (PyStr.strip raw)
          then Some (PyStr.strip raw)
          else first_id_under item keys'
      | _ => first_id_under item keys'
      end
  end.

Definition extract_agent_id_from_entry (item : json) : option string :=
  match item with
  | JStr s =>
      let value := PyStr.strip s in
      PyStr.or_none value
  | JDict d => first_id_under d ["id"; "agentId"; "agent_id"]
  | _ => None
  end.

Definition extract_agents_list (payload : json) : list json :=
  match payload with
  | JList items => items
  | JDict d =>
      let agents := Json.or (Json.get d "agents") (JList []) in
      match agents with
      | JList items => items
      | _ => []
      end
  | _ => []
  end.

(** One [if stale: agent.attr = value; changed = True] step of the
    reconciler; the result is the new value of [changed]. *)
Definition correct (agent : ObjRef) (changed : bool)
    (stale : Agent.t -> bool) (assign : Agent.t -> Agent.t) : M bool :=
  let* a := read_agent agent in
  if stale a then setattr agent assign ;; ret true else ret changed.

Definition upsert_main_agent_record (gateway : Gateway.t)
  : M (ObjRef * bool) :=
  let changed := false in
  let session_key := session_key gateway in
  let* found := find_main_agent gateway in
  let main_agent_name := build_main_agent_name gateway in
  let identity_profile := build_identity_profile in
  let* (agent, changed) :=
    match found with
    | None =>
        (* [id] and [updated_at] are not passed to [Agent(...)]: they take
           the defaults of the model, a fresh identifier and the clock. *)
        let* new_id := uuid4 in
        let* created := utcnow in
        let* agent :=
          session_add_new
            {| Agent.id := new_id;
               Agent.name := main_agent_name;
               Agent.status := "provisioning";
               Agent.board_id := None;
               Agent.gateway_id := Gateway.id gateway;
               Agent.is_board_lead := false;
               Agent.openclaw_session_id := Some session_key;
               Agent.agent_token_hash := None;
               Agent.heartbeat_config := Some DEFAULT_HEARTBEAT_CONFIG;
               Agent.identity_profile := Some identity_profile;
               Agent.provision_requested_at := None;
               Agent.provision_action := None;
               Agent.updated_at := created |} in
        ret (agent, true)
    | Some agent => ret (agent, changed)
    end in
  let* changed :=
    correct agent changed
      (fun a => bool_decide (Agent.board_id a ≠ None))
      (Agent.set_board_id None) in
  let* changed :=
    correct agent changed
      (fun a => bool_decide (Agent.gateway_id a ≠ Gateway.id gateway))
      (Agent.set_gateway_id (Gateway.id gateway)) in
  let* changed :=
    correct agent changed Agent.is_board_lead (Agent.set_is_board_lead false) in
  let* changed :=
    correct agent changed
      (fun a => bool_decide (Agent.name a ≠ main_agent_name))
      (Agent.set_name main_agent_name) in
  let* changed :=
    correct agent changed
      (fun a => bool_decide (Agent.openclaw_session_id a ≠ Some session_key))
      (Agent.set_openclaw_session_id (Some session_key)) in
  let* changed :=
    correct agent changed
      (fun a => bool_decide (Agent.heartbeat_config a = None))
      (Agent.set_heartbeat_config (Some DEFAULT_HEARTBEAT_CONFIG)) in
  let* changed :=
    correct agent changed
      (fun a => bool_decide (Agent.identity_profile a = None))
      (Agent.set_identity_profile (Some identity_profile)) in
  let* changed :=
    correct agent changed
      (fun a => negb (PyStr.truthy (Agent.status a)))
      (Agent.set_status "provisioning") in
  (if changed
   then let* now := utcnow in
        setattr agent (Agent.set_updated_at now) ;;
        session_add agent
   else ret tt) ;;
  ret (agent, changed).

(** The outcome of the [try] around the roster call: the payload, or the
    early [return True] of the [except OpenClawGatewayError] clause. *)
Inductive RosterFetch : Type :=
| Fetched (payload : json)
| ReturnTrue.

Definition gateway_has_main_agent_entry (gateway : Gateway.t) : M bool :=
  match Gateway.url gateway with
  | None => ret false
  | Some url =>
      if negb (PyStr.truthy url) then ret false
      else
        let config := MkConfig url (Gateway.token gateway) in
        let target_id := openclaw_agent_id gateway in
        let* fetched :=
          try_except
            (let* payload := remote (OpenclawCall "agents.list" config) in
             ret (Fetched payload))
            (fun exc =>
               if isinstance exc OpenClawGatewayError
               then Some (ret ReturnTrue)
               else None) in
        match fetched with
        | ReturnTrue => ret true
        | Fetched payload =>
            ret (existsb
                   (fun item =>
                      bool_decide
                        (extract_agent_id_from_entry item = Some target_id))
                   (extract_agents_list payload))
        end
  end.

Definition provision_notice (agent_name : string) : string :=
  "Hello " ++ agent_name ++ ". Your gateway provisioning was updated."
  ++ String (Ascii.ascii_of_nat 10) (String (Ascii.ascii_of_nat 10)
  ("Please re-read AGENTS.md, USER.md, HEARTBEAT.md, and TOOLS.md. "
  ++ "If BOOTSTRAP.md exists, run it once then delete it. "
  ++ "Begin heartbeats after startup.")).

(** The body of the [try] statement of [provision_main_agent_record]. *)
Definition provision_remote_calls
    (gateway : Gateway.t) (agent : ObjRef) (raw_token : string)
    (user : option UUID) (action : string) (notify : bool) (url : string)
  : M unit :=
  let session_key := session_key gateway in
  let* a := read_agent agent in
  remote (ProvisionMainAgent a
            (MkProvisionRequest gateway raw_token user session_key
               (MkProvisionOptions action))) ;;
  let* a := read_agent agent in
  remote (EnsureSession session_key
            (MkConfig url (Gateway.token gateway)) (Agent.name a)) ;;
  (if notify
   then let* a := read_agent agent in
        remote (SendMessage (provision_notice (Agent.name a))
                  session_key
                  (MkConfig url (Gateway.token gateway)) true) ;;
        ret tt
   else ret tt) ;;
  log INFO "gateway.main_agent.provision_success" None.

(** Its [except] clauses, in order. *)
Definition provision_failure (exc : exn) : option (M unit) :=
  if isinstance exc OpenClawGatewayError
  then Some (log WARNING "gateway.main_agent.provision_failed_gateway"
                 (Some exc))
  else if isinstance_any exc [OSError; RuntimeError; ValueError]
  then Some (log ERROR "gateway.main_agent.provision_failed" (Some exc))
  else if isinstance exc Exception
  then Some (log CRITICAL "gateway.main_agent.provision_failed_unexpected"
                 (Some exc))
  else None.

Definition provision_main_agent_record
    (gateway : Gateway.t) (agent : ObjRef)
    (user : option UUID) (action : string) (notify : bool) : M ObjRef :=
  let* raw_token := generate_agent_token in
  setattr agent (Agent.set_agent_token_hash (Some (hash_agent_token raw_token))) ;;
  let* requested := utcnow in
  setattr agent (Agent.set_provision_requested_at (Some requested)) ;;
  setattr agent (Agent.set_provision_action (Some action)) ;;
  let* now := utcnow in
  setattr agent (Agent.set_updated_at now) ;;
  let* a := read_agent agent in
  (if bool_decide (Agent.heartbeat_config a = None)
   then setattr agent (Agent.set_heartbeat_config (Some DEFAULT_HEARTBEAT_CONFIG))
   else ret tt) ;;
  session_add agent ;;
  session_commit ;;
  session_refresh agent ;;
  match Gateway.url gateway with
  | None => ret agent
  | Some url =>
      if negb (PyStr.truthy url) then ret agent
      else
        try_except
          (provision_remote_calls gateway agent raw_token user action notify url)
          provision_failure ;;
        ret agent
  end.

Definition ensure_main_agent (gateway : Gateway.t) (auth_user : option UUID)
    (action : string) : M ObjRef :=
  log TRACE5 "gateway.main_agent.ensure.start" None ;;
  let* (agent, _) := upsert_main_agent_record gateway in
  provision_main_agent_record gateway agent auth_user action true.

(** The body of the loop of [ensure_gateway_agents_exist]. *)
Definition ensure_gateway_agent (gateway : Gateway.t) : M unit :=
  let* (agent, gateway_changed) := upsert_main_agent_record gateway in
  let* has_gateway_entry := gateway_has_main_agent_entry gateway in
  let* a := read_agent agent in
  let needs_provision :=
    gateway_changed
    || negb (PyStr.truthy_opt (Agent.agent_token_hash a))
    || negb has_gateway_entry in
  if needs_provision
  then provision_main_agent_record gateway agent None "provision" false ;;
       ret tt
  else ret tt.

Definition ensure_gateway_agents_exist (gateways : list Gateway.t) : M unit :=
  for_each gateways ensure_gateway_agent.

Definition clear_agent_foreign_keys (agent_id : UUID) : M unit :=
  let* now := utcnow in
  update_where tasks set_tasks
    (fun t => bool_decide (Task.assigned_agent_id t = Some agent_id)
              && bool_decide (Task.status t = "in_progress"))
    (fun t => Task.Mk (Task.id t) "inbox" None None now)
    false ;;
  update_where tasks set_tasks
    (fun t => bool_decide (Task.assigned_agent_id t = Some agent_id)
              && bool_decide (Task.status t ≠ "in_progress"))
    (fun t => Task.Mk (Task.id t) (Task.status t) None (Task.in_progress_at t) now)
    false ;;
  update_where activity_events set_activity_events
    (fun e => bool_decide (ActivityEvent.agent_id e = Some agent_id))
    (fun e => ActivityEvent.Mk (ActivityEvent.id e) None)
    false ;;
  update_where approvals set_approvals
    (fun p => bool_decide (Approval.agent_id p = Some agent_id))
    (fun p => Approval.Mk (Approval.id p) None)
    false.

(** *** [BoardOnboardingMessagingService] *)

(** Lifting the result of a helper that can fail. *)
Definition lift {A} (r : result A) : M A := fun w => (r, w).

(** The [except] clauses of [dispatch_start_prompt], in order. *)
Definition start_dispatch_failure (exc : exn) : option (M unit) :=
  if isinstance_any exc [OpenClawGatewayError; TimeoutError]
  then Some (log ERROR "gateway.onboarding.start_dispatch.failed" (Some exc) ;;
             raise (map_gateway_error_to_http_exception
                      ONBOARDING_START_DISPATCH exc))
  else if isinstance exc Exception
  then Some (log CRITICAL "gateway.onboarding.start_dispatch.failed_unexpected"
                 (Some exc) ;;
             raise exc)
  else None.

Definition dispatch_start_prompt (board : Board.t) (prompt : string)
    (correlation_id : option string) : M string :=
  let* trace_id := resolve_trace_id correlation_id "onboarding.start" in
  log TRACE5 "gateway.onboarding.start_dispatch.start" None ;;
  let* w := get_world in
  let* (gateway, config) :=
    lift (require_gateway_config_for_board (session w) board) in
  let session_key := session_key gateway in
  try_except
    (remote (DispatchGatewayMessage session_key config "Gateway Agent"
               prompt false) ;;
     ret tt)
    start_dispatch_failure ;;
  log INFO "gateway.onboarding.start_dispatch.success" None ;;
  ret session_key.

End Service.

(** ** The rest of the two services *)

Module BoardOnboardingSession.
Record t : Type := Mk {
  id : UUID;
  board_id : UUID;
  session_key : string;
}.
End BoardOnboardingSession.

(** [GatewayTemplateSyncQuery] of the session service and
    [GatewayTemplateSyncOptions] of the provisioning module, as
    [sync_templates] reads and fills them. *)
Record GatewayTemplateSyncQuery : Type := MkSyncQuery {
  query_include_main : bool;
  query_reset_sessions : bool;
  query_rotate_tokens : bool;
  query_force_bootstrap : bool;
  query_board_id : option UUID;
}.

Record GatewayTemplateSyncOptions : Type := MkSyncOptions {
  sync_user : option UUID;
  sync_include_main : bool;
  sync_reset_sessions : bool;
  sync_rotate_tokens : bool;
  sync_force_bootstrap : bool;
  sync_board_id : option UUID;
}.

Section MoreService.

Context {collaborators : Collaborators}.
Context {main_agent_manager : AbstractGatewayMainAgentManager}.

(** [require_gateway]: the gateway with this identifier inside the
    organization, or the 404.  The gateways table is not one of the tables of
    [Db]; the rows the session holds are passed in.  [exc_str] is what
    [str()] gives for the [HTTPException]. *)
Definition require_gateway (gateways : list Gateway.t)
    (gateway_id organization_id : UUID) : M Gateway.t :=
  let gateway :=
    snd <$> list_find
              (fun g => Gateway.id g = gateway_id
                        ∧ Gateway.organization_id g = organization_id)
              gateways in
  match gateway with
  | None => raise (MkExn HTTPException "404: Gateway not found")
  | Some gateway => ret gateway
  end.

(** [sync_templates]; [sync_gateway_templates] is the operation of the
    provisioning module, any computation over the session. *)
Definition sync_templates {R : Type}
    (sync_gateway_templates : Gateway.t -> GatewayTemplateSyncOptions -> M R)
    (gateway : Gateway.t) (query : GatewayTemplateSyncQuery)
    (auth_user : option UUID) : M R :=
  log TRACE5 "gateway.templates.sync.start" None ;;
  ensure_gateway_agents_exist [gateway] ;;
  let* result :=
    sync_gateway_templates gateway
      (MkSyncOptions auth_user
         (query_include_main query)
         (query_reset_sessions query)
         (query_rotate_tokens query)
         (query_force_bootstrap query)
         (query_board_id query)) in
  log INFO "gateway.templates.sync.success" None ;;
  ret result.

(** The [except] clauses of [dispatch_answer], in order. *)
Definition answer_dispatch_failure (exc : exn) : option (M unit) :=
  if isinstance_any exc [OpenClawGatewayError; TimeoutError]
  then Some (log ERROR "gateway.onboarding.answer_dispatch.failed" (Some exc) ;;
             raise (map_gateway_error_to_http_exception
                      ONBOARDING_ANSWER_DISPATCH exc))
  else if isinstance exc Exception
  then Some (log CRITICAL "gateway.onboarding.answer_dispatch.failed_unexpected"
                 (Some exc) ;;
             raise exc)
  else None.

Definition dispatch_answer (board : Board.t)
    (onboarding : BoardOnboardingSession.t) (answer_text : string)
    (correlation_id : option string) : M unit :=
  let* trace_id := resolve_trace_id correlation_id "onboarding.answer" in
  log TRACE5 "gateway.onboarding.answer_dispatch.start" None ;;
  let* w := get_world in
  let* (_gateway, config) :=
    lift (require_gateway_config_for_board (session w) board) in
  try_except
    (remote (DispatchGatewayMessage
               (BoardOnboardingSession.session_key onboarding) config
               "Gateway Agent" answer_text false) ;;
     ret tt)
    answer_dispatch_failure ;;
  log INFO "gateway.onboarding.answer_dispatch.success" None.

End MoreService.

(** ** Security response headers

    [backend/app/core/security_headers.py].  [bytes] are strings of 8-bit
    characters.  An ASGI message is its ["type"], its ["headers"] when the key
    is there, and the other keys. *)

Module SecurityHeaders.

Definition bytes := string.

(** [bytes.lower()]: the ASCII capitals only. *)
Definition lower_byte (c : Ascii.ascii) : Ascii.ascii :=
  let n := Ascii.N_of_ascii c in
  if ((65 <=? n) && (n <=? 90))%N then Ascii.ascii_of_N (n + 32) else c.

Fixpoint lower (b : bytes) : bytes :=
  match b with
  | EmptyString => EmptyString
  | String c r => String (lower_byte c) (lower r)
  end.

(** [str.encode("latin-1")]: a code point below 256 is the byte of the same
    number (above, the codec raises; such strings are outside [string]). *)
Definition encode_latin1 (s : string) : bytes := s.

Definition _X_CONTENT_TYPE_OPTIONS : bytes := "x-content-type-options".
Definition _X_FRAME_OPTIONS : bytes := "x-frame-options".
Definition _REFERRER_POLICY : bytes := "referrer-policy".
Definition _PERMISSIONS_POLICY : bytes := "permissions-policy".

Definition ConfiguredHeader : Type := bytes * bytes * bytes.

(** The loop of [_build_configured_headers] over (name, value) pairs. *)
Fixpoint collect_configured (pairs : list (bytes * string))
    (configured : list ConfiguredHeader) : list ConfiguredHeader :=
  match pairs with
  | [] => configured
  | (header_name, value) :: rest =>
      let normalized := PyStr.strip value in
      if negb (PyStr.truthy normalized)
      then collect_configured rest configured
      else collect_configured rest
             (configured
              ++ [(lower header_name, header_name, encode_latin1 normalized)])
  end.

Definition _build_configured_headers
    (x_content_type_options x_frame_options referrer_policy
       permissions_policy : string) : list ConfiguredHeader :=
  collect_configured
    [(_X_CONTENT_TYPE_OPTIONS, x_content_type_options);
     (_X_FRAME_OPTIONS, x_frame_options);
     (_REFERRER_POLICY, referrer_policy);
     (_PERMISSIONS_POLICY, permissions_policy)]
    [].

Record Message : Type := MkMessage {
  msg_type : string;
  msg_headers : option (list (bytes * bytes));
  msg_rest : gmap string json;
}.

(** The loop of [send_with_security_headers] over the configured headers:
    [headers] and [existing] are updated in place. *)
Fixpoint append_missing (configured : list ConfiguredHeader)
    (headers : list (bytes * bytes)) (existing : gset string)
  : list (bytes * bytes) :=
  match configured with
  | [] => headers
  | (key_lower, key, value) :: rest =>
      if decide (key_lower ∉ existing)
      then append_missing rest (headers ++ [(key, value)])
             ({[key_lower]} ∪ existing)
      else append_missing rest headers existing
  end.

(** [send_with_security_headers]: the message handed on to [send]. *)
Definition send_with_security_headers (configured : list ConfiguredHeader)
    (message : Message) : Message :=
  if bool_decide (msg_type message = "http.response.start")
  then
    let headers := default [] (msg_headers message) in
    let existing : gset string := list_to_set (map (fun kv => lower kv.1) headers) in
    MkMessage (msg_type message)
      (Some (append_missing configured headers existing))
      (msg_rest message)
  else message.

(** [__call__]: [app scope] are the messages the wrapped application sends,
    in order; the result are the messages that reach the server's [send]. *)
Definition call (configured : list ConfiguredHeader)
    (app : string -> list Message) (scope_type : string) : list Message :=
  if negb (bool_decide (scope_type = "http"))
     || match configured with [] => true | _ => false end
  then app scope_type
  else map (send_with_security_headers configured) (app scope_type).

End SecurityHeaders.

(** ** Passphrase login

    [backend/app/api/auth.py].  [bcrypt.checkpw] is a parameter: it answers
    or raises. *)

Module Auth.

Inductive AuthMode : Type :=
| LOCAL
| OtherMode (name : string).

#[export] Instance AuthMode_eq_dec : EqDecision AuthMode.
Proof. solve_decision. Defined.

Record Settings : Type := MkSettings {
  auth_mode : AuthMode;
  login_passphrase_hash : option string;
  local_auth_token : string;
}.

(** What an endpoint does: it returns, raises an [HTTPException] with a
    status and a detail, or lets another exception through. *)
Inductive response (A : Type) : Type :=
| Returns (a : A)
| RaisesHTTP (status_code : Z) (detail : option string)
| Propagates (e : exn).
Arguments Returns {A} a.
Arguments RaisesHTTP {A} status_code detail.
Arguments Propagates {A} e.

(** [str.encode("utf-8")] on code points below 256. *)
Fixpoint encode_utf8 (s : string) : string :=
  match s with
  | EmptyString => EmptyString
  | String c r =>
      let n := Ascii.N_of_ascii c in
      if (n <? 128)%N then String c (encode_utf8 r)
      else String (Ascii.ascii_of_N (192 + n / 64))
             (String (Ascii.ascii_of_N (128 + n mod 64)) (encode_utf8 r))
  end.

Definition login (settings : Settings)
    (checkpw : string -> string -> result bool) (passphrase : string)
  : response string :=
  if negb (bool_decide (auth_mode settings = LOCAL))
  then RaisesHTTP 503 (Some "Login endpoint only available in local auth mode")
  else if negb (PyStr.truthy_opt (login_passphrase_hash settings))
  then RaisesHTTP 503 (Some "Login passphrase not configured")
  else
    let passphrase_bytes := encode_utf8 passphrase in
    let hash_bytes :=
      encode_utf8 (default "" (login_passphrase_hash settings)) in
    match checkpw passphrase_bytes hash_bytes with
    | Raise e =>
        if isinstance e Exception
        then RaisesHTTP 401 (Some "Invalid passphrase")
        else Propagates e
    | Ok is_valid =>
        if negb is_valid
        then RaisesHTTP 401 (Some "Invalid passphrase")
        else Returns (local_auth_token settings)
    end.

(** [bootstrap_user]: [auth.actor_type] and [auth.user]. *)
Definition bootstrap_user {User : Type} (actor_type : string)
    (user : option User) : response User :=
  match user with
  | Some u =>
      if negb (bool_decide (actor_type = "user"))
      then RaisesHTTP 401 None
      else Returns u
  | None => RaisesHTTP 401 None
  end.

End Auth.

(** ** The migration of the review rule

    [backend/migrations/versions/f1b2c3d4e5a6_...py].  The schema seen here
    is the column list of the [boards] table. *)

Module Migration.

Inductive ColumnType : Type :=
| Boolean
| OtherType (name : string).

Record Column : Type := MkColumn {
  col_name : string;
  col_type : ColumnType;
  col_nullable : bool;
  col_server_default : option string;
}.

Definition comment_required_for_review : Column :=
  MkColumn "comment_required_for_review" Boolean false (Some "false").

(** [{column["name"] for column in inspector.get_columns("boards")}] *)
Definition board_columns (boards : list Column) : gset string :=
  list_to_set (map col_name boards).

Definition upgrade (boards : list Column) : list Column :=
  if decide ("comment_required_for_review" ∉ board_columns boards)
  then boards ++ [comment_required_for_review]
  else boards.

Definition downgrade (boards : list Column) : list Column :=
  if decide ("comment_required_for_review" ∈ board_columns boards)
  then filter (fun c => col_name c ≠ "comment_required_for_review") boards
  else boards.

End Migration.

(** ** A concrete deployment

    Collaborators and inputs on which the statements below are exercised. *)

Module Demo.

Definition gateway_error : exn := MkExn OpenClawGatewayError "gateway unreachable".
Definition timeout_error : exn := MkExn TimeoutError "timed out".

(** A remote gateway on which every call fails with the gateway error. *)
Definition rpc_down (tick : nat) (call : RemoteCall) : result json :=
  Raise gateway_error.

(** A remote gateway on which every call times out. *)
Definition rpc_timeout (tick : nat) (call : RemoteCall) : result json :=
  Raise timeout_error.

(** A remote gateway that answers every call; its roster lists [roster]. *)
Definition rpc_up (roster : json) (tick : nat) (call : RemoteCall) : result json :=
  match call with
  | OpenclawCall _ _ => Ok roster
  | _ => Ok JNull
  end.

Definition collaborators (rpc : nat -> RemoteCall -> result json) : Collaborators := {|
  session_key g := "agent:mc-gateway-" ++ Gateway.name g ++ ":main";
  openclaw_agent_id g := "mc-gateway-" ++ Gateway.name g;
  DEFAULT_HEARTBEAT_CONFIG := <["every" := JStr "10m"]> ∅;
  hash_agent_token raw := "sha256:" ++ raw;
  generate_agent_token_at n := "token-" ++ String (Ascii.ascii_of_nat (65 + n)) "";
  utcnow_at n := (1000 + Z.of_nat n)%Z;
  uuid4_at n := (500 + N.of_nat n)%N;
  gateway_rpc := rpc;
  map_gateway_error_to_http_exception op exc :=
    MkExn HTTPException ("502 " ++ exc_str exc);
  require_gateway_config_for_board db board :=
    match Board.gateway_id board with
    | Some gid =>
        Ok (Gateway.Mk gid 1%N "edge" (Some "ws://edge") None,
            MkConfig "ws://edge" None)
    | None => Raise (MkExn HTTPException "422 board has no gateway")
    end;
  resolve_trace_id_at n correlation_id prefix := default prefix correlation_id;
|}.

(** The deployment with the gateway down, and with every call timing out. *)
Definition down : Collaborators := collaborators rpc_down.
Definition timing_out : Collaborators := collaborators rpc_timeout.

Definition edge : Gateway.t := Gateway.Mk 7%N 1%N "edge" (Some "ws://edge") None.
Definition core : Gateway.t := Gateway.Mk 8%N 1%N "core" (Some "ws://core") None.
Definition offline : Gateway.t := Gateway.Mk 9%N 1%N "offline" None None.

Definition empty_db : Db := MkDb [] [] [] [].
Definition fresh : World := MkWorld empty_db empty_db 0 [].

(** The cascading-cleanup scenario: agent 42 with an in-progress task, a done
    task, an activity event and an approval; agent 43 owns the rest. *)
Definition cleanup_db : Db :=
  MkDb []
    [Task.Mk 1%N "in_progress" (Some 42%N) (Some 900%Z) 900%Z;
     Task.Mk 2%N "done" (Some 42%N) (Some 800%Z) 850%Z;
     Task.Mk 3%N "in_progress" (Some 43%N) (Some 910%Z) 910%Z]
    [ActivityEvent.Mk 1%N (Some 42%N); ActivityEvent.Mk 2%N (Some 43%N)]
    [Approval.Mk 1%N (Some 42%N); Approval.Mk 2%N None].
Definition cleanup_world : World := MkWorld cleanup_db cleanup_db 0 [].

(** A main agent of [edge] that was never provisioned, alone in the session. *)
Definition edge_agent : Agent.t :=
  {| Agent.id := 42%N;
     Agent.name := "edge Gateway Agent";
     Agent.status := "provisioning";
     Agent.board_id := None;
     Agent.gateway_id := 7%N;
     Agent.is_board_lead := false;
     Agent.openclaw_session_id := Some "agent:mc-gateway-edge:main";
     Agent.agent_token_hash := None;
     Agent.heartbeat_config := None;
     Agent.identity_profile := None;
     Agent.provision_requested_at := None;
     Agent.provision_action := None;
     Agent.updated_at := 900%Z |}.
Definition edge_db : Db := MkDb [edge_agent] [] [] [].
Definition edge_world : World := MkWorld edge_db edge_db 0 [].

(** The board of the onboarding flow. *)
Definition board : Board.t := Board.Mk 3%N (Some 7%N).

(** The deployment with a gateway that answers every call, its roster empty. *)
Definition up : Collaborators := collaborators (rpc_up (JList [])).

(** A roster that lists the agent of [edge] in a record whose ["id"] is
    blank and whose ["agentId"] holds the identifier with blanks around it. *)
Definition edge_entry : json :=
  JDict (<["id" := JStr " "]> (<["agentId" := JStr " mc-gateway-edge "]> ∅)).
Definition edge_entries : list json := [JStr "other"; edge_entry].
Definition edge_roster : json := JDict (<["agents" := JList edge_entries]> ∅).

(** The deployment with a gateway that answers every call and lists
    [edge_roster]. *)
Definition listing : Collaborators := collaborators (rpc_up edge_roster).

(** A roster whose only record names another agent under ["id"] and holds the
    identifier of [edge] under ["agentId"], and one that holds the identifier
    of [edge] with blanks around it. *)
Definition shadowed_entry : json :=
  JDict (<["id" := JStr "other"]> (<["agentId" := JStr "mc-gateway-edge"]> ∅)).
Definition shadowed_roster : json := JList [shadowed_entry].
Definition padded_roster : json := JList [JStr " mc-gateway-edge "].

(** The main agent of [edge] with every invariant of the reconciler and a
    credential, alone in the database. *)
Definition settled_agent : Agent.t :=
  {| Agent.id := 42%N;
     Agent.name := "edge Gateway Agent";
     Agent.status := "online";
     Agent.board_id := None;
     Agent.gateway_id := 7%N;
     Agent.is_board_lead := false;
     Agent.openclaw_session_id := Some "agent:mc-gateway-edge:main";
     Agent.agent_token_hash := Some "sha256:token-0";
     Agent.heartbeat_config := Some (<["every" := JStr "10m"]> ∅);
     Agent.identity_profile := Some (<["role" := "Gateway Agent"]> ∅);
     Agent.provision_requested_at := Some 800%Z;
     Agent.provision_action := Some "provision";
     Agent.updated_at := 900%Z |}.
Definition settled_db : Db := MkDb [settled_agent] [] [] [].
Definition settled_world : World := MkWorld settled_db settled_db 0 [].

(** The start of a response on which the application set one of the
    configured headers, in capitals. *)
Definition start_message : SecurityHeaders.Message :=
  SecurityHeaders.MkMessage "http.response.start"
    (Some [("X-Frame-Options", "DENY")]) ∅.

End Demo.

(** ** Vocabulary of the statements *)

(** The object behind a reference, and the world in which the object behind
    [agent] has the attributes [a]. *)
Definition lookup_agent (w : World) (agent : ObjRef) : option Agent.t :=
  agents (session w) !! agent.

Definition put_agent (agent : ObjRef) (a : Agent.t) (w : World) : World :=
  set_session (set_agents (<[agent := a]> (agents (session w))) (session w)) w.

(** The world after [Agent(...)] and [session.add]. *)
Definition push_agent (a : Agent.t) (w : World) : World :=
  set_session (set_agents (agents (session w) ++ [a]) (session w)) w.

(** The world after [session.commit()]. *)
Definition committed (w : World) : World :=
  emit EvCommit (MkWorld (session w) (session w) (ticks w) (trace w)).

(** One correction of the reconciler on the attributes alone. *)
Definition amend (stale : Agent.t -> bool) (assign : Agent.t -> Agent.t)
    (st : Agent.t * bool) : Agent.t * bool :=
  if stale st.1 then (assign st.1, true) else st.

(** The eight corrections of [upsert_main_agent_record], in order. *)
Definition reconcile {collaborators : Collaborators}
    {main_agent_manager : AbstractGatewayMainAgentManager}
    (gateway : Gateway.t) (st : Agent.t * bool) : Agent.t * bool :=
  amend (fun a => negb (PyStr.truthy (Agent.status a)))
        (Agent.set_status "provisioning")
  (amend (fun a => bool_decide (Agent.identity_profile a = None))
         (Agent.set_identity_profile (Some build_identity_profile))
  (amend (fun a => bool_decide (Agent.heartbeat_config a = None))
         (Agent.set_heartbeat_config (Some DEFAULT_HEARTBEAT_CONFIG))
  (amend (fun a => bool_decide
                     (Agent.openclaw_session_id a ≠ Some (session_key gateway)))
         (Agent.set_openclaw_session_id (Some (session_key gateway)))
  (amend (fun a => bool_decide (Agent.name a ≠ build_main_agent_name gateway))
         (Agent.set_name (build_main_agent_name gateway))
  (amend Agent.is_board_lead (Agent.set_is_board_lead false)
  (amend (fun a => bool_decide (Agent.gateway_id a ≠ Gateway.id gateway))
         (Agent.set_gateway_id (Gateway.id gateway))
  (amend (fun a => bool_decide (Agent.board_id a ≠ None))
         (Agent.set_board_id None) st))))))).

(** An agent on which the reconciler finds nothing to correct. *)
Definition reconciled {collaborators : Collaborators}
    {main_agent_manager : AbstractGatewayMainAgentManager}
    (gateway : Gateway.t) (a : Agent.t) : Prop :=
  Agent.board_id a = None
  ∧ Agent.gateway_id a = Gateway.id gateway
  ∧ Agent.is_board_lead a = false
  ∧ Agent.name a = build_main_agent_name gateway
  ∧ Agent.openclaw_session_id a = Some (session_key gateway)
  ∧ Agent.heartbeat_config a ≠ None
  ∧ Agent.identity_profile a ≠ None
  ∧ PyStr.truthy (Agent.status a) = true.

(** The record [upsert_main_agent_record] constructs when it finds none. *)
Definition new_main_agent {collaborators : Collaborators}
    {main_agent_manager : AbstractGatewayMainAgentManager}
    (gateway : Gateway.t) (new_id : UUID) (created : datetime) : Agent.t :=
  {| Agent.id := new_id;
     Agent.name := build_main_agent_name gateway;
     Agent.status := "provisioning";
     Agent.board_id := None;
     Agent.gateway_id := Gateway.id gateway;
     Agent.is_board_lead := false;
     Agent.openclaw_session_id := Some (session_key gateway);
     Agent.agent_token_hash := None;
     Agent.heartbeat_config := Some DEFAULT_HEARTBEAT_CONFIG;
     Agent.identity_profile := Some build_identity_profile;
     Agent.provision_requested_at := None;
     Agent.provision_action := None;
     Agent.updated_at := created |}.

(** The number of main agents a gateway has in the session. *)
Definition count_main_agents (gateway : Gateway.t) (w : World) : nat :=
  length (filter (main_agent_of gateway) (agents (session w))).

(** A finite sequence of reconcile calls, one per listed gateway. *)
Definition reconcile_sequence {collaborators : Collaborators}
    {main_agent_manager : AbstractGatewayMainAgentManager}
    (gateways : list Gateway.t) : M unit :=
  for_each gateways (fun gateway => upsert_main_agent_record gateway ;; ret tt).

(** Events by kind. *)
Definition is_commit (e : Event) : bool :=
  match e with EvCommit => true | _ => false end.

Definition is_remote (e : Event) : bool :=
  match e with EvRemote _ _ => true | _ => false end.

Definition is_send_message (e : Event) : bool :=
  match e with EvRemote (SendMessage _ _ _ _) _ => true | _ => false end.

(** The roster call of a gateway whose URL is [url]. *)
Definition roster_call (gateway : Gateway.t) (url : string) : RemoteCall :=
  OpenclawCall "agents.list" (MkConfig url (Gateway.token gateway)).

(** [not gateway.url] *)
Definition url_configured (gateway : Gateway.t) : option string :=
  match Gateway.url gateway with
  | Some url => if PyStr.truthy url then Some url else None
  | None => None
  end.

(** An entry of the roster that carries an identifier: a string that is not
    blank, or a dict with such a string under an accepted key. *)
Definition accepted_keys : list string := ["id"; "agentId"; "agent_id"].

Definition carries_id (item : json) : Prop :=
  (exists s, item = JStr s ∧ PyStr.strip s ≠ "")
  ∨ (exists d key raw,
       item = JDict d ∧ key ∈ accepted_keys
       ∧ d !! key = Some (JStr raw) ∧ PyStr.strip raw ≠ "").

(** The roster of a payload lists the identifier [target]. *)
Definition roster_lists (payload : json) (target : string) : Prop :=
  exists item, item ∈ extract_agents_list payload
               ∧ extract_agent_id_from_entry item = Some target.

(** The entries of a roster payload, said without the parser: the payload
    itself when it is a list, the list under ["agents"] when the payload is a
    dict that holds one. *)
Definition listed_in (payload item : json) : Prop :=
  (exists items, payload = JList items ∧ item ∈ items)
  ∨ (exists (d : gmap string json) items,
       payload = JDict d ∧ d !! "agents" = Some (JList items) ∧ item ∈ items).

(** The key holds no identifier: no string, or a blank one. *)
Definition holds_no_id (d : gmap string json) (key : string) : Prop :=
  forall raw, d !! key = Some (JStr raw) -> PyStr.strip raw = "".

(** The identifier an entry names, said without the parser.  A string names
    what it holds without the surrounding white space.  A dict names what the
    first of ["id"], ["agentId"], ["agent_id"] that holds a string which is
    not blank holds, without the surrounding white space; the keys after it
    are not read. *)
Definition names_id (item : json) (target : string) : Prop :=
  target ≠ ""
  ∧ ((exists s, item = JStr s ∧ PyStr.strip s = target)
     ∨ (exists (d : gmap string json) before key after raw,
          item = JDict d
          ∧ accepted_keys = (before ++ key :: after)%list
          ∧ (forall k, k ∈ before -> holds_no_id d k)
          ∧ d !! key = Some (JStr raw)
          ∧ PyStr.strip raw = target)).

(** The words of the specification for a match: the entry, a plain string or
    a record with an id under an accepted key name, equals [target]. *)
Definition equals_id (item : json) (target : string) : Prop :=
  item = JStr target
  ∨ (exists (d : gmap string json) key,
       item = JDict d ∧ key ∈ accepted_keys ∧ d !! key = Some (JStr target)).

(** Modelled from the spec: the gateway client ([openclaw_call] of
    [app.integrations.openclaw_gateway], which is not part of the sources at
    hand) performs the RPC calls against the remote gateway, raising a
    distinguished error type on failure: a roster call answers or raises the
    gateway error. *)
Definition roster_call_contract {collaborators : Collaborators} : Prop :=
  forall n method config e,
    gateway_rpc n (OpenclawCall method config) = Raise e ->
    isinstance e OpenClawGatewayError = true.

(** A failure of a remote call is an [Exception] (the gateway error is one):
    what the provisioner calls raises nothing that only derives from
    [BaseException]. *)
Definition remote_failures_are_exceptions {collaborators : Collaborators} : Prop :=
  forall n call e, gateway_rpc n call = Raise e -> isinstance e Exception = true.

(** The world after the remote [call]. *)
Definition called {collaborators : Collaborators} (call : RemoteCall) (w : World) : World :=
  emit (EvRemote call (gateway_rpc (ticks w) call)) (tick w).

(** The attributes [provision_main_agent_record] gives an agent before it
    commits. *)
Definition provisioned {collaborators : Collaborators}
    (token_hash : string) (requested : datetime) (action : string)
    (now : datetime) (a : Agent.t) : Agent.t :=
  let a := Agent.set_updated_at now
             (Agent.set_provision_action (Some action)
                (Agent.set_provision_requested_at (Some requested)
                   (Agent.set_agent_token_hash (Some token_hash) a))) in
  if bool_decide (Agent.heartbeat_config a = None)
  then Agent.set_heartbeat_config (Some DEFAULT_HEARTBEAT_CONFIG) a
  else a.

(** What [clear_agent_foreign_keys] does to one row of each table. *)
Definition released_task (agent_id : UUID) (now : datetime) (t : Task.t) : Task.t :=
  if bool_decide (Task.assigned_agent_id t = Some agent_id)
  then if bool_decide (Task.status t = "in_progress")
       then Task.Mk (Task.id t) "inbox" None None now
       else Task.Mk (Task.id t) (Task.status t) None (Task.in_progress_at t) now
  else t.

Definition released_event (agent_id : UUID) (e : ActivityEvent.t)
  : ActivityEvent.t :=
  if bool_decide (ActivityEvent.agent_id e = Some agent_id)
  then ActivityEvent.Mk (ActivityEvent.id e) None
  else e.

Definition released_approval (agent_id : UUID) (p : Approval.t) : Approval.t :=
  if bool_decide (Approval.agent_id p = Some agent_id)
  then Approval.Mk (Approval.id p) None
  else p.

(** The call of the provisioner in the sweep, its result dropped. *)
Definition provision_for_sweep {collaborators : Collaborators}
    (gateway : Gateway.t) (agent : ObjRef) : M unit :=
  provision_main_agent_record gateway agent None "provision" false ;; ret tt.

(** [needs_provision] of [ensure_gateway_agents_exist]. *)
Definition needs_provision (gateway_changed : bool) (a : Agent.t)
    (has_gateway_entry : bool) : bool :=
  gateway_changed
  || negb (PyStr.truthy_opt (Agent.agent_token_hash a))
  || negb has_gateway_entry.

(** The header a configured entry appends. *)
Definition header_of (c : SecurityHeaders.ConfiguredHeader)
  : SecurityHeaders.bytes * SecurityHeaders.bytes := (c.1.2, c.2).

(** The lowered names of a header list: [existing] of the wrapper. *)
Definition lowered_names
    (headers : list (SecurityHeaders.bytes * SecurityHeaders.bytes))
  : gset string :=
  list_to_set (map (fun kv => SecurityHeaders.lower kv.1) headers).

(** What [_build_configured_headers] makes of one (name, value) pair. *)
Definition configured_entry (header_name : SecurityHeaders.bytes)
    (value : string) : list SecurityHeaders.ConfiguredHeader :=
  if PyStr.truthy (PyStr.strip value)
  then [(SecurityHeaders.lower header_name, header_name,
         SecurityHeaders.encode_latin1 (PyStr.strip value))]
  else [].

(** The headers of a message, none when the key is missing. *)
Definition headers_of (message : SecurityHeaders.Message)
  : list (SecurityHeaders.bytes * SecurityHeaders.bytes) :=
  default [] (SecurityHeaders.msg_headers message).

(** The remote calls of [provision_main_agent_record], in the order of the
    source, for the agent attributes [a] and the gateway URL [url]. *)
Definition provision_calls {collaborators : Collaborators}
    (gateway : Gateway.t) (a : Agent.t) (raw_token : string)
    (user : option UUID) (action : string) (notify : bool) (url : string)
  : list RemoteCall :=
  ([ProvisionMainAgent a
      (MkProvisionRequest gateway raw_token user (session_key gateway)
         (MkProvisionOptions action));
    EnsureSession (session_key gateway)
      (MkConfig url (Gateway.token gateway)) (Agent.name a)]
   ++ if notify
      then [SendMessage (provision_notice (Agent.name a)) (session_key gateway)
              (MkConfig url (Gateway.token gateway)) true]
      else [])%list.

(** Calls made one after the other from tick [n] until one raises: the
    events they leave and the exception that stopped them. *)
Fixpoint run_calls {collaborators : Collaborators} (n : nat)
    (calls : list RemoteCall) : list Event * option exn :=
  match calls with
  | [] => ([], None)
  | call :: rest =>
      match gateway_rpc n call with
      | Ok payload =>
          let (evs, failed) := run_calls (S n) rest in
          (EvRemote call (Ok payload) :: evs, failed)
      | Raise e => ([EvRemote call (Raise e)], Some e)
      end
  end.

(** The log entry of the [except] clause of [provision_main_agent_record]
    that takes [e], none when no clause does. *)
Definition failure_log (e : exn) : list Event :=
  if isinstance e OpenClawGatewayError
  then [EvLog WARNING "gateway.main_agent.provision_failed_gateway" (Some e)]
  else if isinstance_any e [OSError; RuntimeError; ValueError]
  then [EvLog ERROR "gateway.main_agent.provision_failed" (Some e)]
  else if isinstance e Exception
  then [EvLog CRITICAL "gateway.main_agent.provision_failed_unexpected" (Some e)]
  else [].

Definition is_log (e : Event) : bool :=
  match e with EvLog _ _ _ => true | _ => false end.

(** ** Properties *)

Section Properties.

Context {collaborators : Collaborators}.
Context {main_agent_manager : AbstractGatewayMainAgentManager}.

Implicit Types (w : World) (a : Agent.t) (agent : ObjRef) (gateway : Gateway.t).

(** *** The monad and the primitive effects *)

Lemma bind_ret {A B} (x : A) (k : A -> M B) w : bind (ret x) k w = k x w.
Proof. reflexivity. Qed.

Lemma bind_bind {A B C} (m : M A) (k : A -> M B) (k' : B -> M C) w :
  bind (bind m k) k' w = bind m (fun x => bind (k x) k') w.
Proof. unfold bind. destruct (m w) as [[x|e] w']; reflexivity. Qed.

Lemma bind_run {A B} (m : M A) (k : A -> M B) w x w' :
  m w = (Ok x, w') -> bind m k w = k x w'.
Proof. unfold bind. intros ->. reflexivity. Qed.

Lemma bind_raise {A B} (m : M A) (k : A -> M B) w e w' :
  m w = (Raise e, w') -> bind m k w = (Raise e, w').
Proof. unfold bind. intros ->. reflexivity. Qed.

Lemma world_eta w : MkWorld (session w) (durable w) (ticks w) (trace w) = w.
Proof. destruct w; reflexivity. Qed.

Lemma db_eta (d : Db) :
  MkDb (agents d) (tasks d) (activity_events d) (approvals d) = d.
Proof. destruct d; reflexivity. Qed.

Lemma lookup_put_agent agent a w :
  agent < length (agents (session w)) ->
  lookup_agent (put_agent agent a w) agent = Some a.
Proof. intros Hlt. unfold lookup_agent, put_agent. simpl. by apply list_lookup_insert_eq. Qed.

Lemma lookup_put_agent_ne agent agent' a w :
  agent ≠ agent' ->
  lookup_agent (put_agent agent a w) agent' = lookup_agent w agent'.
Proof. intros Hne. unfold lookup_agent, put_agent. simpl. by apply list_lookup_insert_ne. Qed.

Lemma put_agent_id agent a w : lookup_agent w agent = Some a -> put_agent agent a w = w.
Proof.
  unfold lookup_agent, put_agent, set_session, set_agents. intros Ha.
  rewrite list_insert_id by done. by rewrite db_eta, world_eta.
Qed.

Lemma put_put_agent agent a a' w :
  put_agent agent a' (put_agent agent a w) = put_agent agent a' w.
Proof.
  unfold put_agent, set_session, set_agents. simpl. by rewrite list_insert_insert_eq.
Qed.

Lemma length_put_agent agent a w :
  length (agents (session (put_agent agent a w))) = length (agents (session w)).
Proof. unfold put_agent. simpl. apply length_insert. Qed.

Lemma read_agent_run agent a w : lookup_agent w agent = Some a -> read_agent agent w = (Ok a, w).
Proof. unfold lookup_agent, read_agent. by intros ->. Qed.

Lemma setattr_run agent a f w :
  lookup_agent w agent = Some a -> setattr agent f w = (Ok tt, put_agent agent (f a) w).
Proof.
  intros Ha. unfold setattr. rewrite (bind_run _ _ _ _ _ (read_agent_run _ _ _ Ha)).
  reflexivity.
Qed.

Lemma correct_run agent changed stale assign a w :
  lookup_agent w agent = Some a ->
  correct agent changed stale assign w
  = (Ok (amend stale assign (a, changed)).2,
     put_agent agent (amend stale assign (a, changed)).1 w).
Proof.
  intros Ha. unfold correct, amend. rewrite (bind_run _ _ _ _ _ (read_agent_run _ _ _ Ha)).
  simpl. destruct (stale a); simpl.
  - rewrite (bind_run _ _ _ _ _ (setattr_run _ _ _ _ Ha)). reflexivity.
  - by rewrite put_agent_id.
Qed.

Lemma utcnow_run w : utcnow w = (Ok (utcnow_at (ticks w)), tick w).
Proof. reflexivity. Qed.

Lemma uuid4_run w : uuid4 w = (Ok (uuid4_at (ticks w)), tick w).
Proof. reflexivity. Qed.

Lemma generate_agent_token_run w :
  generate_agent_token w = (Ok (generate_agent_token_at (ticks w)), tick w).
Proof. reflexivity. Qed.

Lemma session_add_new_run a w :
  session_add_new a w = (Ok (length (agents (session w))), push_agent a w).
Proof. reflexivity. Qed.

Lemma session_add_run agent a w :
  lookup_agent w agent = Some a -> session_add agent w = (Ok tt, w).
Proof.
  intros Ha. unfold session_add.
  by rewrite (bind_run _ _ _ _ _ (read_agent_run _ _ _ Ha)).
Qed.

Lemma session_refresh_run agent a w :
  lookup_agent w agent = Some a -> session_refresh agent w = (Ok tt, w).
Proof.
  intros Ha. unfold session_refresh.
  rewrite (bind_run _ _ _ _ _ (read_agent_run _ _ _ Ha)).
  rewrite (setattr_run _ _ _ _ Ha). by rewrite put_agent_id.
Qed.

Lemma session_commit_run w : session_commit w = (Ok tt, committed w).
Proof. reflexivity. Qed.

Lemma log_run level message exc w :
  log level message exc w = (Ok tt, emit (EvLog level message exc) w).
Proof. reflexivity. Qed.

Lemma remote_run call w :
  remote call w
  = (gateway_rpc (ticks w) call,
     emit (EvRemote call (gateway_rpc (ticks w) call)) (tick w)).
Proof. reflexivity. Qed.

(** *** The reconciler *)

Lemma find_main_agent_run gateway w :
  find_main_agent gateway w
  = (Ok (fst <$> list_find (main_agent_of gateway) (agents (session w))), w).
Proof. reflexivity. Qed.

Lemma reconcile_steps gateway agent changed a w (k : bool -> M (ObjRef * bool)) :
  lookup_agent w agent = Some a ->
  (let* changed :=
     correct agent changed
       (fun a => bool_decide (Agent.board_id a ≠ None))
       (Agent.set_board_id None) in
   let* changed :=
     correct agent changed
       (fun a => bool_decide (Agent.gateway_id a ≠ Gateway.id gateway))
       (Agent.set_gateway_id (Gateway.id gateway)) in
   let* changed :=
     correct agent changed Agent.is_board_lead (Agent.set_is_board_lead false) in
   let* changed :=
     correct agent changed
       (fun a => bool_decide (Agent.name a ≠ build_main_agent_name gateway))
       (Agent.set_name (build_main_agent_name gateway)) in
   let* changed :=
     correct agent changed
       (fun a => bool_decide (Agent.openclaw_session_id a ≠ Some (session_key gateway)))
       (Agent.set_openclaw_session_id (Some (session_key gateway))) in
   let* changed :=
     correct agent changed
       (fun a => bool_decide (Agent.heartbeat_config a = None))
       (Agent.set_heartbeat_config (Some DEFAULT_HEARTBEAT_CONFIG)) in
   let* changed :=
     correct agent changed
       (fun a => bool_decide (Agent.identity_profile a = None))
       (Agent.set_identity_profile (Some build_identity_profile)) in
   let* changed :=
     correct agent changed
       (fun a => negb (PyStr.truthy (Agent.status a)))
       (Agent.set_status "provisioning") in
   k changed) w
  = k (reconcile gateway (a, changed)).2
      (put_agent agent (reconcile gateway (a, changed)).1 w).
Proof.
  intros Ha.
  assert (Hlt : agent < length (agents (session w))) by (by eapply lookup_lt_Some).
  unfold reconcile.
  rewrite (bind_run _ _ _ _ _ (correct_run _ _ _ _ _ _ Ha)).
  do 7 (rewrite (bind_run _ _ _ _ _
                   (correct_run _ _ _ _ _ _ (lookup_put_agent _ _ _ Hlt)));
        rewrite put_put_agent, <- surjective_pairing).
  reflexivity.
Qed.




Lemma amend_field {B} (proj : Agent.t -> B) stale assign (st : Agent.t * bool) :
  (forall a, proj (assign a) = proj a) ->
  proj (amend stale assign st).1 = proj st.1.
Proof. intros Hf. unfold amend. destruct (stale st.1); [apply Hf | reflexivity]. Qed.

Lemma amend_fixes (good : Agent.t -> Prop) stale assign (st : Agent.t * bool) :
  (forall a, good (assign a)) ->
  (stale st.1 = false -> good st.1) ->
  good (amend stale assign st).1.
Proof. intros Hf Hg. unfold amend. destruct (stale st.1); [apply Hf | by apply Hg]. Qed.

Lemma amend_not_stale stale assign (st : Agent.t * bool) :
  stale st.1 = false -> amend stale assign st = st.
Proof. unfold amend. by intros ->. Qed.

Lemma amend_unchanged stale assign (st : Agent.t * bool) :
  (amend stale assign st).2 = false -> stale st.1 = false ∧ amend stale assign st = st.
Proof. unfold amend. destruct (stale st.1); [discriminate | done]. Qed.

Lemma amend_changed stale assign (st : Agent.t * bool) :
  st.2 = true -> (amend stale assign st).2 = true.
Proof. unfold amend. by destruct (stale st.1). Qed.

Lemma reconcile_reconciled gateway a changed :
  reconciled gateway (reconcile gateway (a, changed)).1.
Proof.
  unfold reconciled, reconcile. repeat split.
  - rewrite !(amend_field Agent.board_id) by done.
    apply (amend_fixes (fun a => Agent.board_id a = None)); [done|].
    intros Hs. apply bool_decide_eq_false in Hs. by apply dec_stable.
  - rewrite !(amend_field Agent.gateway_id) by done.
    apply (amend_fixes (fun a => Agent.gateway_id a = Gateway.id gateway)); [done|].
    intros Hs. apply bool_decide_eq_false in Hs. by apply dec_stable.
  - rewrite !(amend_field Agent.is_board_lead) by done.
    by apply (amend_fixes (fun a => Agent.is_board_lead a = false)).
  - rewrite !(amend_field Agent.name) by done.
    apply (amend_fixes (fun a => Agent.name a = build_main_agent_name gateway)); [done|].
    intros Hs. apply bool_decide_eq_false in Hs. by apply dec_stable.
  - rewrite !(amend_field Agent.openclaw_session_id) by done.
    apply (amend_fixes
             (fun a => Agent.openclaw_session_id a = Some (session_key gateway))); [done|].
    intros Hs. apply bool_decide_eq_false in Hs. by apply dec_stable.
  - rewrite !(amend_field Agent.heartbeat_config) by done.
    apply (amend_fixes (fun a => Agent.heartbeat_config a ≠ None)); [done|].
    intros Hs. by apply bool_decide_eq_false in Hs.
  - rewrite !(amend_field Agent.identity_profile) by done.
    apply (amend_fixes (fun a => Agent.identity_profile a ≠ None)); [done|].
    intros Hs. by apply bool_decide_eq_false in Hs.
  - apply (amend_fixes (fun a => PyStr.truthy (Agent.status a) = true)); [done|].
    intros Hs. by apply negb_false_iff in Hs.
Qed.

Lemma reconcile_id gateway a changed :
  reconciled gateway a -> reconcile gateway (a, changed) = (a, changed).
Proof.
  intros (Hb & Hg & Hl & Hn & Hk & Hh & Hp & Hs). unfold reconcile.
  rewrite !amend_not_stale; first done.
  - cbn. apply bool_decide_eq_false_2. by intros Hne.
  - rewrite !(amend_field Agent.gateway_id) by done.
    apply bool_decide_eq_false_2. by intros Hne.
  - by rewrite !(amend_field Agent.is_board_lead) by done.
  - rewrite !(amend_field Agent.name) by done.
    apply bool_decide_eq_false_2. by intros Hne.
  - rewrite !(amend_field Agent.openclaw_session_id) by done.
    apply bool_decide_eq_false_2. by intros Hne.
  - rewrite !(amend_field Agent.heartbeat_config) by done.
    by apply bool_decide_eq_false_2.
  - rewrite !(amend_field Agent.identity_profile) by done.
    by apply bool_decide_eq_false_2.
  - rewrite !(amend_field Agent.status) by done. cbn. by rewrite Hs.
Qed.

Lemma reconcile_unchanged gateway a :
  (reconcile gateway (a, false)).2 = false -> reconciled gateway a.
Proof.
  unfold reconcile. intros Hc.
  repeat match type of Hc with
  | (amend ?s ?f ?st).2 = false =>
      let Hs := fresh "Hs" in
      let He := fresh "He" in
      destruct (amend_unchanged s f st Hc) as [Hs He];
      rewrite He in Hc; clear He;
      try rewrite !(amend_not_stale _ _ _ Hs) in *
  end.
  cbn in *. unfold reconciled.
  repeat match goal with
  | H : bool_decide _ = false |- _ => apply bool_decide_eq_false in H
  | H : negb _ = false |- _ => apply negb_false_iff in H
  end.
  repeat split; try done; by apply dec_stable.
Qed.

Lemma reconcile_changed gateway a : (reconcile gateway (a, true)).2 = true.
Proof. unfold reconcile. by repeat apply amend_changed. Qed.

Lemma reconcile_frame gateway a changed :
  let a' := (reconcile gateway (a, changed)).1 in
  Agent.id a' = Agent.id a
  ∧ Agent.agent_token_hash a' = Agent.agent_token_hash a
  ∧ Agent.provision_requested_at a' = Agent.provision_requested_at a
  ∧ Agent.provision_action a' = Agent.provision_action a
  ∧ Agent.updated_at a' = Agent.updated_at a
  ∧ (PyStr.truthy (Agent.status a) = true -> Agent.status a' = Agent.status a).
Proof.
  cbn zeta. unfold reconcile. repeat split.
  - by rewrite !(amend_field Agent.id) by done.
  - by rewrite !(amend_field Agent.agent_token_hash) by done.
  - by rewrite !(amend_field Agent.provision_requested_at) by done.
  - by rewrite !(amend_field Agent.provision_action) by done.
  - by rewrite !(amend_field Agent.updated_at) by done.
  - intros Hs. rewrite amend_not_stale.
    + by rewrite !(amend_field Agent.status) by done.
    + rewrite !(amend_field Agent.status) by done. cbn. by rewrite Hs.
Qed.

(** The corrections leave a main agent of the gateway a main agent of it,
    and any agent a main agent afterwards. *)
Lemma reconcile_main_agent gateway a changed :
  main_agent_of gateway (reconcile gateway (a, changed)).1.
Proof.
  destruct (reconcile_reconciled gateway a changed) as (? & ? & _). by split.
Qed.




Lemma reconciled_main_agent gateway a : reconciled gateway a -> main_agent_of gateway a.
Proof. intros (? & ? & _). by split. Qed.

Lemma reconciled_stamp gateway a now :
  reconciled gateway a -> reconciled gateway (Agent.set_updated_at now a).
Proof. done. Qed.

Lemma new_main_agent_reconciled gateway new_id created :
  reconciled gateway (new_main_agent gateway new_id created).
Proof. by repeat split. Qed.

(** The reconciler on a gateway whose main agent exists. *)
Lemma upsert_found gateway w agent a :
  list_find (main_agent_of gateway) (agents (session w)) = Some (agent, a) ->
  upsert_main_agent_record gateway w
  = let st := reconcile gateway (a, false) in
    (Ok (agent, st.2),
     if st.2
     then put_agent agent (Agent.set_updated_at (utcnow_at (ticks w)) st.1) (tick w)
     else w).
Proof.
  intros Hfind.
  assert (Ha : lookup_agent w agent = Some a).
  { by apply list_find_Some in Hfind as (? & _). }
  assert (Hlt : agent < length (agents (session w))) by (by eapply lookup_lt_Some).
  unfold upsert_main_agent_record.
  rewrite (bind_run _ _ _ _ _ (find_main_agent_run gateway w)), Hfind. cbn [fmap option_fmap option_map fst].
  unfold bind at 1. unfold ret at 1. cbv beta iota.
  rewrite (reconcile_steps gateway agent false a w _ Ha).
  cbn zeta. destruct (reconcile gateway (a, false)) as [a' c] eqn:Hr. cbn [fst snd].
  destruct c.
  - assert (Ha' : lookup_agent (tick (put_agent agent a' w)) agent = Some a').
    { apply (lookup_put_agent agent a' w Hlt). }
    assert (Ha'' : lookup_agent
                     (put_agent agent (Agent.set_updated_at (utcnow_at (ticks w)) a')
                        (tick (put_agent agent a' w))) agent
                   = Some (Agent.set_updated_at (utcnow_at (ticks w)) a')).
    { apply lookup_put_agent. cbn. rewrite length_insert. exact Hlt. }
    rewrite !bind_bind.
    rewrite (bind_run _ _ _ _ _ (utcnow_run _)).
    rewrite bind_bind.
    rewrite (bind_run _ _ _ _ _ (setattr_run _ _ _ _ Ha')).
    rewrite (bind_run _ _ _ _ _ (session_add_run _ _ _ Ha'')).
    unfold ret. f_equal.
    unfold put_agent, tick, set_session, set_agents. cbn.
    by rewrite list_insert_insert_eq.
  - rewrite bind_ret. unfold ret. f_equal.
    apply put_agent_id.
    assert (Hrec : reconciled gateway a).
    { apply reconcile_unchanged. by rewrite Hr. }
    rewrite (reconcile_id _ _ _ Hrec) in Hr. by injection Hr as <-.
Qed.

Lemma insert_snoc {A} (l : list A) (x y : A) :
  (<[List.length l := y]> (l ++ [x]) = l ++ [y])%list.
Proof. by rewrite (insert_app_r_alt l [x] (length l) y), Nat.sub_diag. Qed.

(** The reconciler on a gateway that has no main agent yet. *)
Lemma upsert_new gateway w :
  list_find (main_agent_of gateway) (agents (session w)) = None ->
  upsert_main_agent_record gateway w
  = (Ok (length (agents (session w)), true),
     MkWorld
       (set_agents
          (agents (session w)
           ++ [Agent.set_updated_at (utcnow_at (2 + ticks w))
                 (new_main_agent gateway (uuid4_at (ticks w))
                    (utcnow_at (1 + ticks w)))])
          (session w))
       (durable w) (3 + ticks w) (trace w)).
Proof.
  intros Hfind.
  unfold upsert_main_agent_record.
  rewrite (bind_run _ _ _ _ _ (find_main_agent_run gateway w)), Hfind.
  cbn [fmap option_fmap option_map].
  set (fresh := new_main_agent gateway (uuid4_at (ticks w)) (utcnow_at (1 + ticks w))).
  set (w1 := push_agent fresh (tick (tick w))).
  assert (Ha : lookup_agent w1 (length (agents (session w))) = Some fresh).
  { unfold lookup_agent, w1, push_agent. cbn. by apply list_lookup_middle. }
  assert (Hlt : length (agents (session w)) < length (agents (session w1))).
  { unfold w1, push_agent. cbn. rewrite length_app. cbn. lia. }
  rewrite !bind_bind.
  rewrite (bind_run _ _ _ _ _ (uuid4_run _)).
  rewrite !bind_bind.
  rewrite (bind_run _ _ _ _ _ (utcnow_run _)).
  rewrite !bind_bind.
  rewrite (bind_run _ _ _ _ _ (session_add_new_run _ _)).
  rewrite bind_ret.
  change (push_agent _ _) with w1.
  rewrite (reconcile_steps gateway _ true fresh w1 _ Ha).
  rewrite (reconcile_id gateway fresh true (new_main_agent_reconciled _ _ _)).
  cbn [fst snd].
  rewrite (put_agent_id _ _ _ Ha).
  rewrite !bind_bind.
  rewrite (bind_run _ _ _ _ _ (utcnow_run _)).
  rewrite bind_bind.
  rewrite (bind_run _ _ _ _ _ (setattr_run _ _ _ (tick w1) Ha)).
  rewrite (bind_run _ _ _ _ _
             (session_add_run _ _ _ (lookup_put_agent _ _ (tick w1) Hlt))).
  unfold ret. f_equal. unfold put_agent, w1, push_agent, tick, set_session, set_agents.
  cbn. f_equal. f_equal. apply insert_snoc.
Qed.



Lemma list_find_put {A} (P : A -> Prop) `{!forall x, Decision (P x)}
    (l : list A) i x y :
  list_find P l = Some (i, x) -> P y -> list_find P (<[i := y]> l) = Some (i, y).
Proof.
  intros (Hi & _ & Hleast)%list_find_Some Hy. apply list_find_insert_Some.
  right; left. split_and!; try done. by eapply lookup_lt_Some.
Qed.

Lemma list_find_snoc {A} (P : A -> Prop) `{!forall x, Decision (P x)}
    (l : list A) y :
  list_find P l = None -> P y -> list_find P (l ++ [y])%list = Some (List.length l, y).
Proof.
  intros Hl Hy. rewrite list_find_app_r by done. cbn.
  rewrite decide_True by done. done.
Qed.

(** After any reconcile call the gateway's main agent is the returned one and
    the reconciler has nothing left to correct on it. *)
Lemma upsert_settles gateway w :
  exists agent changed w1 a1,
    upsert_main_agent_record gateway w = (Ok (agent, changed), w1)
    ∧ list_find (main_agent_of gateway) (agents (session w1)) = Some (agent, a1)
    ∧ reconciled gateway a1
    ∧ durable w1 = durable w
    ∧ trace w1 = trace w.
Proof.
  destruct (list_find (main_agent_of gateway) (agents (session w)))
    as [[agent a]|] eqn:Hfind.
  - rewrite (upsert_found _ _ _ _ Hfind). cbn zeta.
    pose proof (reconcile_reconciled gateway a false) as Hrec.
    destruct (reconcile gateway (a, false)) as [a' c] eqn:Hr. cbn [fst snd] in *.
    destruct c.
    + exists agent, true, (put_agent agent (Agent.set_updated_at (utcnow_at (ticks w)) a') (tick w)),
        (Agent.set_updated_at (utcnow_at (ticks w)) a').
      split_and!; [done| |done..].
      cbn. eapply list_find_put; [done|]. by apply reconciled_main_agent.
    + exists agent, false, w, a. split_and!; [done..| |done|done].
      apply reconcile_unchanged. by rewrite Hr.
  - rewrite (upsert_new _ _ Hfind). eexists _, _, _, _. split_and!; [done| | |done..].
    + cbn. apply list_find_snoc; [done|]. done.
    + apply reconciled_stamp, new_main_agent_reconciled.
Qed.

(** On a settled main agent the reconciler changes nothing. *)
Lemma upsert_reconciled gateway w agent a :
  list_find (main_agent_of gateway) (agents (session w)) = Some (agent, a) ->
  reconciled gateway a ->
  upsert_main_agent_record gateway w = (Ok (agent, false), w).
Proof.
  intros Hfind Hrec. rewrite (upsert_found _ _ _ _ Hfind).
  by rewrite (reconcile_id _ _ _ Hrec).
Qed.

(** C1 (idempotent reconciliation).  A call of [upsert_main_agent_record]
    returns; a second call for the same gateway on a world whose agents are as
    the first call left them returns [changed = false], the same object, and
    leaves the world as it is, so the agent's identifier is the same. *)
Theorem upsert_main_agent_record_idempotent gateway w :
  exists agent changed w1 a,
    upsert_main_agent_record gateway w = (Ok (agent, changed), w1)
    ∧ lookup_agent w1 agent = Some a
    ∧ forall w2, agents (session w2) = agents (session w1) ->
        upsert_main_agent_record gateway w2 = (Ok (agent, false), w2)
        ∧ Agent.id <$> lookup_agent w2 agent = Some (Agent.id a).
Proof.
  destruct (upsert_settles gateway w)
    as (agent & changed & w1 & a & Hrun & Hfind & Hrec & _).
  exists agent, changed, w1, a. split; [done|].
  assert (Ha : lookup_agent w1 agent = Some a).
  { by apply list_find_Some in Hfind as (? & _). }
  split; [done|]. intros w2 Hsame. split.
  - apply (upsert_reconciled gateway w2 agent a); [|done]. by rewrite Hsame.
  - unfold lookup_agent in *. by rewrite Hsame, Ha.
Qed.


(** C9 (frame of the reconciler).  [upsert_main_agent_record] returns, and
    for every agent that existed before the call the credential hash is what
    it was and a non-empty status is what it was; when it returns [changed =
    false] the world, hence every field of every agent, [updated_at]
    included, is exactly as before; when it returns [changed = true] the
    returned agent's [updated_at] is the clock reading the call took last. *)
Theorem upsert_main_agent_record_frame gateway w :
  exists agent changed w1,
    upsert_main_agent_record gateway w = (Ok (agent, changed), w1)
    ∧ (forall j b, lookup_agent w j = Some b ->
         exists b', lookup_agent w1 j = Some b'
           ∧ Agent.agent_token_hash b' = Agent.agent_token_hash b
           ∧ (PyStr.truthy (Agent.status b) = true ->
              Agent.status b' = Agent.status b))
    ∧ (changed = false -> w1 = w)
    ∧ (changed = true ->
         Agent.updated_at <$> lookup_agent w1 agent
         = Some (utcnow_at (pred (ticks w1)))).
Proof.
  destruct (list_find (main_agent_of gateway) (agents (session w)))
    as [[agent a]|] eqn:Hfind.
  - rewrite (upsert_found _ _ _ _ Hfind). cbn zeta.
    assert (Ha : lookup_agent w agent = Some a).
    { by apply list_find_Some in Hfind as (? & _). }
    assert (Hlt : agent < length (agents (session w))) by (by eapply lookup_lt_Some).
    destruct (reconcile_frame gateway a false) as (_ & Hhash & _ & _ & _ & Hstatus).
    cbn zeta in *.
    destruct (reconcile gateway (a, false)) as [a' c]. cbn [fst snd] in *.
    destruct c.
    + eexists _, _, _. split; [done|]. split_and!; [|done|].
      * intros j b Hb. destruct (decide (agent = j)) as [<-|Hne].
        -- rewrite Ha in Hb. injection Hb as <-.
           exists (Agent.set_updated_at (utcnow_at (ticks w)) a').
           split_and!; [|exact Hhash|exact Hstatus].
           by apply (lookup_put_agent agent _ (tick w)).
        -- exists b. by rewrite lookup_put_agent_ne.
      * intros _. by rewrite (lookup_put_agent agent _ (tick w) Hlt).
    + exists agent, false, w. split; [done|]. split_and!; [|done..|done].
      intros j b Hb. by exists b.
  - rewrite (upsert_new _ _ Hfind). eexists _, _, _. split; [done|].
    split_and!; [|done|].
    + intros j b Hb. exists b. split_and!; [|done..].
      unfold lookup_agent in *. cbn. by apply lookup_app_l_Some.
    + intros _. unfold lookup_agent. cbn. by rewrite list_lookup_middle.
Qed.

(** *** At most one main agent per gateway *)

Lemma filter_length_insert {A} (P : A -> Prop) `{!forall x, Decision (P x)}
    (l : list A) i x y :
  l !! i = Some x -> (P x <-> P y) ->
  List.length (filter P (<[i := y]> l)) = List.length (filter P l).
Proof.
  revert i. induction l as [|z l IH]; intros [|i] Hi Hxy; try done.
  - injection Hi as ->. change (<[0 := y]> (x :: l)) with (y :: l).
    rewrite !filter_cons.
    destruct (decide (P x)), (decide (P y)); cbn [List.length]; tauto || done.
  - change (<[S i := y]> (z :: l)) with (z :: <[i := y]> l).
    rewrite !filter_cons.
    destruct (decide (P z)); cbn [List.length]; by rewrite (IH i).
Qed.

Lemma list_find_None_filter {A} (P : A -> Prop) `{!forall x, Decision (P x)}
    (l : list A) :
  list_find P l = None <-> List.length (filter P l) = 0.
Proof.
  rewrite list_find_None. induction l as [|z l IH]; [done|].
  rewrite Forall_cons, filter_cons. destruct (decide (P z)); cbn; [|tauto].
  split; [tauto|lia].
Qed.

(** The filter of [find_main_agent] reads only the gateway's identifier. *)
Lemma main_agent_of_id gateway gateway' a :
  Gateway.id gateway' = Gateway.id gateway ->
  main_agent_of gateway' a <-> main_agent_of gateway a.
Proof. unfold main_agent_of. by intros ->. Qed.

Lemma count_main_agents_id gateway gateway' w :
  Gateway.id gateway' = Gateway.id gateway ->
  count_main_agents gateway' w = count_main_agents gateway w.
Proof.
  intros Hid. unfold count_main_agents. f_equal.
  apply list_filter_iff. intros a. by apply main_agent_of_id.
Qed.

(** One reconcile call for [gateway'] adds a main agent of [gateway] exactly
    when both are the same gateway and it had none. *)
Lemma upsert_count gateway gateway' w :
  exists agent changed w1,
    upsert_main_agent_record gateway' w = (Ok (agent, changed), w1)
    ∧ count_main_agents gateway w1
      = if decide (Gateway.id gateway' = Gateway.id gateway
                   ∧ count_main_agents gateway w = 0)
        then 1 else count_main_agents gateway w.
Proof.
  destruct (list_find (main_agent_of gateway') (agents (session w)))
    as [[agent a]|] eqn:Hfind.
  - rewrite (upsert_found _ _ _ _ Hfind). cbn zeta.
    pose proof (reconcile_reconciled gateway' a false) as Hrec.
    apply list_find_Some in Hfind as (Ha & [Hg Hb] & _).
    assert (Hsome : count_main_agents gateway' w ≠ 0).
    { unfold count_main_agents. intros H0%list_find_None_filter.
      rewrite list_find_None, Forall_forall in H0.
      apply (H0 a); [by eapply list_elem_of_lookup_2|by split]. }
    destruct (reconcile gateway' (a, false)) as [a' c]. cbn [fst snd] in *.
    eexists _, _, _. split; [done|].
    rewrite decide_False.
    2:{ intros [Hid H0]. by rewrite (count_main_agents_id _ _ _ Hid) in Hsome. }
    destruct c; [|done].
    unfold count_main_agents. cbn. eapply filter_length_insert; [done|].
    destruct Hrec as (Hb' & Hg' & _). unfold main_agent_of. cbn.
    by rewrite Hb, Hb', Hg, Hg'.
  - rewrite (upsert_new _ _ Hfind). eexists _, _, _. split; [done|].
    apply list_find_None_filter in Hfind. fold (count_main_agents gateway' w) in Hfind.
    unfold count_main_agents at 1. cbn. rewrite filter_app, length_app.
    fold (count_main_agents gateway w). rewrite filter_cons, filter_nil.
    destruct (decide (Gateway.id gateway' = Gateway.id gateway)) as [Hid|Hid].
    + rewrite (count_main_agents_id _ _ _ Hid) in Hfind.
      rewrite decide_True by done. rewrite decide_True by (by split).
      cbn. lia.
    + rewrite decide_False by (unfold main_agent_of; cbn; tauto).
      rewrite decide_False by tauto. cbn. lia.
Qed.

Lemma reconcile_sequence_count gateway gateways w :
  (count_main_agents gateway w ≤ 1)%nat ->
  exists w',
    reconcile_sequence gateways w = (Ok tt, w')
    ∧ (count_main_agents gateway w' ≤ 1)%nat
    ∧ (count_main_agents gateway w = 1 -> count_main_agents gateway w' = 1)
    ∧ ((exists gateway', gateway' ∈ gateways
                         ∧ Gateway.id gateway' = Gateway.id gateway) ->
       count_main_agents gateway w' = 1).
Proof.
  revert w. induction gateways as [|g gs IH]; intros w Hle.
  - exists w. split_and!; [done..|]. intros (g' & Hin & _). by apply elem_of_nil in Hin.
  - destruct (upsert_count gateway g w) as (agent & changed & w1 & Hrun & Hcount).
    assert (Hle1 : (count_main_agents gateway w1 ≤ 1)%nat).
    { rewrite Hcount. case_decide; lia. }
    destruct (IH w1 Hle1) as (w' & Hseq & Hle' & Hkeep & Hadd).
    exists w'. unfold reconcile_sequence in *. cbn [for_each].
    rewrite bind_bind, (bind_run _ _ _ _ _ Hrun), bind_ret.
    split_and!; [done..| |].
    + intros H1. apply Hkeep. rewrite Hcount. by rewrite decide_False by lia.
    + intros (g' & [->|Hin]%elem_of_cons & Hid).
      * apply Hkeep. rewrite Hcount. case_decide; [done|].
        assert (count_main_agents gateway w ≠ 0) by tauto. lia.
      * apply Hadd. by exists g'.
Qed.

(** C7 (at most one main agent per gateway).  From a world in which the
    gateway has no main agent, every finite sequence of reconcile calls that
    calls for the gateway at least once returns and leaves exactly one agent
    with [board_id] absent for that gateway; the sequence may call for other
    gateways in between. *)
Theorem upsert_main_agent_record_unique gateway gateways w :
  count_main_agents gateway w = 0 ->
  (exists gateway', gateway' ∈ gateways
                    ∧ Gateway.id gateway' = Gateway.id gateway) ->
  exists w',
    reconcile_sequence gateways w = (Ok tt, w')
    ∧ count_main_agents gateway w' = 1.
Proof.
  intros H0 Hin.
  destruct (reconcile_sequence_count gateway gateways w) as (w' & Hrun & _ & _ & Hadd);
    [lia|].
  exists w'. split; [done|]. by apply Hadd.
Qed.


(** *** The roster payload *)

Lemma truthy_nonempty (s : string) : PyStr.truthy s = true <-> s ≠ "".
Proof. by destruct s. Qed.

Lemma json_get_str (d : gmap string json) key raw :
  Json.get d key = JStr raw <-> d !! key = Some (JStr raw).
Proof.
  unfold Json.get. destruct (d !! key) as [v|]; cbn; [|done].
  split; [by intros ->|by intros [= ->]].
Qed.

Lemma first_id_under_None (d : gmap string json) keys :
  first_id_under d keys = None
  <-> forall key raw, key ∈ keys -> d !! key = Some (JStr raw) -> PyStr.strip raw = "".
Proof.
  induction keys as [|k keys IH]; cbn [first_id_under].
  - split; [|done]. intros _ key raw Hin. by apply elem_of_nil in Hin.
  - destruct (Json.get d k) as [| | | |s| |] eqn:Hget.
    5:{ apply json_get_str in Hget.
        destruct (PyStr.truthy (PyStr.strip s)) eqn:Ht.
        - split; [done|]. intros Hall.
          apply truthy_nonempty in Ht. destruct Ht. apply (Hall k s); [left|done].
        - rewrite IH. split.
          + intros Hall key raw [->|Hin]%elem_of_cons Hd.
            * rewrite Hget in Hd. injection Hd as <-.
              destruct (PyStr.strip s); [done|discriminate].
            * by apply (Hall key raw).
          + intros Hall key raw Hin. apply Hall. by right. }
    all: rewrite IH; split;
      [ intros Hall key raw [->|Hin]%elem_of_cons Hd;
        [ apply json_get_str in Hd; congruence | by apply (Hall key raw) ]
      | intros Hall key raw Hin; apply Hall; by right ].
Qed.

Lemma first_id_under_Some (d : gmap string json) keys v :
  first_id_under d keys = Some v ->
  exists key raw, key ∈ keys ∧ d !! key = Some (JStr raw)
                  ∧ v = PyStr.strip raw ∧ v ≠ "".
Proof.
  induction keys as [|k keys IH]; cbn [first_id_under]; [done|].
  assert (Hrest : first_id_under d keys = Some v ->
                  exists key raw, key ∈ k :: keys ∧ d !! key = Some (JStr raw)
                                  ∧ v = PyStr.strip raw ∧ v ≠ "").
  { intros (key & raw & Hin & Hrest)%IH. exists key, raw. split; [by right|done]. }
  destruct (Json.get d k) as [| | | |s| |] eqn:Hget; try done.
  destruct (PyStr.truthy (PyStr.strip s)) eqn:Ht; [|done].
  intros [= <-]. exists k, s. apply json_get_str in Hget.
  split_and!; [left|done|done|by apply truthy_nonempty].
Qed.

Lemma extract_agent_id_from_entry_None item :
  extract_agent_id_from_entry item = None <-> ¬ carries_id item.
Proof.
  unfold carries_id.
  destruct item as [| | | |s|items|d];
    try change (extract_agent_id_from_entry (JDict d))
          with (first_id_under d accepted_keys);
    try change (extract_agent_id_from_entry (JStr s))
          with (PyStr.or_none (PyStr.strip s)).
  5:{ unfold PyStr.or_none. destruct (PyStr.truthy (PyStr.strip s)) eqn:Ht.
      - split; [done|]. intros []. left. exists s. split; [done|]. by apply truthy_nonempty.
      - split; [|done]. intros _ [(s' & [= <-] & Hne)|(? & ? & ? & [=] & _)].
        apply truthy_nonempty in Hne. congruence. }
  6:{ rewrite first_id_under_None. split.
      - intros Hall [(? & [=] & _)|(d' & key & raw & [= <-] & Hin & Hd & Hne)].
        by apply Hne, (Hall key raw).
      - intros Hnot key raw Hin Hd. apply dec_stable. intros Hne. apply Hnot.
        right. by exists d, key, raw. }
  all: split; [|done]; intros _ [(? & [=] & _)|(? & ? & ? & [=] & _)].
Qed.

Lemma extract_agent_id_from_entry_Some item v :
  extract_agent_id_from_entry item = Some v ->
  v ≠ ""
  ∧ ((exists s, item = JStr s ∧ v = PyStr.strip s)
     ∨ (exists d key raw, item = JDict d ∧ key ∈ accepted_keys
                          ∧ d !! key = Some (JStr raw) ∧ v = PyStr.strip raw)).
Proof.
  destruct item as [| | | |s|items|d];
    try change (extract_agent_id_from_entry (JDict d))
          with (first_id_under d accepted_keys);
    try change (extract_agent_id_from_entry (JStr s))
          with (PyStr.or_none (PyStr.strip s));
    try done.
  - unfold PyStr.or_none. destruct (PyStr.truthy (PyStr.strip s)) eqn:Ht; [|done].
    intros [= <-]. split; [by apply truthy_nonempty|]. left. by exists s.
  - intros (key & raw & Hin & Hd & -> & Hne)%first_id_under_Some.
    split; [done|]. right. by exists d, key, raw.
Qed.

Lemma extract_agents_list_list items : extract_agents_list (JList items) = items.
Proof. reflexivity. Qed.

Lemma extract_agents_list_dict (d : gmap string json) items :
  d !! "agents" = Some (JList items) -> extract_agents_list (JDict d) = items.
Proof.
  intros Hd. cbn. unfold Json.get, Json.or. rewrite Hd. cbn.
  by destruct items.
Qed.

Lemma extract_agents_list_other payload :
  (forall items, payload ≠ JList items) ->
  (forall (d : gmap string json) items,
     payload = JDict d -> d !! "agents" ≠ Some (JList items)) ->
  extract_agents_list payload = [].
Proof.
  intros Hlist Hdict. destruct payload as [| | | | |items|d]; try done.
  - by destruct (Hlist items).
  - cbn. unfold Json.get, Json.or.
    destruct (d !! "agents") as [v|] eqn:Hd; cbn; [|done].
    destruct v as [|b|z|bits|s|items|fields]; cbn.
    + done.
    + by destruct b.
    + by destruct (negb _).
    + by destruct (negb _).
    + by destruct (PyStr.truthy s).
    + by destruct (Hdict d items).
    + by destruct (negb _).
Qed.


(** *** The roster check *)

Lemma gateway_has_main_agent_entry_run gateway w :
  gateway_has_main_agent_entry gateway w
  = match url_configured gateway with
    | None => (Ok false, w)
    | Some url =>
        match gateway_rpc (ticks w) (roster_call gateway url) with
        | Ok payload =>
            (Ok (existsb
                   (fun item =>
                      bool_decide (extract_agent_id_from_entry item
                                   = Some (openclaw_agent_id gateway)))
                   (extract_agents_list payload)),
             called (roster_call gateway url) w)
        | Raise e =>
            (if isinstance e OpenClawGatewayError then Ok true else Raise e,
             called (roster_call gateway url) w)
        end
    end.
Proof.
  unfold gateway_has_main_agent_entry, url_configured.
  destruct (Gateway.url gateway) as [url|]; [|done].
  destruct (PyStr.truthy url); [|done]. cbn [negb].
  unfold bind, try_except, called, roster_call. rewrite remote_run.
  destruct (gateway_rpc _ _) as [payload|e]; [done|].
  by destruct (isinstance e OpenClawGatewayError).
Qed.

Lemma roster_lists_existsb payload target :
  existsb (fun item => bool_decide (extract_agent_id_from_entry item = Some target))
          (extract_agents_list payload) = true
  <-> roster_lists payload target.
Proof.
  unfold roster_lists. rewrite existsb_exists. split.
  - intros (item & Hin%list_elem_of_In & Hid%bool_decide_eq_true). by exists item.
  - intros (item & Hin & Hid). exists item. split; [by apply list_elem_of_In|].
    by apply bool_decide_eq_true.
Qed.

Lemma first_id_under_names (d : gmap string json) keys v :
  first_id_under d keys = Some v
  <-> v ≠ ""
      ∧ exists before key after raw,
          keys = (before ++ key :: after)%list
          ∧ (forall k, k ∈ before -> holds_no_id d k)
          ∧ d !! key = Some (JStr raw)
          ∧ PyStr.strip raw = v.
Proof.
  induction keys as [|k keys IH]; cbn [first_id_under].
  - split; [done|]. intros (_ & before & key & after & raw & Heq & _).
    by destruct before.
  - assert (Hskip : holds_no_id d k ->
              first_id_under d keys = Some v
              <-> v ≠ ""
                  ∧ exists before key after raw,
                      k :: keys = (before ++ key :: after)%list
                      ∧ (forall k', k' ∈ before -> holds_no_id d k')
                      ∧ d !! key = Some (JStr raw)
                      ∧ PyStr.strip raw = v).
    { intros Hblank. rewrite IH. split.
      - intros (Hne & before & key & after & raw & -> & Hbefore & Hd & Hv).
        split; [done|]. exists (k :: before), key, after, raw.
        split_and!; [done| |done|done].
        intros k' [->|Hin]%elem_of_cons; [done|by apply Hbefore].
      - intros (Hne & before & key & after & raw & Heq & Hbefore & Hd & Hv).
        split; [done|]. destruct before as [|k0 before].
        + injection Heq as <- <-. specialize (Hblank raw Hd). congruence.
        + injection Heq as <- ->. exists before, key, after, raw.
          split_and!; [done| |done|done].
          intros k' Hin. apply Hbefore. by right. }
    destruct (Json.get d k) as [| | | |s| |] eqn:Hget.
    5:{ apply json_get_str in Hget.
        destruct (PyStr.truthy (PyStr.strip s)) eqn:Ht.
        - apply truthy_nonempty in Ht. split.
          + intros [= <-]. split; [done|]. exists [], k, keys, s.
            split_and!; [done| |done|done]. intros k' Hin. by apply elem_of_nil in Hin.
          + intros (Hne & before & key & after & raw & Heq & Hbefore & Hd & Hv).
            destruct before as [|k0 before].
            * injection Heq as <- <-. rewrite Hget in Hd. by injection Hd as <-; subst.
            * injection Heq as <- ->.
              destruct Ht. apply (Hbefore k); [left|done].
        - apply Hskip. intros raw Hd. rewrite Hget in Hd. injection Hd as <-.
          by destruct (PyStr.strip s). }
    all: apply Hskip; intros raw Hd; apply json_get_str in Hd; congruence.
Qed.

Lemma extract_agent_id_from_entry_names item target :
  extract_agent_id_from_entry item = Some target <-> names_id item target.
Proof.
  unfold names_id.
  destruct item as [| | | |s|items|d];
    try change (extract_agent_id_from_entry (JDict d))
          with (first_id_under d accepted_keys);
    try change (extract_agent_id_from_entry (JStr s))
          with (PyStr.or_none (PyStr.strip s)).
  5:{ unfold PyStr.or_none. destruct (PyStr.truthy (PyStr.strip s)) eqn:Ht.
      - apply truthy_nonempty in Ht. split.
        + intros [= <-]. split; [done|]. left. by exists s.
        + intros (_ & [(s' & [= <-] & <-)|(? & ? & ? & ? & ? & [=] & _)]). done.
      - split; [done|].
        intros (Hne & [(s' & [= <-] & <-)|(? & ? & ? & ? & ? & [=] & _)]).
        apply truthy_nonempty in Hne. congruence. }
  6:{ rewrite first_id_under_names. split.
      - intros (Hne & before & key & after & raw & Heq & Hbefore & Hd & Hv).
        split; [done|]. right. by exists d, before, key, after, raw.
      - intros (Hne & [(? & [=] & _)|(d' & before & key & after & raw & [= <-] & Hrest)]).
        split; [done|]. by exists before, key, after, raw. }
  all: split; [done|];
    intros (_ & [(? & [=] & _)|(? & ? & ? & ? & ? & [=] & _)]).
Qed.

Lemma extract_agents_list_listed payload item :
  item ∈ extract_agents_list payload <-> listed_in payload item.
Proof.
  unfold listed_in. split.
  - intros Hin. destruct payload as [| | | | |items|d];
      try (rewrite extract_agents_list_other in Hin;
           [by apply elem_of_nil in Hin|done|done]).
    + left. by exists items.
    + destruct (d !! "agents") as [v|] eqn:Hd.
      * destruct v as [| | | | |items|];
          try (rewrite extract_agents_list_other in Hin;
               [by apply elem_of_nil in Hin|done|];
               intros d' items' [= <-]; congruence).
        rewrite (extract_agents_list_dict d items Hd) in Hin.
        right. by exists d, items.
      * rewrite extract_agents_list_other in Hin;
          [by apply elem_of_nil in Hin|done|].
        intros d' items' [= <-]. congruence.
  - intros [(items & -> & Hin)|(d & items & -> & Hd & Hin)].
    + done.
    + by rewrite (extract_agents_list_dict d items Hd).
Qed.

Lemma roster_lists_names payload target :
  roster_lists payload target
  <-> exists item, listed_in payload item ∧ names_id item target.
Proof.
  unfold roster_lists. split; intros (item & Hin & Hid); exists item.
  - split; [by apply extract_agents_list_listed|by apply extract_agent_id_from_entry_names].
  - split; [by apply extract_agents_list_listed|by apply extract_agent_id_from_entry_names].
Qed.

(** C4 (roster check), as amended.  A gateway without a configured URL
    yields [false] and the world is untouched, so no remote call is made.
    Otherwise the roster is listed once: when the call raises the gateway
    error the check fails open and returns [true]; when it answers, the check
    returns [true] exactly when some entry of the payload names the gateway's
    derived external agent id.  An entry that is a string names what it holds
    without the surrounding white space; an entry that is a record names what
    the first of ["id"], ["agentId"], ["agent_id"] holding a string that is
    not blank holds, without the surrounding white space. *)
Theorem gateway_has_main_agent_entry_spec gateway w :
  (url_configured gateway = None ->
   gateway_has_main_agent_entry gateway w = (Ok false, w))
  ∧ (forall url,
       url_configured gateway = Some url ->
       let w1 := called (roster_call gateway url) w in
       match gateway_rpc (ticks w) (roster_call gateway url) with
       | Raise e =>
           gateway_has_main_agent_entry gateway w
           = (if isinstance e OpenClawGatewayError then Ok true else Raise e, w1)
       | Ok payload =>
           exists b,
             gateway_has_main_agent_entry gateway w = (Ok b, w1)
             ∧ (b = true
                <-> exists item,
                      listed_in payload item
                      ∧ names_id item (openclaw_agent_id gateway))
       end).
Proof.
  rewrite gateway_has_main_agent_entry_run. split.
  - by intros ->.
  - intros url ->. cbn zeta.
    destruct (gateway_rpc _ _) as [payload|e]; [|done].
    eexists. split; [done|].
    rewrite roster_lists_existsb. apply roster_lists_names.
Qed.

(** C10 (the roster payload is parsed totally).  [extract_agents_list] is the
    payload itself when it is a list, the list under ["agents"] when it is a
    dict holding one, and empty for every other payload;
    [extract_agent_id_from_entry] is [None] exactly on the entries that are
    neither a string that is not blank nor a dict with such a string under
    ["id"], ["agentId"] or ["agent_id"]; and whatever payload the roster call
    answers with, [gateway_has_main_agent_entry] returns a boolean. *)
Theorem roster_payload_total :
  (forall payload,
     extract_agents_list payload
     = match payload with
       | JList items => items
       | JDict d =>
           match d !! "agents" with
           | Some (JList items) => items
           | _ => []
           end
       | _ => []
       end)
  ∧ (forall item, extract_agent_id_from_entry item = None <-> ¬ carries_id item)
  ∧ (forall gateway w payload,
       (forall url, gateway_rpc (ticks w) (roster_call gateway url) = Ok payload) ->
       exists b w', gateway_has_main_agent_entry gateway w = (Ok b, w')).
Proof.
  split_and!.
  - intros [| | | | |items|d]; try done.
    destruct (d !! "agents") as [v|] eqn:Hd.
    + destruct v as [| | | | |items|];
        try (apply extract_agents_list_other; [done|]; intros d' items' [= <-]; congruence).
      by apply extract_agents_list_dict.
    + apply extract_agents_list_other; [done|]. intros d' items' [= <-]. congruence.
  - apply extract_agent_id_from_entry_None.
  - intros gateway w payload Hrpc. rewrite gateway_has_main_agent_entry_run.
    destruct (url_configured gateway) as [url|]; [|by eexists _, _].
    rewrite Hrpc. by eexists _, _.
Qed.


(** *** The provisioner *)

Lemma isinstance_gateway_error_exception e :
  isinstance e OpenClawGatewayError = true -> isinstance e Exception = true.
Proof.
  unfold isinstance. destruct (exc_class e); cbv; congruence.
Qed.

Lemma provision_failure_None e :
  provision_failure e = None -> isinstance e Exception = false.
Proof.
  unfold provision_failure. repeat case_match; try done.
Qed.

Lemma provision_remote_block gateway agent raw_token user action notify url a w :
  lookup_agent w agent = Some a ->
  exists r w' evs,
    try_except
      (provision_remote_calls gateway agent raw_token user action notify url)
      provision_failure w = (r, w')
    ∧ session w' = session w
    ∧ durable w' = durable w
    ∧ trace w' = (trace w ++ evs)%list
    ∧ Forall (fun e => is_commit e = false) evs
    ∧ (notify = false -> Forall (fun e => is_send_message e = false) evs)
    ∧ (forall e, r = Raise e ->
         isinstance e Exception = false
         ∧ exists n call, gateway_rpc n call = Raise e).
Proof.
  intros Ha. unfold lookup_agent in Ha.
  unfold try_except, provision_remote_calls, bind, read_agent, remote, log, modify, ret.
  cbn [session emit tick]. rewrite !Ha.
  set (finish := fun (_ : unit) => True).
  assert (Hhandled : forall e (w0 : World) evs0,
            session w0 = session w -> durable w0 = durable w ->
            trace w0 = (trace w ++ evs0)%list ->
            Forall (fun e => is_commit e = false) evs0 ->
            (notify = false -> Forall (fun e => is_send_message e = false) evs0) ->
            (exists n call, gateway_rpc n call = Raise e) ->
            exists r w' evs,
              match provision_failure e with
              | Some h => h w0
              | None => (Raise e, w0)
              end = (r, w')
              ∧ session w' = session w
              ∧ durable w' = durable w
              ∧ trace w' = (trace w ++ evs)%list
              ∧ Forall (fun e => is_commit e = false) evs
              ∧ (notify = false -> Forall (fun e => is_send_message e = false) evs)
              ∧ (forall e', r = Raise e' ->
                   isinstance e' Exception = false
                   ∧ exists n call, gateway_rpc n call = Raise e')).
  { intros e w0 evs0 Hs Hd Ht Hc Hn Hrpc.
    destruct (provision_failure e) as [h|] eqn:Hh.
    - assert (exists level message, h = log level message (Some e)) as (level & message & ->).
      { unfold provision_failure in Hh. repeat case_match; try done;
          injection Hh as <-; by eexists _, _. }
      eexists (Ok tt), _, (evs0 ++ [EvLog level message (Some e)])%list.
      split; [reflexivity|]. cbn. split_and!; [done|done| | | |done].
      + by rewrite Ht, app_assoc.
      + apply Forall_app. split; [done|]. by repeat constructor.
      + intros Hnot. apply Forall_app. split; [by apply Hn|]. by repeat constructor.
    - eexists (Raise e), w0, evs0. split_and!; [done..|].
      intros e' [= <-]. split; [by apply provision_failure_None|done]. }
  clear finish.
  destruct (gateway_rpc (ticks w) _) as [p1|e1] eqn:H1.
  2:{ eapply Hhandled; cbn; [done|done|done| | |by eexists _, _].
      - by repeat constructor.
      - intros _. by repeat constructor. }
  cbn [ticks tick emit].
  destruct (gateway_rpc (S (ticks w)) _) as [p2|e2] eqn:H2.
  2:{ eapply Hhandled; cbn; [done|done|by rewrite <- app_assoc| | |by eexists _, _].
      - by repeat constructor.
      - intros _. by repeat constructor. }
  destruct notify.
  - cbn [session emit tick ticks]. rewrite ?Ha.
    match goal with
    | |- context [gateway_rpc ?n ?c] =>
        destruct (gateway_rpc n c) as [p3|e3] eqn:H3
    end.
    2:{ eapply Hhandled; cbn; [done|done|by rewrite <- !app_assoc| | |by eexists _, _].
        - by repeat constructor.
        - done. }
    eexists _, _, _. split; [reflexivity|]. cbn.
    split_and!; [done|done|by rewrite <- !app_assoc| |done|done].
    by repeat constructor.
  - eexists _, _, _. split; [reflexivity|]. cbn.
    split_and!; [done|done|by rewrite <- !app_assoc| | |done].
    + by repeat constructor.
    + intros _. by repeat constructor.
Qed.



Lemma tick_put_agent agent a w :
  tick (put_agent agent a w) = put_agent agent a (tick w).
Proof. reflexivity. Qed.

Lemma provision_main_agent_record_run gateway agent user action notify a w :
  lookup_agent w agent = Some a ->
  let token := generate_agent_token_at (ticks w) in
  let a' := provisioned (hash_agent_token token) (utcnow_at (1 + ticks w))
              action (utcnow_at (2 + ticks w)) a in
  exists r w' evs,
    provision_main_agent_record gateway agent user action notify w = (r, w')
    ∧ session w' = session (put_agent agent a' w)
    ∧ durable w' = session w'
    ∧ trace w' = (trace w ++ EvCommit :: evs)%list
    ∧ Forall (fun e => is_commit e = false) evs
    ∧ (notify = false -> Forall (fun e => is_send_message e = false) evs)
    ∧ (url_configured gateway = None -> evs = [])
    ∧ match r with
      | Ok returned => returned = agent
      | Raise e =>
          isinstance e Exception = false
          ∧ exists n call, gateway_rpc n call = Raise e
      end.
Proof.
  intros Ha token a'.
  assert (Hlt : agent < length (agents (session w))) by (by eapply lookup_lt_Some).
  unfold provision_main_agent_record.
  rewrite (bind_run _ _ _ _ _ (generate_agent_token_run _)). fold token.
  rewrite (bind_run _ _ _ _ _ (setattr_run _ _ _ (tick w) Ha)).
  rewrite (bind_run _ _ _ _ _ (utcnow_run _)), tick_put_agent.
  rewrite (bind_run _ _ _ _ _ (setattr_run _ _ _ _ (lookup_put_agent _ _ (tick (tick w)) Hlt))).
  rewrite put_put_agent.
  rewrite (bind_run _ _ _ _ _ (setattr_run _ _ _ _ (lookup_put_agent _ _ (tick (tick w)) Hlt))).
  rewrite put_put_agent.
  rewrite (bind_run _ _ _ _ _ (utcnow_run _)), tick_put_agent.
  rewrite (bind_run _ _ _ _ _ (setattr_run _ _ _ _
                                 (lookup_put_agent _ _ (tick (tick (tick w))) Hlt))).
  rewrite put_put_agent.
  rewrite (bind_run _ _ _ _ _ (read_agent_run _ _ _
                                 (lookup_put_agent _ _ (tick (tick (tick w))) Hlt))).
  set (w3 := tick (tick (tick w))).
  assert (Hlocal : forall k : unit -> M ObjRef,
            bind (if bool_decide
                       (Agent.heartbeat_config
                          (Agent.set_updated_at (utcnow_at (ticks (tick (tick w))))
                             (Agent.set_provision_action (Some action)
                                (Agent.set_provision_requested_at
                                   (Some (utcnow_at (ticks (tick w))))
                                   (Agent.set_agent_token_hash
                                      (Some (hash_agent_token token)) a)))) = None)
                  then setattr agent
                         (Agent.set_heartbeat_config (Some DEFAULT_HEARTBEAT_CONFIG))
                  else ret tt) k
              (put_agent agent
                 (Agent.set_updated_at (utcnow_at (ticks (tick (tick w))))
                    (Agent.set_provision_action (Some action)
                       (Agent.set_provision_requested_at
                          (Some (utcnow_at (ticks (tick w))))
                          (Agent.set_agent_token_hash
                             (Some (hash_agent_token token)) a)))) w3)
            = k tt (put_agent agent a' w3)).
  { intros k. unfold a', provisioned. cbn [ticks tick Nat.add].
    case_bool_decide.
    - rewrite (bind_run _ _ _ _ _ (setattr_run _ _ _ _ (lookup_put_agent _ _ w3 Hlt))).
      by rewrite put_put_agent.
    - by rewrite bind_ret. }
  rewrite Hlocal. clear Hlocal.
  assert (Ha' : lookup_agent (put_agent agent a' w3) agent = Some a').
  { by apply lookup_put_agent. }
  rewrite (bind_run _ _ _ _ _ (session_add_run _ _ _ Ha')).
  rewrite (bind_run _ _ _ _ _ (session_commit_run _)).
  set (wc := committed (put_agent agent a' w3)).
  assert (Hc : lookup_agent wc agent = Some a') by exact Ha'.
  rewrite (bind_run _ _ _ _ _ (session_refresh_run _ _ _ Hc)).
  assert (Hnone : exists r w' evs,
            ret (A := ObjRef) agent wc = (r, w')
            ∧ session w' = session (put_agent agent a' w)
            ∧ durable w' = session w'
            ∧ trace w' = (trace w ++ EvCommit :: evs)%list
            ∧ Forall (fun e => is_commit e = false) evs
            ∧ (notify = false -> Forall (fun e => is_send_message e = false) evs)
            ∧ (url_configured gateway = None -> evs = [])
            ∧ match r with
              | Ok returned => returned = agent
              | Raise e =>
                  isinstance e Exception = false
                  ∧ exists n call, gateway_rpc n call = Raise e
              end).
  { exists (Ok agent), wc, []. split_and!; try done. }
  unfold url_configured in Hnone |- *.
  destruct (Gateway.url gateway) as [url|]; [|exact Hnone].
  destruct (PyStr.truthy url) eqn:Hurl; [|exact Hnone]. cbn [negb]. clear Hnone.
  destruct (provision_remote_block gateway agent token user action notify url a' wc Hc)
    as (r & w' & evs & Hrun & Hs & Hd & Ht & Hcommit & Hsend & Hraise).
  unfold bind at 1. rewrite Hrun.
  destruct r as [[]|e].
  - exists (Ok agent), w', evs. split_and!; try done.
    + by rewrite Hd, Hs.
    + rewrite Ht. cbn. by rewrite <- app_assoc.
  - exists (Raise e), w', evs. split_and!; try done.
    + by rewrite Hd, Hs.
    + rewrite Ht. cbn. by rewrite <- app_assoc.
    + by apply Hraise.
    + by apply Hraise.
Qed.


Lemma provisioned_fields token_hash requested action now a :
  let a' := provisioned token_hash requested action now a in
  Agent.agent_token_hash a' = Some token_hash
  ∧ Agent.provision_requested_at a' = Some requested
  ∧ Agent.provision_action a' = Some action
  ∧ Agent.updated_at a' = now
  ∧ Agent.heartbeat_config a' ≠ None
  ∧ Agent.id a' = Agent.id a.
Proof.
  cbn zeta. unfold provisioned. case_bool_decide as Hh; cbn in *; by split_and!.
Qed.

Lemma provision_main_agent_record_dangling gateway agent user action notify w :
  lookup_agent w agent = None ->
  provision_main_agent_record gateway agent user action notify w
  = (Raise dangling, tick w).
Proof.
  intros Ha. unfold provision_main_agent_record.
  rewrite (bind_run _ _ _ _ _ (generate_agent_token_run _)).
  unfold bind, setattr, bind, read_agent. unfold lookup_agent in Ha. cbn.
  by rewrite Ha.
Qed.

(** C2 (credential durability precedes remote risk).  Whatever the remote
    gateway does, when [provision_main_agent_record] is over the durable
    database holds the agent with the hash of the freshly generated token, the
    request time and the action; the first effect of the call is the commit,
    no later commit follows and the session ends equal to the durable state,
    so every local change was made and committed before the first remote
    call.  When every remote call raises the gateway error the method
    returns the agent. *)
Theorem provision_main_agent_record_durable
    gateway agent user action notify a w :
  lookup_agent w agent = Some a ->
  exists r w' a' evs,
    provision_main_agent_record gateway agent user action notify w = (r, w')
    ∧ agents (durable w') !! agent = Some a'
    ∧ Agent.agent_token_hash a'
      = Some (hash_agent_token (generate_agent_token_at (ticks w)))
    ∧ Agent.provision_requested_at a' = Some (utcnow_at (1 + ticks w))
    ∧ Agent.provision_action a' = Some action
    ∧ session w' = durable w'
    ∧ trace w' = (trace w ++ EvCommit :: evs)%list
    ∧ Forall (fun e => is_commit e = false) evs
    ∧ ((forall n call, exists e,
          gateway_rpc n call = Raise e
          ∧ isinstance e OpenClawGatewayError = true) ->
       r = Ok agent).
Proof.
  intros Ha.
  destruct (provision_main_agent_record_run gateway agent user action notify a w Ha)
    as (r & w' & evs & Hrun & Hs & Hd & Ht & Hc & _ & _ & Hr).
  destruct (provisioned_fields
              (hash_agent_token (generate_agent_token_at (ticks w)))
              (utcnow_at (1 + ticks w)) action (utcnow_at (2 + ticks w)) a)
    as (Hhash & Hreq & Hact & _).
  eexists r, w', _, evs. split; [exact Hrun|].
  split_and!; [|exact Hhash|exact Hreq|exact Hact|done|done|done|].
  - rewrite Hd, Hs. apply (lookup_put_agent agent _ w). by eapply lookup_lt_Some.
  - intros Hdown. destruct r as [returned|e]; [by subst|].
    destruct Hr as (Hexc & n & call & Hrpc).
    destruct (Hdown n call) as (e' & Hrpc' & Hgw).
    rewrite Hrpc in Hrpc'. injection Hrpc' as <-.
    apply isinstance_gateway_error_exception in Hgw. congruence.
Qed.


(** *** Swallowing against propagating *)

Lemma isinstance_dangling cls :
  cls ≠ BaseException -> cls ≠ OtherBaseException "DanglingReference" ->
  isinstance dangling cls = false.
Proof.
  intros H1 H2. unfold isinstance. apply bool_decide_eq_false. cbn.
  intros [->|[->|[]%elem_of_nil]%elem_of_cons]%elem_of_cons; congruence.
Qed.

Lemma dispatch_start_prompt_run board prompt correlation_id w :
  let w1 := emit (EvLog TRACE5 "gateway.onboarding.start_dispatch.start" None)
              (tick w) in
  dispatch_start_prompt board prompt correlation_id w
  = match require_gateway_config_for_board (session w) board with
    | Raise e => (Raise e, w1)
    | Ok (gateway, config) =>
        let call := DispatchGatewayMessage (session_key gateway) config
                      "Gateway Agent" prompt false in
        match gateway_rpc (S (ticks w)) call with
        | Ok _ =>
            (Ok (session_key gateway),
             emit (EvLog INFO "gateway.onboarding.start_dispatch.success" None)
               (called call w1))
        | Raise e =>
            if isinstance_any e [OpenClawGatewayError; TimeoutError]
            then (Raise (map_gateway_error_to_http_exception
                           ONBOARDING_START_DISPATCH e),
                  emit (EvLog ERROR "gateway.onboarding.start_dispatch.failed"
                          (Some e)) (called call w1))
            else if isinstance e Exception
            then (Raise e,
                  emit (EvLog CRITICAL
                          "gateway.onboarding.start_dispatch.failed_unexpected"
                          (Some e)) (called call w1))
            else (Raise e, called call w1)
        end
    end.
Proof.
  cbn zeta. unfold dispatch_start_prompt, resolve_trace_id, bind at 1.
  unfold bind at 1, log at 1, modify at 1.
  unfold bind at 1, get_world at 1.
  unfold bind at 1, lift at 1. cbn [session emit tick].
  destruct (require_gateway_config_for_board (session w) board)
    as [[gateway config]|e]; [|done].
  unfold bind at 1, try_except, bind at 1. rewrite remote_run. cbn [ticks emit tick].
  unfold called. cbn [ticks emit tick].
  destruct (gateway_rpc (S (ticks w)) _) as [payload|e]; [done|].
  unfold start_dispatch_failure.
  destruct (isinstance_any e _); [done|].
  by destruct (isinstance e Exception).
Qed.

(** C3 (swallow against propagate).  [provision_main_agent_record] returns
    its agent or ends with an exception that is no [Exception], in particular
    not the gateway error: no gateway error of a remote call reaches its
    caller, and when the remote calls fail with gateway errors (or any other
    [Exception]) it returns the agent.  In [dispatch_start_prompt], once the board's gateway is resolved,
    a gateway error (or a timeout) raised by the message send reaches the
    caller as [map_gateway_error_to_http_exception] of
    [ONBOARDING_START_DISPATCH] and that error, and an exception of any other
    class reaches the caller as it was raised. *)
Theorem gateway_error_swallowed_or_translated :
  (forall gateway agent user action notify w,
     match (provision_main_agent_record gateway agent user action notify w).1 with
     | Ok returned => returned = agent
     | Raise e =>
         isinstance e OpenClawGatewayError = false
         ∧ isinstance e Exception = false
     end)
  ∧ (forall gateway agent user action notify w,
       is_Some (lookup_agent w agent) ->
       (forall n call e, gateway_rpc n call = Raise e ->
                         isinstance e Exception = true) ->
       (provision_main_agent_record gateway agent user action notify w).1
       = Ok agent)
  ∧ (forall board prompt correlation_id w,
       match require_gateway_config_for_board (session w) board with
       | Raise e =>
           (dispatch_start_prompt board prompt correlation_id w).1 = Raise e
       | Ok (gateway, config) =>
           match gateway_rpc (S (ticks w))
                   (DispatchGatewayMessage (session_key gateway) config
                      "Gateway Agent" prompt false) with
           | Ok _ =>
               (dispatch_start_prompt board prompt correlation_id w).1
               = Ok (session_key gateway)
           | Raise e =>
               (dispatch_start_prompt board prompt correlation_id w).1
               = Raise (if isinstance_any e [OpenClawGatewayError; TimeoutError]
                        then map_gateway_error_to_http_exception
                               ONBOARDING_START_DISPATCH e
                        else e)
           end
       end).
Proof.
  split_and!.
  - intros gateway agent user action notify w.
    destruct (lookup_agent w agent) as [a|] eqn:Ha.
    + destruct (provision_main_agent_record_run gateway agent user action notify a w Ha)
        as (r & w' & evs & Hrun & _ & _ & _ & _ & _ & _ & Hr).
      rewrite Hrun. cbn [fst]. destruct r as [returned|e]; [done|].
      destruct Hr as [Hexc _]. split; [|done].
      destruct (isinstance e OpenClawGatewayError) eqn:Hgw; [|done].
      apply isinstance_gateway_error_exception in Hgw. congruence.
    + rewrite (provision_main_agent_record_dangling _ _ _ _ _ _ Ha). cbn [fst].
      split; by apply isinstance_dangling.
  - intros gateway agent user action notify w [a Ha] Hexc.
    destruct (provision_main_agent_record_run gateway agent user action notify a w Ha)
      as (r & w' & evs & Hrun & _ & _ & _ & _ & _ & _ & Hr).
    rewrite Hrun. cbn [fst]. destruct r as [returned|e]; [by subst|].
    destruct Hr as (Hnot & n & call & Hrpc). apply Hexc in Hrpc. congruence.
  - intros board prompt correlation_id w.
    rewrite dispatch_start_prompt_run. cbn zeta.
    destruct (require_gateway_config_for_board (session w) board)
      as [[gateway config]|e]; [|done].
    destruct (gateway_rpc _ _) as [payload|e]; [done|].
    destruct (isinstance_any e _); [done|].
    by destruct (isinstance e Exception).
Qed.


(** *** Cascading cleanup *)

Lemma clear_agent_foreign_keys_run agent_id w :
  clear_agent_foreign_keys agent_id w
  = (Ok tt,
     MkWorld
       (MkDb (agents (session w))
          (released_task agent_id (utcnow_at (ticks w)) <$> tasks (session w))
          (released_event agent_id <$> activity_events (session w))
          (released_approval agent_id <$> approvals (session w)))
       (durable w) (S (ticks w)) (trace w)).
Proof.
  unfold clear_agent_foreign_keys, update_where, bind, utcnow, modify, ret.
  unfold set_session, set_tasks, set_activity_events, set_approvals, tick.
  cbn [session durable ticks trace agents tasks activity_events approvals].
  f_equal. f_equal. f_equal.
  rewrite map_map. apply map_ext. intros t. unfold released_task.
  destruct (bool_decide (Task.assigned_agent_id t = Some agent_id)) eqn:Ha;
    cbn [andb].
  - destruct (bool_decide (Task.status t = "in_progress")) eqn:Hs.
    + done.
    + rewrite Ha. cbn [andb]. apply bool_decide_eq_false in Hs.
      by rewrite (bool_decide_eq_true_2 _ Hs).
  - by rewrite Ha.
Qed.


(** C6 (cascading cleanup).  [clear_agent_foreign_keys] returns, and row by
    row: a task assigned to the agent and ["in_progress"] ends ["inbox"],
    unassigned, with no [in_progress_at]; any other task assigned to the agent
    ends unassigned with its status as it was; a task of somebody else is
    untouched; every activity event and every approval that referenced the
    agent references none, the others are untouched.  Nothing is committed:
    the durable database and the trace are as before, so the caller owns the
    transaction. *)
Theorem clear_agent_foreign_keys_spec agent_id w :
  exists w',
    clear_agent_foreign_keys agent_id w = (Ok tt, w')
    ∧ (forall i t, tasks (session w) !! i = Some t ->
         exists t', tasks (session w') !! i = Some t'
           ∧ Task.id t' = Task.id t
           ∧ (Task.assigned_agent_id t = Some agent_id ->
              Task.status t = "in_progress" ->
              Task.status t' = "inbox"
              ∧ Task.assigned_agent_id t' = None
              ∧ Task.in_progress_at t' = None)
           ∧ (Task.assigned_agent_id t = Some agent_id ->
              Task.status t ≠ "in_progress" ->
              Task.assigned_agent_id t' = None
              ∧ Task.status t' = Task.status t)
           ∧ (Task.assigned_agent_id t ≠ Some agent_id -> t' = t))
    ∧ (forall i e, activity_events (session w) !! i = Some e ->
         exists e', activity_events (session w') !! i = Some e'
           ∧ ActivityEvent.id e' = ActivityEvent.id e
           ∧ (ActivityEvent.agent_id e = Some agent_id ->
              ActivityEvent.agent_id e' = None)
           ∧ (ActivityEvent.agent_id e ≠ Some agent_id -> e' = e))
    ∧ (forall i p, approvals (session w) !! i = Some p ->
         exists p', approvals (session w') !! i = Some p'
           ∧ Approval.id p' = Approval.id p
           ∧ (Approval.agent_id p = Some agent_id -> Approval.agent_id p' = None)
           ∧ (Approval.agent_id p ≠ Some agent_id -> p' = p))
    ∧ List.length (tasks (session w')) = List.length (tasks (session w))
    ∧ List.length (activity_events (session w'))
      = List.length (activity_events (session w))
    ∧ List.length (approvals (session w')) = List.length (approvals (session w))
    ∧ durable w' = durable w
    ∧ trace w' = trace w.
Proof.
  eexists. split; [apply clear_agent_foreign_keys_run|].
  cbn [session durable trace tasks activity_events approvals].
  split_and!; try done; try (by rewrite length_fmap).
  - intros i t Hi. exists (released_task agent_id (utcnow_at (ticks w)) t).
    split; [by rewrite list_lookup_fmap, Hi|]. unfold released_task.
    repeat case_bool_decide; cbn; split_and!; intros; try done; congruence.
  - intros i e Hi. exists (released_event agent_id e).
    split; [by rewrite list_lookup_fmap, Hi|]. unfold released_event.
    case_bool_decide; cbn; split_and!; intros; try done; congruence.
  - intros i p Hi. exists (released_approval agent_id p).
    split; [by rewrite list_lookup_fmap, Hi|]. unfold released_approval.
    case_bool_decide; cbn; split_and!; intros; try done; congruence.
Qed.


(** *** The self-healing sweep *)

Lemma not_commit_ne (e : Event) : is_commit e = false <-> e ≠ EvCommit.
Proof. destruct e; cbn; split; congruence. Qed.

Lemma gateway_has_main_agent_entry_frame gateway w :
  exists r w' evs,
    gateway_has_main_agent_entry gateway w = (r, w')
    ∧ session w' = session w
    ∧ durable w' = durable w
    ∧ trace w' = (trace w ++ evs)%list
    ∧ Forall (fun e => is_commit e = false) evs
    ∧ Forall (fun e => is_send_message e = false) evs
    ∧ (forall e, r = Raise e ->
         isinstance e OpenClawGatewayError = false
         ∧ exists url, gateway_rpc (ticks w) (roster_call gateway url) = Raise e).
Proof.
  rewrite gateway_has_main_agent_entry_run.
  destruct (url_configured gateway) as [url|].
  - destruct (gateway_rpc (ticks w) (roster_call gateway url)) as [payload|e] eqn:Hrpc.
    + eexists _, _, [_]. split; [done|]. cbn. split_and!; try done; by repeat constructor.
    + eexists _, _, [_]. split; [done|]. cbn. split_and!; try done; try by repeat constructor.
      intros e'. destruct (isinstance e OpenClawGatewayError) eqn:Hgw; [done|].
      intros [= <-]. split; [done|]. by exists url.
  - exists (Ok false), w, []. split_and!; try done. by rewrite app_nil_r.
Qed.

Lemma ensure_gateway_agent_run gateway w agent changed w1 :
  upsert_main_agent_record gateway w = (Ok (agent, changed), w1) ->
  ensure_gateway_agent gateway w
  = match gateway_has_main_agent_entry gateway w1 with
    | (Raise e, w2) => (Raise e, w2)
    | (Ok has_gateway_entry, w2) =>
        match lookup_agent w2 agent with
        | None => (Raise dangling, w2)
        | Some a =>
            if needs_provision changed a has_gateway_entry
            then provision_for_sweep gateway agent w2
            else (Ok tt, w2)
        end
    end.
Proof.
  intros Hup. unfold ensure_gateway_agent.
  rewrite (bind_run _ _ _ _ _ Hup). unfold bind at 1.
  destruct (gateway_has_main_agent_entry gateway w1) as [[has|e] w2]; [|done].
  unfold bind at 1, read_agent, lookup_agent.
  destruct (agents (session w2) !! agent) as [a|]; [|done].
  unfold needs_provision. by destruct (_ || _).
Qed.


Lemma provision_for_sweep_run gateway agent a w :
  lookup_agent w agent = Some a ->
  exists r w' evs a',
    provision_for_sweep gateway agent w = (r, w')
    ∧ session w' = session (put_agent agent a' w)
    ∧ Agent.gateway_id a' = Agent.gateway_id a
    ∧ Agent.board_id a' = Agent.board_id a
    ∧ trace w' = (trace w ++ EvCommit :: evs)%list
    ∧ Forall (fun e => is_commit e = false) evs
    ∧ Forall (fun e => is_send_message e = false) evs
    ∧ (forall e, r = Raise e ->
         isinstance e Exception = false
         ∧ exists n call, gateway_rpc n call = Raise e).
Proof.
  intros Ha.
  destruct (provision_main_agent_record_run gateway agent None "provision" false a w Ha)
    as (r & w' & evs & Hrun & Hs & _ & Ht & Hc & Hn & _ & Hr).
  unfold provision_for_sweep, bind. rewrite Hrun.
  exists (match r with Ok _ => Ok tt | Raise e => Raise e end), w', evs.
  eexists. split_and!; [|exact Hs| | |done|done|by apply Hn|].
  - by destruct r.
  - unfold provisioned. by case_bool_decide.
  - unfold provisioned. by case_bool_decide.
  - intros e He. destruct r as [?|e']; [done|]. by injection He as <-.
Qed.

(** One iteration of the sweep, with its effects. *)
Lemma ensure_gateway_agent_spec gateway w :
  exists agent changed w1 a rr w2,
    upsert_main_agent_record gateway w = (Ok (agent, changed), w1)
    ∧ gateway_has_main_agent_entry gateway w1 = (rr, w2)
    ∧ lookup_agent w2 agent = Some a
    ∧ match rr with
      | Raise e =>
          ensure_gateway_agent gateway w = (Raise e, w2)
          ∧ isinstance e OpenClawGatewayError = false
          ∧ (exists url, gateway_rpc (ticks w1) (roster_call gateway url) = Raise e)
          ∧ exists evs, trace w2 = (trace w ++ evs)%list
                        ∧ Forall (fun e => is_send_message e = false) evs
      | Ok has =>
          exists r w3 evs,
            ensure_gateway_agent gateway w = (r, w3)
            ∧ trace w3 = (trace w ++ evs)%list
            ∧ (EvCommit ∈ evs <-> needs_provision changed a has = true)
            ∧ (needs_provision changed a has = true ->
               (r, w3) = provision_for_sweep gateway agent w2)
            ∧ (needs_provision changed a has = false -> (r, w3) = (Ok tt, w2))
            ∧ Forall (fun e => is_send_message e = false) evs
            ∧ (forall e, r = Raise e ->
                 isinstance e Exception = false
                 ∧ exists n call, gateway_rpc n call = Raise e)
            ∧ (forall g, (1 <= count_main_agents g w1)%nat ->
                         (1 <= count_main_agents g w3)%nat)
      end
    ∧ (1 <= count_main_agents gateway w1)%nat
    ∧ (forall g, (1 <= count_main_agents g w)%nat ->
                 (1 <= count_main_agents g w1)%nat).
Proof.
  destruct (upsert_settles gateway w)
    as (agent & changed & w1 & a & Hup & Hfind & Hrec & Hd1 & Ht1).
  destruct (gateway_has_main_agent_entry_frame gateway w1)
    as (rr & w2 & evs_r & Hhas & Hs2 & Hd2 & Ht2 & Hc2 & Hn2 & Hr2).
  assert (Ha1 : lookup_agent w1 agent = Some a).
  { by apply list_find_Some in Hfind as (? & _). }
  assert (Ha : lookup_agent w2 agent = Some a).
  { unfold lookup_agent. by rewrite Hs2. }
  exists agent, changed, w1, a, rr, w2. split_and!; [done..| | |].
  - rewrite (ensure_gateway_agent_run _ _ _ _ _ Hup), Hhas.
    destruct rr as [has|e].
    + rewrite Ha. destruct (needs_provision changed a has) eqn:Hneeds.
      * destruct (provision_for_sweep_run gateway agent a w2 Ha)
          as (r & w3 & evs & a' & Hrun & Hs3 & Hg3 & Hb3 & Ht3 & Hc3 & Hn3 & Hr3).
        exists r, w3, (evs_r ++ EvCommit :: evs)%list. rewrite Hrun.
        split_and!; try done.
        -- by rewrite Ht3, Ht2, Ht1, app_assoc.
        -- split; [done|]. intros _. apply elem_of_app. right. by left.
        -- apply Forall_app. split; [done|]. by constructor.
        -- intros g. unfold count_main_agents. rewrite Hs3. cbn. rewrite Hs2.
           erewrite filter_length_insert; [done|exact Ha1|].
           unfold main_agent_of. by rewrite Hg3, Hb3.
      * exists (Ok tt), w2, evs_r. split_and!; try done.
        -- by rewrite Ht2, Ht1.
        -- split; [|done]. intros Hin.
           rewrite Forall_forall in Hc2. by apply Hc2 in Hin.
        -- intros g. unfold count_main_agents. by rewrite Hs2.
    + destruct (Hr2 e eq_refl) as [Hgw Hrpc]. split_and!; [done..|].
      exists evs_r. by rewrite Ht2, Ht1.
  - apply list_find_Some in Hfind as (Hl & Hm & _).
    unfold count_main_agents.
    destruct (filter (main_agent_of gateway) (agents (session w1))) eqn:Hf; [|cbn; lia].
    assert (Hin : a ∈ filter (main_agent_of gateway) (agents (session w1))).
    { apply list_elem_of_filter. split; [done|]. by eapply list_elem_of_lookup_2. }
    rewrite Hf in Hin. by apply elem_of_nil in Hin.
  - intros g Hg. destruct (upsert_count g gateway w) as (? & ? & ? & Hup' & Hcnt).
    rewrite Hup in Hup'. injection Hup' as <- <- <-. rewrite Hcnt.
    case_decide; lia.
Qed.


Lemma ensure_gateway_agents_exist_cons gateway rest w :
  ensure_gateway_agents_exist (gateway :: rest) w
  = match ensure_gateway_agent gateway w with
    | (Ok _, w') => ensure_gateway_agents_exist rest w'
    | (Raise e, w') => (Raise e, w')
    end.
Proof. reflexivity. Qed.

Lemma ensure_gateway_agents_exist_quiet gateways w :
  exists r w' evs,
    ensure_gateway_agents_exist gateways w = (r, w')
    ∧ trace w' = (trace w ++ evs)%list
    ∧ Forall (fun e => is_send_message e = false) evs.
Proof.
  revert w. induction gateways as [|gateway rest IH]; intros w.
  - exists (Ok tt), w, []. split_and!; try done. by rewrite app_nil_r.
  - rewrite ensure_gateway_agents_exist_cons.
    destruct (ensure_gateway_agent_spec gateway w)
      as (agent & changed & w1 & a & rr & w2 & _ & _ & _ & Hbody & _).
    destruct rr as [has|e].
    + destruct Hbody as (r & w3 & evs & Hrun & Ht & _ & _ & _ & Hn & _).
      rewrite Hrun. destruct r as [[]|e].
      * destruct (IH w3) as (r' & w' & evs' & Hrest & Ht' & Hn').
        exists r', w', (evs ++ evs')%list. split_and!; [done| |].
        -- by rewrite Ht', Ht, app_assoc.
        -- by apply Forall_app.
      * by exists (Raise e), w3, evs.
    + destruct Hbody as (Hrun & _ & _ & evs & Ht & Hn). rewrite Hrun.
      by exists (Raise e), w2, evs.
Qed.

Lemma ensure_gateway_agents_exist_app before after w :
  ensure_gateway_agents_exist (before ++ after) w
  = match ensure_gateway_agents_exist before w with
    | (Ok _, w') => ensure_gateway_agents_exist after w'
    | (Raise e, w') => (Raise e, w')
    end.
Proof.
  revert w. induction before as [|gateway before IH]; intros w; [done|].
  cbn [app]. rewrite !ensure_gateway_agents_exist_cons.
  destruct (ensure_gateway_agent gateway w) as [[[]|e] w']; [apply IH|done].
Qed.

(** One iteration of the sweep against a gateway client that keeps its
    contract. *)
Lemma ensure_gateway_agent_decides gateway w :
  roster_call_contract ->
  remote_failures_are_exceptions ->
  exists agent changed w1 a has w2 w3 evs,
    upsert_main_agent_record gateway w = (Ok (agent, changed), w1)
    ∧ gateway_has_main_agent_entry gateway w1 = (Ok has, w2)
    ∧ lookup_agent w2 agent = Some a
    ∧ ensure_gateway_agent gateway w = (Ok tt, w3)
    ∧ trace w3 = (trace w ++ evs)%list
    ∧ (EvCommit ∈ evs <-> needs_provision changed a has = true)
    ∧ (needs_provision changed a has = true ->
       provision_main_agent_record gateway agent None "provision" false w2
       = (Ok agent, w3))
    ∧ (needs_provision changed a has = false -> w3 = w2)
    ∧ Forall (fun e => is_send_message e = false) evs
    ∧ (1 <= count_main_agents gateway w3)%nat
    ∧ (forall g, (1 <= count_main_agents g w)%nat ->
                 (1 <= count_main_agents g w3)%nat).
Proof.
  intros Hroster Hremote.
  destruct (ensure_gateway_agent_spec gateway w)
    as (agent & changed & w1 & a & rr & w2 & Hup & Hhas & Ha & Hbody & Hone & Hkeep).
  destruct rr as [has|e].
  2:{ destruct Hbody as (_ & Hnot & [url Hrpc] & _).
      apply Hroster in Hrpc. congruence. }
  destruct Hbody as (r & w3 & evs & Hrun & Ht & Hiff & Hyes & Hno & Hn & Hr & Hkeep3).
  destruct r as [[]|e].
  2:{ destruct (Hr e eq_refl) as (Hnot & n & call & Hrpc).
      apply Hremote in Hrpc. congruence. }
  exists agent, changed, w1, a, has, w2, w3, evs.
  split_and!; [done..| | |done| |].
  - intros Hneeds. specialize (Hyes Hneeds).
    unfold provision_for_sweep, bind in Hyes.
    destruct (provision_main_agent_record_run gateway agent None "provision" false a w2 Ha)
      as (r' & w' & evs' & Hprov & _ & _ & _ & _ & _ & _ & Hr').
    rewrite Hprov in Hyes. rewrite Hprov.
    destruct r' as [returned|e]; [|done].
    injection Hyes as <-. by rewrite Hr'.
  - intros Hneeds. specialize (Hno Hneeds). by injection Hno as <-.
  - by apply Hkeep3.
  - intros g Hg. by apply Hkeep3, Hkeep.
Qed.

(** The sweep against a gateway client that keeps its contract returns. *)
Lemma ensure_gateway_agents_exist_returns gateways w :
  roster_call_contract ->
  remote_failures_are_exceptions ->
  exists w',
    ensure_gateway_agents_exist gateways w = (Ok tt, w')
    ∧ (forall g, g ∈ gateways -> (1 <= count_main_agents g w')%nat)
    ∧ (forall g, (1 <= count_main_agents g w)%nat ->
                 (1 <= count_main_agents g w')%nat).
Proof.
  intros Hroster Hremote. revert w.
  induction gateways as [|gateway rest IH]; intros w.
  - exists w. split_and!; [done| |done]. intros g Hin. by apply elem_of_nil in Hin.
  - rewrite ensure_gateway_agents_exist_cons.
    destruct (ensure_gateway_agent_decides gateway w Hroster Hremote)
      as (agent & changed & w1 & a & has & w2 & w3 & evs
          & _ & _ & _ & Hrun & _ & _ & _ & _ & _ & Hone & Hkeep).
    rewrite Hrun. destruct (IH w3) as (w' & Hrest & Hall & Hkeep').
    exists w'. split_and!; [done| |].
    + intros g [->|Hin]%elem_of_cons; [by apply Hkeep'|by apply Hall].
    + intros g Hg. by apply Hkeep', Hkeep.
Qed.

(** The loop of the sweep has no handler of its own: an exception of the
    roster call that is not the gateway error ends the sweep. *)
Lemma roster_exception_leaves_sweep gateway rest w agent changed w1 url e :
  upsert_main_agent_record gateway w = (Ok (agent, changed), w1) ->
  url_configured gateway = Some url ->
  gateway_rpc (ticks w1) (roster_call gateway url) = Raise e ->
  isinstance e OpenClawGatewayError = false ->
  ensure_gateway_agents_exist (gateway :: rest) w
  = (Raise e, called (roster_call gateway url) w1).
Proof.
  intros Hup Hurl Hrpc Hnot.
  rewrite ensure_gateway_agents_exist_cons.
  rewrite (ensure_gateway_agent_run _ _ _ _ _ Hup).
  rewrite gateway_has_main_agent_entry_run, Hurl, Hrpc, Hnot. done.
Qed.

(** C5 (the sweep provisions exactly when needed).  The gateway client keeps
    its contract: a roster call answers or raises the gateway error, and what
    a remote call raises is an [Exception].  Then for every list of gateways
    and every gateway of the list, the sweep reaches the gateway, reconciles
    its record and checks the roster, and it calls
    [provision_main_agent_record], with no user, the action ["provision"] and
    [notify = false], exactly when the reconciler changed the record, or the
    agent's credential hash is absent or empty, or the roster check reported
    no entry: in that case the world the iteration leaves is the one that
    call leaves, and the iteration commits (only the provisioner commits);
    otherwise the iteration ends in the world the roster check left, so
    nothing is provisioned.  The sweep goes on with the rest of the list, and
    no sweep sends a notification message. *)
Theorem ensure_gateway_agents_exist_provisions_when_needed before gateway after w :
  roster_call_contract ->
  remote_failures_are_exceptions ->
  exists w0 agent changed w1 a has w2 w3 evs,
    ensure_gateway_agents_exist before w = (Ok tt, w0)
    ∧ upsert_main_agent_record gateway w0 = (Ok (agent, changed), w1)
    ∧ gateway_has_main_agent_entry gateway w1 = (Ok has, w2)
    ∧ lookup_agent w2 agent = Some a
    ∧ ensure_gateway_agent gateway w0 = (Ok tt, w3)
    ∧ trace w3 = (trace w0 ++ evs)%list
    ∧ (EvCommit ∈ evs
       <-> changed = true
           ∨ PyStr.truthy_opt (Agent.agent_token_hash a) = false
           ∨ has = false)
    ∧ (changed = true
       ∨ PyStr.truthy_opt (Agent.agent_token_hash a) = false
       ∨ has = false ->
       provision_main_agent_record gateway agent None "provision" false w2
       = (Ok agent, w3))
    ∧ (changed = false ->
       PyStr.truthy_opt (Agent.agent_token_hash a) = true ->
       has = true ->
       w3 = w2)
    ∧ ensure_gateway_agents_exist (before ++ gateway :: after) w
      = ensure_gateway_agents_exist after w3
    ∧ exists w' sent,
        ensure_gateway_agents_exist (before ++ gateway :: after) w = (Ok tt, w')
        ∧ trace w' = (trace w ++ sent)%list
        ∧ Forall (fun e => is_send_message e = false) sent.
Proof.
  intros Hroster Hremote.
  destruct (ensure_gateway_agents_exist_returns before w Hroster Hremote)
    as (w0 & Hbefore & _).
  destruct (ensure_gateway_agent_decides gateway w0 Hroster Hremote)
    as (agent & changed & w1 & a & has & w2 & w3 & evs
        & Hup & Hhas & Ha & Hrun & Ht & Hiff & Hyes & Hno & _).
  assert (Hneeds : needs_provision changed a has = true
                   <-> changed = true
                       ∨ PyStr.truthy_opt (Agent.agent_token_hash a) = false
                       ∨ has = false).
  { unfold needs_provision.
    destruct changed, (PyStr.truthy_opt (Agent.agent_token_hash a)), has; cbn;
      intuition congruence. }
  exists w0, agent, changed, w1, a, has, w2, w3, evs.
  split_and!; [done..| | | | |].
  - by rewrite Hiff.
  - intros Hcond. by apply Hyes, Hneeds.
  - intros -> Hhash ->. apply Hno. unfold needs_provision. by rewrite Hhash.
  - rewrite ensure_gateway_agents_exist_app, Hbefore.
    by rewrite ensure_gateway_agents_exist_cons, Hrun.
  - destruct (ensure_gateway_agents_exist_returns
                (before ++ gateway :: after) w Hroster Hremote) as (w' & Hsweep & _).
    destruct (ensure_gateway_agents_exist_quiet (before ++ gateway :: after) w)
      as (r & w'' & sent & Hsweep' & Hsent & Hquiet).
    rewrite Hsweep in Hsweep'. injection Hsweep' as <- <-.
    by exists w', sent.
Qed.


End Properties.

(** ** Further properties *)

Section SecurityHeadersProperties.

Import SecurityHeaders.

Implicit Types (configured : list ConfiguredHeader) (headers : list (bytes * bytes)).

Lemma collect_configured_app pairs configured :
  collect_configured pairs configured
  = (configured ++ flat_map (fun p => configured_entry p.1 p.2) pairs)%list.
Proof.
  revert configured. induction pairs as [|[name value] pairs IH]; intros configured.
  - by rewrite app_nil_r.
  - cbn [collect_configured flat_map fst snd]. unfold configured_entry at 1.
    destruct (PyStr.truthy (PyStr.strip value)); cbn [negb].
    + by rewrite IH, <- app_assoc.
    + by rewrite IH.
Qed.

Lemma build_configured_headers_entries a b c d :
  _build_configured_headers a b c d
  = (configured_entry _X_CONTENT_TYPE_OPTIONS a
     ++ configured_entry _X_FRAME_OPTIONS b
     ++ configured_entry _REFERRER_POLICY c
     ++ configured_entry _PERMISSIONS_POLICY d)%list.
Proof.
  unfold _build_configured_headers. rewrite collect_configured_app.
  cbn [flat_map fst snd app]. by rewrite app_nil_r.
Qed.

Lemma build_configured_headers_NoDup a b c d :
  NoDup (map (fun c : ConfiguredHeader => c.1.1) (_build_configured_headers a b c d)).
Proof.
  rewrite build_configured_headers_entries. unfold configured_entry.
  destruct (PyStr.truthy (PyStr.strip a)), (PyStr.truthy (PyStr.strip b)),
    (PyStr.truthy (PyStr.strip c)), (PyStr.truthy (PyStr.strip d));
    cbn [app map fst snd];
    apply (bool_decide_unpack _); vm_compute; exact I.
Qed.

Lemma build_configured_headers_lower a b c d :
  Forall (fun c : ConfiguredHeader => c.1.1 = lower c.1.2)
    (_build_configured_headers a b c d).
Proof.
  rewrite build_configured_headers_entries. unfold configured_entry.
  repeat apply Forall_app_2; case_match; by repeat constructor.
Qed.

Lemma filter_ext_elem {A} (P Q : A -> Prop)
    `{!forall x, Decision (P x)} `{!forall x, Decision (Q x)} (l : list A) :
  (forall x, x ∈ l -> P x <-> Q x) -> filter P l = filter Q l.
Proof.
  induction l as [|x l IH]; intros Hext; [done|].
  rewrite !filter_cons.
  assert (Hx : P x <-> Q x) by (apply Hext; left).
  rewrite IH by (intros y Hy; apply Hext; by right).
  destruct (decide (P x)), (decide (Q x)); tauto || done.
Qed.

Lemma filter_none {A} (P : A -> Prop) `{!forall x, Decision (P x)} (l : list A) :
  (forall x, x ∈ l -> ¬ P x) -> filter P l = [].
Proof.
  induction l as [|x l IH]; intros Hnone; [done|].
  rewrite filter_cons, decide_False by (apply Hnone; left).
  apply IH. intros y Hy. apply Hnone. by right.
Qed.

Lemma append_missing_closed configured headers (existing : gset string) :
  NoDup (map (fun c : ConfiguredHeader => c.1.1) configured) ->
  append_missing configured headers existing
  = (headers
     ++ map header_of
          (filter (fun c : ConfiguredHeader => c.1.1 ∉ existing) configured))%list.
Proof.
  revert headers existing.
  induction configured as [|[[key_lower key] value] configured IH];
    intros headers existing Hnodup.
  - by rewrite app_nil_r.
  - cbn [map fst snd] in Hnodup. apply NoDup_cons in Hnodup as [Hfresh Hnodup].
    cbn [append_missing]. rewrite filter_cons. cbn [fst snd].
    destruct (decide (key_lower ∉ existing)) as [Hnew|Hold].
    + rewrite IH by done. rewrite <- app_assoc. cbn [map app header_of fst snd].
      do 3 f_equal. apply filter_ext_elem.
      intros c Hin. rewrite not_elem_of_union, not_elem_of_singleton.
      split; [tauto|]. intros Hc. split; [|done]. intros Heq.
      apply Hfresh. rewrite <- Heq. apply list_elem_of_fmap. by exists c.
    + by rewrite IH.
Qed.

Lemma append_missing_prefix configured headers (existing : gset string) :
  exists added, append_missing configured headers existing = (headers ++ added)%list.
Proof.
  revert headers existing.
  induction configured as [|[[key_lower key] value] configured IH];
    intros headers existing.
  - exists []. by rewrite app_nil_r.
  - cbn [append_missing]. destruct (decide (key_lower ∉ existing)).
    + destruct (IH (headers ++ [(key, value)])%list ({[key_lower]} ∪ existing))
        as [added ->].
      exists ((key, value) :: added). by rewrite <- app_assoc.
    + apply IH.
Qed.

Lemma elem_of_lowered_names headers (name : string) :
  name ∈ lowered_names headers <-> exists kv, kv ∈ headers ∧ lower kv.1 = name.
Proof.
  unfold lowered_names. rewrite elem_of_list_to_set, list_elem_of_fmap.
  split; intros (kv & H1 & H2); exists kv; by split.
Qed.

(** X1.  [_build_configured_headers] keeps, in the fixed order of the four
    names and each at most once, exactly the headers whose configured value
    is not blank; the value kept is the stripped one and the lowered name is
    the name itself. *)
Theorem build_configured_headers_spec a b c d :
  (forall x : ConfiguredHeader,
     x ∈ _build_configured_headers a b c d
     <-> exists name value,
           (name, value) ∈ [(_X_CONTENT_TYPE_OPTIONS, a); (_X_FRAME_OPTIONS, b);
                            (_REFERRER_POLICY, c); (_PERMISSIONS_POLICY, d)]
           ∧ PyStr.strip value ≠ ""
           ∧ x = (name, name, PyStr.strip value))
  ∧ NoDup (map (fun x : ConfiguredHeader => x.1.2) (_build_configured_headers a b c d))
  ∧ map (fun x : ConfiguredHeader => x.1.2) (_build_configured_headers a b c d)
    `sublist_of` [_X_CONTENT_TYPE_OPTIONS; _X_FRAME_OPTIONS;
                  _REFERRER_POLICY; _PERMISSIONS_POLICY].
Proof.
  rewrite build_configured_headers_entries. split_and!.
  - intros x. rewrite !elem_of_app. unfold configured_entry.
    split.
    + intros Hin.
      repeat match goal with
      | H : _ ∨ _ |- _ => destruct H as [H|H]
      end;
      match type of Hin with
      | _ ∈ (if PyStr.truthy (PyStr.strip ?v) then _ else _) =>
          destruct (PyStr.truthy (PyStr.strip v)) eqn:Ht;
          [apply list_elem_of_singleton in Hin as ->|by apply elem_of_nil in Hin];
          apply truthy_nonempty in Ht
      end.
      * exists _X_CONTENT_TYPE_OPTIONS, a. split_and!; [set_solver|done|done].
      * exists _X_FRAME_OPTIONS, b. split_and!; [set_solver|done|done].
      * exists _REFERRER_POLICY, c. split_and!; [set_solver|done|done].
      * exists _PERMISSIONS_POLICY, d. split_and!; [set_solver|done|done].
    + intros (name & value & Hin & Hne & ->).
      apply truthy_nonempty in Hne.
      repeat (apply elem_of_cons in Hin as [[= -> ->]|Hin];
              [rewrite Hne; set_solver|]).
      by apply elem_of_nil in Hin.
  - unfold configured_entry.
    destruct (PyStr.truthy (PyStr.strip a)), (PyStr.truthy (PyStr.strip b)),
      (PyStr.truthy (PyStr.strip c)), (PyStr.truthy (PyStr.strip d));
      cbn [app map fst snd];
      apply (bool_decide_unpack _); vm_compute; exact I.
  - unfold configured_entry.
    destruct (PyStr.truthy (PyStr.strip a)), (PyStr.truthy (PyStr.strip b)),
      (PyStr.truthy (PyStr.strip c)), (PyStr.truthy (PyStr.strip d));
      cbn [app map fst snd];
      repeat first [apply sublist_nil | apply sublist_skip | apply sublist_cons].
Qed.


Lemma send_start configured (message : Message) :
  NoDup (map (fun x : ConfiguredHeader => x.1.1) configured) ->
  msg_type message = "http.response.start" ->
  send_with_security_headers configured message
  = MkMessage (msg_type message)
      (Some (headers_of message
             ++ map header_of
                  (filter (fun x : ConfiguredHeader =>
                             x.1.1 ∉ lowered_names (headers_of message))
                     configured))%list)
      (msg_rest message).
Proof.
  intros Hnodup Hstart. unfold send_with_security_headers.
  rewrite bool_decide_eq_true_2 by done. cbn zeta. f_equal. f_equal.
  by apply append_missing_closed.
Qed.

Lemma appended_covers configured headers (x : ConfiguredHeader) :
  x ∈ configured ->
  x.1.1 = lower x.1.2 ->
  exists kv,
    kv ∈ (headers
          ++ map header_of
               (filter (fun x : ConfiguredHeader => x.1.1 ∉ lowered_names headers)
                  configured))%list
    ∧ lower kv.1 = x.1.1.
Proof.
  intros Hx Hlow.
  destruct (decide (x.1.1 ∈ lowered_names headers)) as [Hold|Hnew].
  - apply elem_of_lowered_names in Hold as (kv & Hin & Hkv).
    exists kv. split; [apply elem_of_app; by left|done].
  - exists (header_of x). split; [|done].
    apply elem_of_app. right. apply list_elem_of_fmap. exists x. split; [done|].
    by apply list_elem_of_filter.
Qed.

(** X2.  On the start of an HTTP response the wrapper keeps every header the
    application set, in place and in order, and appends after them the
    configured headers whose name the application did not set in any letter
    case, and only those. *)
Theorem send_with_security_headers_appends_missing a b c d (message : Message) :
  msg_type message = "http.response.start" ->
  send_with_security_headers (_build_configured_headers a b c d) message
  = MkMessage (msg_type message)
      (Some (headers_of message
             ++ map header_of
                  (filter (fun x : ConfiguredHeader =>
                             x.1.1 ∉ lowered_names (headers_of message))
                     (_build_configured_headers a b c d)))%list)
      (msg_rest message).
Proof.
  intros Hstart. apply send_start; [apply build_configured_headers_NoDup|done].
Qed.

(** X3.  After the wrapper every configured header name is on the start of
    an HTTP response, in some letter case. *)
Theorem send_with_security_headers_complete a b c d (message : Message)
    (x : ConfiguredHeader) :
  msg_type message = "http.response.start" ->
  x ∈ _build_configured_headers a b c d ->
  exists kv,
    kv ∈ headers_of
           (send_with_security_headers (_build_configured_headers a b c d) message)
    ∧ lower kv.1 = lower x.1.2.
Proof.
  intros Hstart Hx.
  rewrite (send_start _ _ (build_configured_headers_NoDup a b c d) Hstart).
  unfold headers_of at 1. cbn [msg_headers default].
  assert (Hlow : x.1.1 = lower x.1.2).
  { pose proof (build_configured_headers_lower a b c d) as Hall.
    rewrite Forall_forall in Hall. by apply Hall. }
  rewrite <- Hlow. by apply appended_covers.
Qed.

(** X4.  The wrapper is idempotent: what it has handed on, it hands on
    unchanged, so a header is never added twice. *)
Theorem send_with_security_headers_idempotent a b c d (message : Message) :
  let wrap := send_with_security_headers (_build_configured_headers a b c d) in
  wrap (wrap message) = wrap message.
Proof.
  cbn zeta.
  pose proof (build_configured_headers_NoDup a b c d) as Hnodup.
  destruct (decide (msg_type message = "http.response.start")) as [Hstart|Hother].
  - rewrite (send_start _ message Hnodup Hstart).
    rewrite send_start by done.
    cbn [msg_type msg_rest]. f_equal. f_equal.
    unfold headers_of at 1 4. cbn [msg_headers default].
    set (headers' := (headers_of message ++ _)%list).
    assert (Hnone : filter (fun x : ConfiguredHeader => x.1.1 ∉ lowered_names headers')
                      (_build_configured_headers a b c d) = []).
    { apply filter_none. intros x Hx Hnot. apply Hnot.
      pose proof (build_configured_headers_lower a b c d) as Hall.
      rewrite Forall_forall in Hall.
      destruct (appended_covers _ (headers_of message) x Hx (Hall x Hx))
        as (kv & Hin & Hkv).
      apply elem_of_lowered_names. by exists kv. }
    change (headers_of (MkMessage (msg_type message) (Some headers') (msg_rest message)))
      with headers'.
    rewrite Hnone. cbn [map]. by rewrite app_nil_r.
  - assert (Hsame : send_with_security_headers
                      (_build_configured_headers a b c d) message = message).
    { unfold send_with_security_headers. by rewrite bool_decide_eq_false_2 by done. }
    by rewrite !Hsame.
Qed.

(** X5.  The middleware hands on as many messages as the application sends,
    in the same order, each with its type and its other keys as they were and
    its headers a prefix of the ones handed on; outside an HTTP scope, without
    configured headers, and for every message that does not start a response,
    the message is handed on as it is. *)
Theorem call_preserves_messages configured (app : string -> list Message)
    (scope_type : string) :
  List.length (call configured app scope_type) = List.length (app scope_type)
  ∧ forall i message,
      app scope_type !! i = Some message ->
      exists message',
        call configured app scope_type !! i = Some message'
        ∧ msg_type message' = msg_type message
        ∧ msg_rest message' = msg_rest message
        ∧ headers_of message `prefix_of` headers_of message'
        ∧ (scope_type ≠ "http" ∨ configured = []
           ∨ msg_type message ≠ "http.response.start" -> message' = message).
Proof.
  unfold call.
  destruct (negb (bool_decide (scope_type = "http"))
            || match configured with [] => true | _ => false end) eqn:Hpass.
  - split; [done|]. intros i message Hi. exists message. by split_and!.
  - apply orb_false_iff in Hpass as [Hhttp Hcfg].
    apply negb_false_iff, bool_decide_eq_true in Hhttp.
    split; [by rewrite length_map|].
    intros i message Hi.
    exists (send_with_security_headers configured message).
    split; [by rewrite list_lookup_fmap, Hi|].
    unfold send_with_security_headers. case_bool_decide as Hstart.
    + cbn [msg_type msg_rest]. split_and!; [done|done| |].
      * unfold headers_of at 2. cbn [msg_headers default]. fold (headers_of message).
        destruct (append_missing_prefix configured (headers_of message)
                    (list_to_set (map (fun kv => lower kv.1) (headers_of message))))
          as [added ->].
        by exists added.
      * intros [Hs|[->|Hm]]; [done|done|done].
    + by split_and!.
Qed.

End SecurityHeadersProperties.

Section ServiceExtras.

Context {collaborators : Collaborators}.
Context {main_agent_manager : AbstractGatewayMainAgentManager}.

Implicit Types (w : World) (a : Agent.t) (agent : ObjRef) (gateway : Gateway.t).

(** *** Remote calls until the first failure *)

Lemma run_calls_events n calls i ev :
  (run_calls n calls).1 !! i = Some ev ->
  exists call,
    calls !! i = Some call
    ∧ ev = EvRemote call (gateway_rpc (n + i) call)
    ∧ forall j call', j < i -> calls !! j = Some call' ->
                      exists payload, gateway_rpc (n + j) call' = Ok payload.
Proof.
  revert n i. induction calls as [|call rest IH]; intros n i Hev; [done|].
  cbn [run_calls] in Hev.
  destruct (gateway_rpc n call) as [payload|e] eqn:Hrpc.
  - destruct (run_calls (S n) rest) as [evs failed] eqn:Hrest.
    destruct i as [|i]; cbn in Hev.
    + injection Hev as <-. exists call. rewrite Nat.add_0_r, Hrpc.
      split_and!; [done..|]. intros j call' Hj. lia.
    + assert (Hev' : (run_calls (S n) rest).1 !! i = Some ev) by (by rewrite Hrest).
      destruct (IH _ _ Hev') as (c & Hc & -> & Hbefore).
      exists c. replace (n + S i) with (S n + i) by lia.
      split_and!; [done..|]. intros [|j] call' Hj Hcall'.
      * injection Hcall' as <-. rewrite Nat.add_0_r. by exists payload.
      * replace (n + S j) with (S n + j) by lia. apply (Hbefore j); [lia|done].
  - destruct i as [|i]; [|done]. cbn in Hev. injection Hev as <-.
    exists call. rewrite Nat.add_0_r, Hrpc. split_and!; [done..|]. intros; lia.
Qed.

Lemma run_calls_failed n calls e :
  (run_calls n calls).2 = Some e ->
  exists i call,
    calls !! i = Some call
    ∧ gateway_rpc (n + i) call = Raise e
    ∧ List.length (run_calls n calls).1 = S i
    ∧ forall j call', j < i -> calls !! j = Some call' ->
                      exists payload, gateway_rpc (n + j) call' = Ok payload.
Proof.
  revert n. induction calls as [|call rest IH]; intros n Hfailed; [done|].
  cbn [run_calls] in *.
  destruct (gateway_rpc n call) as [payload|e'] eqn:Hrpc.
  - destruct (run_calls (S n) rest) as [evs failed] eqn:Hrest. cbn in *.
    assert (Hf : (run_calls (S n) rest).2 = Some e) by (by rewrite Hrest).
    destruct (IH _ Hf) as (i & c & Hc & Hraise & Hlen & Hbefore).
    exists (S i), c. replace (n + S i) with (S n + i) by lia.
    rewrite Hrest in Hlen. cbn in Hlen. split_and!; [done|done|by rewrite Hlen|].
    intros [|j] call' Hj Hcall'.
    + injection Hcall' as <-. rewrite Nat.add_0_r. by exists payload.
    + replace (n + S j) with (S n + j) by lia. apply (Hbefore j); [lia|done].
  - cbn in Hfailed. injection Hfailed as <-. exists 0, call.
    rewrite Nat.add_0_r. split_and!; [done..|]. intros; lia.
Qed.

Lemma run_calls_answered n calls :
  (run_calls n calls).2 = None ->
  List.length (run_calls n calls).1 = List.length calls
  ∧ forall j call', calls !! j = Some call' ->
                    exists payload, gateway_rpc (n + j) call' = Ok payload.
Proof.
  revert n. induction calls as [|call rest IH]; intros n Hnone; [done|].
  cbn [run_calls] in *.
  destruct (gateway_rpc n call) as [payload|e'] eqn:Hrpc; [|done].
  destruct (run_calls (S n) rest) as [evs failed] eqn:Hrest. cbn in *.
  assert (Hf : (run_calls (S n) rest).2 = None) by (by rewrite Hrest).
  destruct (IH _ Hf) as [Hlen Hall]. rewrite Hrest in Hlen. cbn in Hlen.
  split; [by rewrite Hlen|]. intros [|j] call' Hcall'.
  - injection Hcall' as <-. rewrite Nat.add_0_r. by exists payload.
  - replace (n + S j) with (S n + j) by lia. by apply Hall.
Qed.

Lemma run_calls_remote n calls :
  Forall (fun e => is_remote e = true) (run_calls n calls).1.
Proof.
  revert n. induction calls as [|call rest IH]; intros n; cbn [run_calls].
  - constructor.
  - destruct (gateway_rpc n call); [|by repeat constructor].
    specialize (IH (S n)). destruct (run_calls (S n) rest). cbn in *.
    by constructor.
Qed.

(** The [try] statement of the provisioner, effect by effect. *)
Lemma provision_remote_block_exact
    gateway agent raw_token user action notify url a w :
  lookup_agent w agent = Some a ->
  let ran := run_calls (ticks w)
               (provision_calls gateway a raw_token user action notify url) in
  try_except
    (provision_remote_calls gateway agent raw_token user action notify url)
    provision_failure w
  = (match ran.2 with
     | Some e => if isinstance e Exception then Ok tt else Raise e
     | None => Ok tt
     end,
     MkWorld (session w) (durable w) (ticks w + List.length ran.1)
       (trace w ++ ran.1
        ++ match ran.2 with
           | Some e => failure_log e
           | None => [EvLog INFO "gateway.main_agent.provision_success" None]
           end)).
Proof.
  intros Ha. unfold lookup_agent in Ha. cbn zeta.
  unfold try_except, provision_remote_calls, bind, read_agent, remote, log, modify, ret.
  cbn [session emit tick]. rewrite !Ha.
  unfold provision_calls. cbn [app run_calls].
  assert (Hhandled : forall e (w0 : World),
            match provision_failure e with
            | Some h => h w0
            | None => (Raise e, w0)
            end
            = (if isinstance e Exception then Ok tt else Raise e,
               MkWorld (session w0) (durable w0) (ticks w0)
                 (trace w0 ++ failure_log e))).
  { intros e w0. unfold provision_failure, failure_log.
    destruct (isinstance e OpenClawGatewayError) eqn:Hgw.
    - by rewrite (isinstance_gateway_error_exception _ Hgw).
    - destruct (isinstance_any e [OSError; RuntimeError; ValueError]) eqn:Hany.
      + assert (isinstance e Exception = true) as ->; [|done].
        revert Hany. unfold isinstance_any, isinstance.
        destruct (exc_class e); cbv; congruence.
      + destruct (isinstance e Exception); [done|].
        by rewrite app_nil_r, world_eta. }
  assert (Hfinish : forall (r : result unit) s d (n m : nat) (t t' : list Event),
            n = m -> t = t' -> (r, MkWorld s d n t) = (r, MkWorld s d m t')).
  { by intros r s d n m t t' -> ->. }
  destruct (gateway_rpc (ticks w) _) as [p1|e1] eqn:H1.
  2:{ rewrite Hhandled. unfold emit, tick. cbn [session durable ticks trace fst snd].
      apply Hfinish; [cbn; lia|by rewrite <- ?app_assoc]. }
  cbn [ticks tick emit].
  destruct (gateway_rpc (S (ticks w)) _) as [p2|e2] eqn:H2.
  2:{ rewrite Hhandled. unfold emit, tick. cbn [session durable ticks trace fst snd].
      apply Hfinish; [cbn; lia|by rewrite <- ?app_assoc]. }
  destruct notify; cbn [app run_calls].
  - cbn [session emit tick ticks]. rewrite ?Ha.
    cbn [session emit tick ticks].
    destruct (gateway_rpc (S (S (ticks w))) _) as [p3|e3] eqn:H3.
    2:{ rewrite Hhandled. unfold emit, tick. cbn [session durable ticks trace fst snd].
        apply Hfinish; [cbn; lia|by rewrite <- ?app_assoc]. }
    unfold emit, tick. cbn [session durable ticks trace fst snd].
    apply Hfinish; [cbn; lia|by rewrite <- ?app_assoc].
  - unfold emit, tick. cbn [session durable ticks trace fst snd].
    apply Hfinish; [cbn; lia|by rewrite <- ?app_assoc].
Qed.

(** The provisioner, effect by effect. *)
Lemma provision_main_agent_record_exact gateway agent user action notify a w :
  lookup_agent w agent = Some a ->
  let token := generate_agent_token_at (ticks w) in
  let a' := provisioned (hash_agent_token token) (utcnow_at (1 + ticks w))
              action (utcnow_at (2 + ticks w)) a in
  let wc := committed (put_agent agent a' (tick (tick (tick w)))) in
  provision_main_agent_record gateway agent user action notify w
  = match url_configured gateway with
    | None => (Ok agent, wc)
    | Some url =>
        let ran := run_calls (ticks wc)
                     (provision_calls gateway a' token user action notify url) in
        (match ran.2 with
         | Some e => if isinstance e Exception then Ok agent else Raise e
         | None => Ok agent
         end,
         MkWorld (session wc) (durable wc) (ticks wc + List.length ran.1)
           (trace wc ++ ran.1
            ++ match ran.2 with
               | Some e => failure_log e
               | None => [EvLog INFO "gateway.main_agent.provision_success" None]
               end))
    end.
Proof.
  intros Ha token a' wc.
  assert (Hlt : agent < length (agents (session w))) by (by eapply lookup_lt_Some).
  unfold provision_main_agent_record.
  rewrite (bind_run _ _ _ _ _ (generate_agent_token_run _)). fold token.
  rewrite (bind_run _ _ _ _ _ (setattr_run _ _ _ (tick w) Ha)).
  rewrite (bind_run _ _ _ _ _ (utcnow_run _)), tick_put_agent.
  rewrite (bind_run _ _ _ _ _ (setattr_run _ _ _ _ (lookup_put_agent _ _ (tick (tick w)) Hlt))).
  rewrite put_put_agent.
  rewrite (bind_run _ _ _ _ _ (setattr_run _ _ _ _ (lookup_put_agent _ _ (tick (tick w)) Hlt))).
  rewrite put_put_agent.
  rewrite (bind_run _ _ _ _ _ (utcnow_run _)), tick_put_agent.
  rewrite (bind_run _ _ _ _ _ (setattr_run _ _ _ _
                                 (lookup_put_agent _ _ (tick (tick (tick w))) Hlt))).
  rewrite put_put_agent.
  rewrite (bind_run _ _ _ _ _ (read_agent_run _ _ _
                                 (lookup_put_agent _ _ (tick (tick (tick w))) Hlt))).
  set (w3 := tick (tick (tick w))).
  assert (Hlocal : forall k : unit -> M ObjRef,
            bind (if bool_decide
                       (Agent.heartbeat_config
                          (Agent.set_updated_at (utcnow_at (ticks (tick (tick w))))
                             (Agent.set_provision_action (Some action)
                                (Agent.set_provision_requested_at
                                   (Some (utcnow_at (ticks (tick w))))
                                   (Agent.set_agent_token_hash
                                      (Some (hash_agent_token token)) a)))) = None)
                  then setattr agent
                         (Agent.set_heartbeat_config (Some DEFAULT_HEARTBEAT_CONFIG))
                  else ret tt) k
              (put_agent agent
                 (Agent.set_updated_at (utcnow_at (ticks (tick (tick w))))
                    (Agent.set_provision_action (Some action)
                       (Agent.set_provision_requested_at
                          (Some (utcnow_at (ticks (tick w))))
                          (Agent.set_agent_token_hash
                             (Some (hash_agent_token token)) a)))) w3)
            = k tt (put_agent agent a' w3)).
  { intros k. unfold a', provisioned. cbn [ticks tick Nat.add].
    case_bool_decide.
    - rewrite (bind_run _ _ _ _ _ (setattr_run _ _ _ _ (lookup_put_agent _ _ w3 Hlt))).
      by rewrite put_put_agent.
    - by rewrite bind_ret. }
  rewrite Hlocal. clear Hlocal.
  assert (Ha' : lookup_agent (put_agent agent a' w3) agent = Some a').
  { by apply lookup_put_agent. }
  rewrite (bind_run _ _ _ _ _ (session_add_run _ _ _ Ha')).
  rewrite (bind_run _ _ _ _ _ (session_commit_run _)).
  fold wc.
  assert (Hc : lookup_agent wc agent = Some a') by exact Ha'.
  rewrite (bind_run _ _ _ _ _ (session_refresh_run _ _ _ Hc)).
  unfold url_configured.
  destruct (Gateway.url gateway) as [url|]; [|done].
  destruct (PyStr.truthy url) eqn:Hurl; [|done]. cbn [negb].
  unfold bind at 1.
  rewrite (provision_remote_block_exact gateway agent token user action notify url a' wc Hc).
  cbn zeta. by destruct (run_calls _ _).2 as [e|]; [destruct (isinstance e Exception)|].
Qed.


Lemma failure_log_logs e : Forall (fun ev => is_remote ev = false) (failure_log e).
Proof. unfold failure_log. repeat case_match; by repeat constructor. Qed.

Lemma filter_remote_ran (ran : list Event) (logs : list Event) :
  Forall (fun e => is_remote e = true) ran ->
  Forall (fun e => is_remote e = false) logs ->
  List.filter is_remote (ran ++ logs) = ran.
Proof.
  intros Hran Hlogs. rewrite List.filter_app.
  assert (List.filter is_remote logs = []) as ->.
  { induction Hlogs as [|ev logs Hev _ IH]; [done|]. cbn. by rewrite Hev. }
  rewrite app_nil_r. induction Hran as [|ev ran Hev _ IH]; [done|].
  cbn. by rewrite Hev, IH.
Qed.

Lemma filter_log_ran (ran : list Event) (logs : list Event) :
  Forall (fun e => is_remote e = true) ran ->
  Forall (fun e => is_log e = true) logs ->
  List.filter is_log (ran ++ logs) = logs.
Proof.
  intros Hran Hlogs. rewrite List.filter_app.
  assert (List.filter is_log ran = []) as ->.
  { induction Hran as [|ev ran Hev _ IH]; [done|]. cbn.
    destruct ev; try discriminate. done. }
  cbn. induction Hlogs as [|ev logs Hev _ IH]; [done|]. cbn. by rewrite Hev, IH.
Qed.

Lemma failure_log_is_log e : Forall (fun ev => is_log ev = true) (failure_log e).
Proof. unfold failure_log. repeat case_match; by repeat constructor. Qed.

(** X6.  With a URL configured, the remote calls of
    [provision_main_agent_record] come after the commit, in the order
    provision, ensure session, notification (the last only with [notify]),
    each made only when every call before it answered; when all answer, all
    are made. *)
Theorem provision_main_agent_record_calls_in_order
    gateway agent user action notify a w url :
  lookup_agent w agent = Some a ->
  url_configured gateway = Some url ->
  let token := generate_agent_token_at (ticks w) in
  let a' := provisioned (hash_agent_token token) (utcnow_at (1 + ticks w))
              action (utcnow_at (2 + ticks w)) a in
  let calls := provision_calls gateway a' token user action notify url in
  exists r w' evs,
    provision_main_agent_record gateway agent user action notify w = (r, w')
    ∧ trace w' = (trace w ++ EvCommit :: evs)%list
    ∧ (forall i ev,
         List.filter is_remote evs !! i = Some ev ->
         exists call,
           calls !! i = Some call
           ∧ ev = EvRemote call (gateway_rpc (3 + ticks w + i) call)
           ∧ forall j call', j < i -> calls !! j = Some call' ->
               exists payload, gateway_rpc (3 + ticks w + j) call' = Ok payload)
    ∧ ((forall j call', calls !! j = Some call' ->
          exists payload, gateway_rpc (3 + ticks w + j) call' = Ok payload) ->
       List.length (List.filter is_remote evs) = List.length calls).
Proof.
  intros Ha Hurl token a' calls.
  rewrite (provision_main_agent_record_exact _ _ _ _ _ _ _ Ha), Hurl.
  cbn zeta. fold token a' calls.
  set (ran := run_calls _ calls).
  eexists _, _, _. split; [reflexivity|].
  cbn [trace committed emit]. split; [by rewrite <- app_assoc|].
  assert (Hfilter : List.filter is_remote
                      (ran.1 ++ match ran.2 with
                                | Some e => failure_log e
                                | None => [EvLog INFO "gateway.main_agent.provision_success" None]
                                end) = ran.1).
  { apply filter_remote_ran; [apply run_calls_remote|].
    destruct ran.2; [apply failure_log_logs|by repeat constructor]. }
  rewrite Hfilter. split.
  - intros i ev Hev. apply run_calls_events in Hev.
    by change (ticks (committed (put_agent agent a' (tick (tick (tick w))))))
         with (3 + ticks w) in Hev.
  - intros Hall. destruct ran.2 as [e|] eqn:Hfailed.
    + apply run_calls_failed in Hfailed as (i & call & Hcall & Hraise & _).
      destruct (Hall i call Hcall) as [payload Hok].
      change (ticks (committed (put_agent agent a' (tick (tick (tick w))))))
        with (3 + ticks w) in Hraise.
      congruence.
    + by apply run_calls_answered in Hfailed as [Hlen _].
Qed.

(** X7.  The token handed to the gateway is the one whose hash was
    committed: every provision request on the trace carries the gateway, the
    user, the action and the derived session key of the call, the agent as the
    durable database holds it, and a token that hashes to that agent's
    credential hash. *)
Theorem provision_main_agent_record_sends_committed_credential
    gateway agent user action notify a w :
  lookup_agent w agent = Some a ->
  exists r w' evs,
    provision_main_agent_record gateway agent user action notify w = (r, w')
    ∧ trace w' = (trace w ++ EvCommit :: evs)%list
    ∧ forall a_sent request outcome,
        EvRemote (ProvisionMainAgent a_sent request) outcome ∈ evs ->
        agents (durable w') !! agent = Some a_sent
        ∧ Agent.agent_token_hash a_sent
          = Some (hash_agent_token (req_auth_token request))
        ∧ req_gateway request = gateway
        ∧ req_user request = user
        ∧ req_session_key request = session_key gateway
        ∧ opt_action (req_options request) = action.
Proof.
  intros Ha.
  assert (Hlt : agent < length (agents (session w))) by (by eapply lookup_lt_Some).
  rewrite (provision_main_agent_record_exact _ _ _ _ _ _ _ Ha). cbn zeta.
  set (token := generate_agent_token_at (ticks w)).
  set (a' := provisioned _ _ _ _ a).
  destruct (url_configured gateway) as [url|].
  - set (ran := run_calls _ _).
    eexists _, _, _. split; [reflexivity|].
    cbn [trace durable committed emit]. split; [by rewrite <- app_assoc|].
    intros a_sent request outcome [Hin|Hin]%elem_of_app.
    + apply list_elem_of_lookup in Hin as [i Hi].
      apply run_calls_events in Hi as (call & Hcall & Heq & _).
      unfold provision_calls in Hcall.
      destruct i as [|[|[|i]]]; cbn in Hcall.
      * injection Hcall as <-. injection Heq as -> -> _.
        split_and!; try done.
        -- apply (lookup_put_agent agent a' (tick (tick (tick w)))). exact Hlt.
        -- by destruct (provisioned_fields (hash_agent_token token)
                          (utcnow_at (1 + ticks w)) action (utcnow_at (2 + ticks w)) a)
             as (? & _).
      * injection Hcall as <-. discriminate.
      * destruct notify; cbn in Hcall; [|done]. injection Hcall as <-. discriminate.
      * destruct notify; cbn in Hcall; done.
    + destruct ran.2 as [e|].
      * pose proof (failure_log_is_log e) as Hlog. rewrite Forall_forall in Hlog.
        by apply Hlog in Hin.
      * by apply list_elem_of_singleton in Hin.
  - eexists _, _, []. split; [reflexivity|]. split; [done|].
    intros a_sent request outcome Hin. by apply elem_of_nil in Hin.
Qed.

(** X8.  With a URL configured the provisioner writes one log entry: the
    success at INFO when every call answered; when a call raised, a WARNING
    for a gateway error, otherwise an ERROR for an [OSError] (a timeout is
    one), [RuntimeError] or [ValueError], otherwise a CRITICAL for any other
    [Exception], and in these cases it returns the agent; an exception that
    is no [Exception] is not logged and reaches the caller. *)
Theorem provision_main_agent_record_logs_by_tier
    gateway agent user action notify a w url :
  lookup_agent w agent = Some a ->
  url_configured gateway = Some url ->
  let token := generate_agent_token_at (ticks w) in
  let a' := provisioned (hash_agent_token token) (utcnow_at (1 + ticks w))
              action (utcnow_at (2 + ticks w)) a in
  let calls := provision_calls gateway a' token user action notify url in
  exists r w' evs,
    provision_main_agent_record gateway agent user action notify w = (r, w')
    ∧ trace w' = (trace w ++ EvCommit :: evs)%list
    ∧ ((forall j call', calls !! j = Some call' ->
          exists payload, gateway_rpc (3 + ticks w + j) call' = Ok payload) ->
       r = Ok agent
       ∧ List.filter is_log evs
         = [EvLog INFO "gateway.main_agent.provision_success" None])
    ∧ (forall i call e,
         calls !! i = Some call ->
         gateway_rpc (3 + ticks w + i) call = Raise e ->
         (forall j call', j < i -> calls !! j = Some call' ->
            exists payload, gateway_rpc (3 + ticks w + j) call' = Ok payload) ->
         r = (if isinstance e Exception then Ok agent else Raise e)
         ∧ List.filter is_log evs
           = if isinstance e OpenClawGatewayError
             then [EvLog WARNING "gateway.main_agent.provision_failed_gateway"
                     (Some e)]
             else if isinstance_any e [OSError; RuntimeError; ValueError]
             then [EvLog ERROR "gateway.main_agent.provision_failed" (Some e)]
             else if isinstance e Exception
             then [EvLog CRITICAL
                     "gateway.main_agent.provision_failed_unexpected" (Some e)]
             else []).
Proof.
  intros Ha Hurl token a' calls.
  rewrite (provision_main_agent_record_exact _ _ _ _ _ _ _ Ha), Hurl.
  cbn zeta. fold token a' calls.
  set (ran := run_calls _ calls).
  eexists _, _, _. split; [reflexivity|].
  cbn [trace committed emit]. split; [by rewrite <- app_assoc|].
  assert (Hticks : ticks (committed (put_agent agent a' (tick (tick (tick w)))))
                   = 3 + ticks w) by reflexivity.
  assert (Hfilter : forall logs, Forall (fun ev => is_log ev = true) logs ->
                                 List.filter is_log (ran.1 ++ logs) = logs).
  { intros logs. apply filter_log_ran, run_calls_remote. }
  split.
  - intros Hall. destruct ran.2 as [e|] eqn:Hfailed.
    + apply run_calls_failed in Hfailed as (i & call & Hcall & Hraise & _).
      destruct (Hall i call Hcall) as [payload Hok]. rewrite Hticks in Hraise. congruence.
    + split; [done|]. apply Hfilter. by repeat constructor.
  - intros i call e Hcall Hraise Hbefore.
    destruct ran.2 as [e'|] eqn:Hfailed.
    + apply run_calls_failed in Hfailed as (i' & call' & Hcall' & Hraise' & _ & Hbefore').
      rewrite Hticks in Hraise', Hbefore'.
      assert (i = i').
      { destruct (Nat.lt_trichotomy i i') as [Hlt|[Heq|Hgt]]; [|done|].
        - destruct (Hbefore' i call Hlt Hcall) as [payload Hok]. congruence.
        - destruct (Hbefore i' call' Hgt Hcall') as [payload Hok]. congruence. }
      subst i'. assert (call' = call) as -> by congruence.
      assert (e' = e) as -> by congruence.
      split; [done|]. rewrite Hfilter by apply failure_log_is_log. done.
    + apply run_calls_answered in Hfailed as [_ Hall].
      destruct (Hall i call Hcall) as [payload Hok]. rewrite Hticks in Hok. congruence.
Qed.

(** X9.  In the session the provisioner changes one row: of the agent it
    sets the credential hash, the request time, the action and [updated_at],
    and gives it the default heartbeat configuration only when it had none;
    every other attribute of the agent, every other agent and the other
    tables of the session are as before.  Its commit then publishes the whole
    session: afterwards the durable database is the session, so what was
    pending in the session before the call, in whatever table, is durable
    too. *)
Theorem provision_main_agent_record_frame gateway agent user action notify a w :
  lookup_agent w agent = Some a ->
  exists r w' a',
    provision_main_agent_record gateway agent user action notify w = (r, w')
    ∧ lookup_agent w' agent = Some a'
    ∧ Agent.id a' = Agent.id a
    ∧ Agent.name a' = Agent.name a
    ∧ Agent.status a' = Agent.status a
    ∧ Agent.board_id a' = Agent.board_id a
    ∧ Agent.gateway_id a' = Agent.gateway_id a
    ∧ Agent.is_board_lead a' = Agent.is_board_lead a
    ∧ Agent.openclaw_session_id a' = Agent.openclaw_session_id a
    ∧ Agent.identity_profile a' = Agent.identity_profile a
    ∧ Agent.heartbeat_config a'
      = match Agent.heartbeat_config a with
        | Some config => Some config
        | None => Some DEFAULT_HEARTBEAT_CONFIG
        end
    ∧ (forall other, other ≠ agent -> lookup_agent w' other = lookup_agent w other)
    ∧ tasks (session w') = tasks (session w)
    ∧ activity_events (session w') = activity_events (session w)
    ∧ approvals (session w') = approvals (session w)
    ∧ durable w' = session w'.
Proof.
  intros Ha.
  assert (Hlt : agent < length (agents (session w))) by (by eapply lookup_lt_Some).
  rewrite (provision_main_agent_record_exact _ _ _ _ _ _ _ Ha). cbn zeta.
  set (a' := provisioned _ _ _ _ a).
  set (wc := committed _).
  assert (Hpublished : durable wc = session wc) by reflexivity.
  assert (Hfacts : lookup_agent wc agent = Some a'
            ∧ (forall other, other ≠ agent -> lookup_agent wc other = lookup_agent w other)
            ∧ tasks (session wc) = tasks (session w)
            ∧ activity_events (session wc) = activity_events (session w)
            ∧ approvals (session wc) = approvals (session w)).
  { split_and!; try done.
    - apply (lookup_put_agent agent a' (tick (tick (tick w)))). exact Hlt.
    - intros other Hne. apply (lookup_put_agent_ne agent other a' (tick (tick (tick w)))).
      congruence. }
  destruct Hfacts as (Hself & Hothers & Htasks & Hevents & Happrovals).
  assert (Hattrs : Agent.id a' = Agent.id a
            ∧ Agent.name a' = Agent.name a
            ∧ Agent.status a' = Agent.status a
            ∧ Agent.board_id a' = Agent.board_id a
            ∧ Agent.gateway_id a' = Agent.gateway_id a
            ∧ Agent.is_board_lead a' = Agent.is_board_lead a
            ∧ Agent.openclaw_session_id a' = Agent.openclaw_session_id a
            ∧ Agent.identity_profile a' = Agent.identity_profile a
            ∧ Agent.heartbeat_config a'
              = match Agent.heartbeat_config a with
                | Some config => Some config
                | None => Some DEFAULT_HEARTBEAT_CONFIG
                end).
  { unfold a', provisioned. case_bool_decide as Hh; cbn in *.
    - rewrite Hh. by split_and!.
    - split_and!; try done. by destruct (Agent.heartbeat_config a). }
  destruct (url_configured gateway) as [url|].
  - eexists _, _, a'. split; [reflexivity|]. by split_and!; try apply Hattrs.
  - eexists _, _, a'. split; [reflexivity|]. by split_and!; try apply Hattrs.
Qed.


(** *** The reconciler, further *)

(** X10.  [upsert_main_agent_record] returns [changed = false] exactly when
    the gateway already had a main agent on which every invariant held; the
    agent it returns is the gateway's main agent (the first match of
    [find_main_agent]) and every invariant holds on it afterwards. *)
Theorem upsert_main_agent_record_changed_iff gateway w :
  exists agent changed w1 a1,
    upsert_main_agent_record gateway w = (Ok (agent, changed), w1)
    ∧ find_main_agent gateway w1 = (Ok (Some agent), w1)
    ∧ lookup_agent w1 agent = Some a1
    ∧ reconciled gateway a1
    ∧ (changed = false
       <-> exists a,
             list_find (main_agent_of gateway) (agents (session w))
             = Some (agent, a)
             ∧ reconciled gateway a).
Proof.
  destruct (list_find (main_agent_of gateway) (agents (session w)))
    as [[agent a]|] eqn:Hfind.
  - rewrite (upsert_found _ _ _ _ Hfind). cbn zeta.
    pose proof (reconcile_reconciled gateway a false) as Hrec.
    destruct (reconcile gateway (a, false)) as [a' c] eqn:Hr. cbn [fst snd] in *.
    destruct c.
    + assert (Hfind1 : list_find (main_agent_of gateway)
                         (agents (session
                            (put_agent agent
                               (Agent.set_updated_at (utcnow_at (ticks w)) a')
                               (tick w))))
                       = Some (agent, Agent.set_updated_at (utcnow_at (ticks w)) a')).
      { cbn [put_agent set_session set_agents session agents tick].
        eapply list_find_put; [done|]. by apply reconciled_main_agent. }
      eexists agent, true, _, _. split; [reflexivity|]. split_and!.
      * rewrite find_main_agent_run. by rewrite Hfind1.
      * by apply list_find_Some in Hfind1 as (? & _).
      * by apply reconciled_stamp.
      * split; [done|]. intros (a0 & [= <-] & Hrec0).
        rewrite (reconcile_id _ _ _ Hrec0) in Hr. by injection Hr.
    + assert (Hrec0 : reconciled gateway a).
      { apply reconcile_unchanged. by rewrite Hr. }
      exists agent, false, w, a. split; [reflexivity|]. split_and!.
      * rewrite find_main_agent_run. by rewrite Hfind.
      * by apply list_find_Some in Hfind as (? & _).
      * done.
      * split; [|done]. intros _. by exists a.
  - rewrite (upsert_new _ _ Hfind).
    set (a1 := Agent.set_updated_at _ _).
    assert (Hfind1 : list_find (main_agent_of gateway) (agents (session w) ++ [a1])
                     = Some (length (agents (session w)), a1)).
    { apply list_find_snoc; [done|]. done. }
    eexists _, true, _, a1. split; [reflexivity|].
    cbn [session agents set_agents]. split_and!.
    + rewrite find_main_agent_run. cbn [session agents set_agents]. by rewrite Hfind1.
    + unfold lookup_agent. cbn [session agents set_agents].
      by apply list_find_Some in Hfind1 as (? & _).
    + apply reconciled_stamp, new_main_agent_reconciled.
    + split; [done|]. by intros (a0 & [=] & _).
Qed.

(** X11.  [upsert_main_agent_record] adds a record only when the gateway has
    no main agent, and then exactly one, at the end: a main agent of the
    gateway in status ["provisioning"], not a board lead, without a
    credential.  It never commits and makes no remote call, and it leaves
    the tasks, activity events and approvals alone. *)
Theorem upsert_main_agent_record_creates_when_missing gateway w :
  exists agent changed w1,
    upsert_main_agent_record gateway w = (Ok (agent, changed), w1)
    ∧ match list_find (main_agent_of gateway) (agents (session w)) with
      | Some (found, _) =>
          agent = found
          ∧ List.length (agents (session w1)) = List.length (agents (session w))
      | None =>
          changed = true
          ∧ exists a,
              agents (session w1) = (agents (session w) ++ [a])%list
              ∧ agent = List.length (agents (session w))
              ∧ Agent.gateway_id a = Gateway.id gateway
              ∧ Agent.board_id a = None
              ∧ Agent.status a = "provisioning"
              ∧ Agent.is_board_lead a = false
              ∧ Agent.agent_token_hash a = None
              ∧ Agent.name a = build_main_agent_name gateway
              ∧ Agent.openclaw_session_id a = Some (session_key gateway)
      end
    ∧ durable w1 = durable w
    ∧ trace w1 = trace w
    ∧ tasks (session w1) = tasks (session w)
    ∧ activity_events (session w1) = activity_events (session w)
    ∧ approvals (session w1) = approvals (session w).
Proof.
  destruct (list_find (main_agent_of gateway) (agents (session w)))
    as [[agent a]|] eqn:Hfind.
  - rewrite (upsert_found _ _ _ _ Hfind). cbn zeta.
    destruct (reconcile gateway (a, false)) as [a' c]. cbn [fst snd].
    eexists _, _, _. split; [reflexivity|].
    destruct c;
      cbn [put_agent set_session set_agents tick session durable trace ticks
             agents tasks activity_events approvals];
      split_and!; try done.
    apply length_insert.
  - rewrite (upsert_new _ _ Hfind). eexists _, _, _. split; [reflexivity|].
    cbn [set_agents session durable trace ticks agents tasks activity_events
           approvals].
    split_and!; try done.
    exists (Agent.set_updated_at (utcnow_at (2 + ticks w))
              (new_main_agent gateway (uuid4_at (ticks w)) (utcnow_at (1 + ticks w)))).
    by split_and!.
Qed.

(** *** [ensure_main_agent] *)

Lemma provisioned_reconciled gateway token_hash requested action now a :
  reconciled gateway a ->
  reconciled gateway (provisioned token_hash requested action now a).
Proof.
  intros (? & ? & ? & ? & ? & ? & ? & ?). unfold provisioned, reconciled.
  case_bool_decide; cbn in *; by split_and!.
Qed.

(** X12.  [ensure_main_agent] reconciles and then always provisions, whether
    or not the record changed: when it is over the durable database holds
    the gateway's main agent with every invariant of the reconciler, the
    requested action, and the hash of a token generated after the
    reconciliation, so each call rotates the credential; nothing is left
    uncommitted, and the call returns that agent unless a remote call raised
    something that is no [Exception]. *)
Theorem ensure_main_agent_rotates_credential gateway auth_user action w :
  exists r w' agent changed w1 a,
    upsert_main_agent_record gateway
      (emit (EvLog TRACE5 "gateway.main_agent.ensure.start" None) w)
    = (Ok (agent, changed), w1)
    ∧ ensure_main_agent gateway auth_user action w = (r, w')
    ∧ list_find (main_agent_of gateway) (agents (durable w')) = Some (agent, a)
    ∧ reconciled gateway a
    ∧ Agent.agent_token_hash a
      = Some (hash_agent_token (generate_agent_token_at (ticks w1)))
    ∧ Agent.provision_action a = Some action
    ∧ session w' = durable w'
    ∧ match r with
      | Ok returned => returned = agent
      | Raise e => isinstance e Exception = false
      end.
Proof.
  set (w0 := emit (EvLog TRACE5 "gateway.main_agent.ensure.start" None) w).
  destruct (upsert_settles gateway w0)
    as (agent & changed & w1 & a1 & Hup & Hfind & Hrec & _).
  assert (Ha1 : lookup_agent w1 agent = Some a1).
  { by apply list_find_Some in Hfind as (? & _). }
  destruct (provision_main_agent_record_run gateway agent auth_user action true a1 w1 Ha1)
    as (r & w' & evs & Hrun & Hs & Hd & _ & _ & _ & _ & Hr).
  cbn zeta in Hs.
  set (a' := provisioned _ _ _ _ a1) in Hs.
  exists r, w', agent, changed, w1, a'. split; [exact Hup|].
  split_and!.
  - unfold ensure_main_agent. rewrite (bind_run _ _ _ _ _ (log_run _ _ _ w)).
    fold w0. by rewrite (bind_run _ _ _ _ _ Hup).
  - rewrite Hd, Hs. cbn. eapply list_find_put; [exact Hfind|].
    by apply reconciled_main_agent, provisioned_reconciled.
  - by apply provisioned_reconciled.
  - by destruct (provisioned_fields
                   (hash_agent_token (generate_agent_token_at (ticks w1)))
                   (utcnow_at (1 + ticks w1)) action (utcnow_at (2 + ticks w1)) a1)
      as (? & _).
  - by destruct (provisioned_fields
                   (hash_agent_token (generate_agent_token_at (ticks w1)))
                   (utcnow_at (1 + ticks w1)) action (utcnow_at (2 + ticks w1)) a1)
      as (_ & _ & ? & _).
  - done.
  - destruct r; [done|]. by destruct Hr.
Qed.

(** *** The sweep on a gateway without URL *)

(** X13.  A gateway without a configured URL is provisioned by every
    iteration of the sweep, whatever its record looks like: the roster check
    answers [false] without a call, so the iteration commits a freshly
    generated credential and makes no remote call at all. *)
Theorem ensure_gateway_agent_without_url_rotates gateway w :
  url_configured gateway = None ->
  exists agent changed w1 w' a,
    upsert_main_agent_record gateway w = (Ok (agent, changed), w1)
    ∧ ensure_gateway_agent gateway w = (Ok tt, w')
    ∧ trace w' = (trace w ++ [EvCommit])%list
    ∧ agents (durable w') !! agent = Some a
    ∧ Agent.agent_token_hash a
      = Some (hash_agent_token (generate_agent_token_at (ticks w1))).
Proof.
  intros Hurl.
  destruct (upsert_settles gateway w)
    as (agent & changed & w1 & a1 & Hup & Hfind & Hrec & _ & Ht1).
  assert (Ha1 : lookup_agent w1 agent = Some a1).
  { by apply list_find_Some in Hfind as (? & _). }
  assert (Hlt : agent < length (agents (session w1))) by (by eapply lookup_lt_Some).
  rewrite (ensure_gateway_agent_run _ _ _ _ _ Hup).
  rewrite gateway_has_main_agent_entry_run, Hurl, Ha1.
  assert (needs_provision changed a1 false = true) as ->.
  { unfold needs_provision. by rewrite orb_true_r. }
  unfold provision_for_sweep, bind.
  rewrite (provision_main_agent_record_exact _ _ _ _ _ _ _ Ha1), Hurl. cbn zeta.
  eexists agent, changed, w1, _, _. split; [done|]. split; [reflexivity|].
  cbn [trace durable session committed emit put_agent set_session tick]. split_and!.
  - by rewrite Ht1.
  - apply (lookup_put_agent agent _ (tick (tick (tick w1)))). exact Hlt.
  - by destruct (provisioned_fields
                   (hash_agent_token (generate_agent_token_at (ticks w1)))
                   (utcnow_at (1 + ticks w1)) "provision" (utcnow_at (2 + ticks w1)) a1)
      as (? & _).
Qed.


(** *** [require_gateway] *)

(** X14.  [require_gateway] answers only with a gateway of the asked
    organization: what it returns is a held gateway with the asked
    identifier and organization; it raises the 404 exactly when no held
    gateway has both, in particular for a gateway of another organization;
    either way the world is untouched. *)
Theorem require_gateway_scoped (gateways : list Gateway.t)
    (gateway_id organization_id : UUID) w :
  (require_gateway gateways gateway_id organization_id w).2 = w
  ∧ match (require_gateway gateways gateway_id organization_id w).1 with
    | Ok gateway =>
        gateway ∈ gateways
        ∧ Gateway.id gateway = gateway_id
        ∧ Gateway.organization_id gateway = organization_id
    | Raise e =>
        e = MkExn HTTPException "404: Gateway not found"
        ∧ forall gateway,
            gateway ∈ gateways ->
            Gateway.id gateway = gateway_id ->
            Gateway.organization_id gateway ≠ organization_id
    end.
Proof.
  unfold require_gateway.
  destruct (list_find _ gateways) as [[i gateway]|] eqn:Hfind; cbn.
  - split; [done|]. apply list_find_Some in Hfind as (Hi & [Hid Horg] & _).
    split_and!; [|done..]. by eapply list_elem_of_lookup_2.
  - split; [done|]. split; [done|].
    apply list_find_None in Hfind. rewrite Forall_forall in Hfind.
    intros gateway Hin Hid Horg. by apply (Hfind gateway Hin).
Qed.

(** *** The onboarding dispatch *)

Lemma dispatch_answer_run board onboarding answer_text correlation_id w :
  let w1 := emit (EvLog TRACE5 "gateway.onboarding.answer_dispatch.start" None)
              (tick w) in
  dispatch_answer board onboarding answer_text correlation_id w
  = match require_gateway_config_for_board (session w) board with
    | Raise e => (Raise e, w1)
    | Ok (gateway, config) =>
        let call := DispatchGatewayMessage
                      (BoardOnboardingSession.session_key onboarding) config
                      "Gateway Agent" answer_text false in
        match gateway_rpc (S (ticks w)) call with
        | Ok _ =>
            (Ok tt,
             emit (EvLog INFO "gateway.onboarding.answer_dispatch.success" None)
               (called call w1))
        | Raise e =>
            if isinstance_any e [OpenClawGatewayError; TimeoutError]
            then (Raise (map_gateway_error_to_http_exception
                           ONBOARDING_ANSWER_DISPATCH e),
                  emit (EvLog ERROR "gateway.onboarding.answer_dispatch.failed"
                          (Some e)) (called call w1))
            else if isinstance e Exception
            then (Raise e,
                  emit (EvLog CRITICAL
                          "gateway.onboarding.answer_dispatch.failed_unexpected"
                          (Some e)) (called call w1))
            else (Raise e, called call w1)
        end
    end.
Proof.
  cbn zeta. unfold dispatch_answer, resolve_trace_id, bind at 1.
  unfold bind at 1, log at 1, modify at 1.
  unfold bind at 1, get_world at 1.
  unfold bind at 1, lift at 1. cbn [session emit tick].
  destruct (require_gateway_config_for_board (session w) board)
    as [[gateway config]|e]; [|done].
  unfold bind at 1, try_except, bind at 1. rewrite remote_run. cbn [ticks emit tick].
  unfold called. cbn [ticks emit tick].
  destruct (gateway_rpc (S (ticks w)) _) as [payload|e]; [done|].
  unfold answer_dispatch_failure.
  destruct (isinstance_any e _); [done|].
  by destruct (isinstance e Exception).
Qed.

(** X15.  [dispatch_answer] sends the answer to the session key stored on
    the onboarding session, whatever the key derived from the board's
    gateway is, without asking for delivery.  It returns when the send
    answers; a gateway error or a timeout of the send reaches the caller as
    [map_gateway_error_to_http_exception] of [ONBOARDING_ANSWER_DISPATCH], any
    other exception as it was raised; when the board's gateway cannot be
    resolved that failure reaches the caller and nothing is sent. *)
Theorem dispatch_answer_spec board onboarding answer_text correlation_id w :
  let result := dispatch_answer board onboarding answer_text correlation_id w in
  match require_gateway_config_for_board (session w) board with
  | Raise e =>
      result.1 = Raise e ∧ List.filter is_remote (trace result.2)
                           = List.filter is_remote (trace w)
  | Ok (gateway, config) =>
      let call := DispatchGatewayMessage
                    (BoardOnboardingSession.session_key onboarding) config
                    "Gateway Agent" answer_text false in
      let outcome := gateway_rpc (S (ticks w)) call in
      List.filter is_remote (trace result.2)
      = (List.filter is_remote (trace w) ++ [EvRemote call outcome])%list
      ∧ result.1
        = match outcome with
          | Ok _ => Ok tt
          | Raise e =>
              Raise (if isinstance_any e [OpenClawGatewayError; TimeoutError]
                     then map_gateway_error_to_http_exception
                            ONBOARDING_ANSWER_DISPATCH e
                     else e)
          end
  end.
Proof.
  cbn zeta. rewrite dispatch_answer_run. cbn zeta.
  destruct (require_gateway_config_for_board (session w) board)
    as [[gateway config]|e].
  - destruct (gateway_rpc _ _) as [payload|e] eqn:Hrpc.
    + cbn [fst snd trace emit called tick]. rewrite !List.filter_app. cbn.
      by rewrite !app_nil_r, Hrpc.
    + destruct (isinstance_any e _); [|destruct (isinstance e Exception)];
        cbn [fst snd trace emit called tick]; rewrite ?List.filter_app; cbn;
        by rewrite ?app_nil_r, Hrpc.
  - cbn [fst snd trace emit tick]. rewrite List.filter_app. cbn.
    by rewrite app_nil_r.
Qed.

(** *** [sync_templates] *)

(** X17.  [sync_templates] runs the self-healing sweep for the gateway
    first.  When the sweep raises, the template synchronisation is never
    started and the exception is the result.  Otherwise the synchronisation
    starts in a world in which the gateway has its main agent, is handed the
    acting user and the five options of the query unchanged, and its result
    or its exception is the result of [sync_templates]. *)
Theorem sync_templates_heals_first {R : Type}
    (sync_gateway_templates : Gateway.t -> GatewayTemplateSyncOptions -> M R)
    gateway query auth_user w :
  let options :=
    MkSyncOptions auth_user (query_include_main query)
      (query_reset_sessions query) (query_rotate_tokens query)
      (query_force_bootstrap query) (query_board_id query) in
  match ensure_gateway_agents_exist [gateway]
          (emit (EvLog TRACE5 "gateway.templates.sync.start" None) w) with
  | (Raise e, w1) =>
      sync_templates sync_gateway_templates gateway query auth_user w
      = (Raise e, w1)
  | (Ok _, w1) =>
      (1 <= count_main_agents gateway w1)%nat
      ∧ sync_templates sync_gateway_templates gateway query auth_user w
        = match sync_gateway_templates gateway options w1 with
          | (Ok result, w2) =>
              (Ok result,
               emit (EvLog INFO "gateway.templates.sync.success" None) w2)
          | (Raise e, w2) => (Raise e, w2)
          end
  end.
Proof.
  cbn zeta. set (w0 := emit _ w).
  unfold sync_templates. rewrite (bind_run _ _ _ _ _ (log_run _ _ _ w)). fold w0.
  destruct (ensure_gateway_agents_exist [gateway] w0) as [[[]|e] w1'] eqn:Hsweep.
  - rewrite (bind_run _ _ _ _ _ Hsweep). split.
    + rewrite ensure_gateway_agents_exist_cons in Hsweep.
      destruct (ensure_gateway_agent_spec gateway w0)
        as (agent & changed & w1 & a & rr & w2 & _ & _ & _ & Hbody & Hone & _).
      destruct rr as [has|e].
      * destruct Hbody as (r & w3 & evs & Hrun & _ & _ & _ & _ & _ & _ & Hkeep).
        rewrite Hrun in Hsweep. destruct r as [[]|e]; [|done].
        injection Hsweep as <-. by apply Hkeep.
      * destruct Hbody as (Hrun & _). by rewrite Hrun in Hsweep.
    + unfold bind. by destruct (sync_gateway_templates _ _ w1') as [[result|e] w4].
  - by rewrite (bind_raise _ _ _ _ _ Hsweep).
Qed.


End ServiceExtras.

Section AuthProperties.

Import Auth.

(** X18.  [login] hands out the access token exactly when the mode is local,
    a passphrase hash is configured, and [bcrypt.checkpw] answered [True] on
    the UTF-8 bytes of the passphrase and of the hash; the token is then the
    configured local token. *)
Theorem login_grants_only_verified (settings : Settings)
    (checkpw : string -> string -> result bool) (passphrase token : string) :
  login settings checkpw passphrase = Returns token
  <-> auth_mode settings = LOCAL
      ∧ (exists hash,
           login_passphrase_hash settings = Some hash
           ∧ hash ≠ ""
           ∧ checkpw (encode_utf8 passphrase) (encode_utf8 hash) = Ok true)
      ∧ token = local_auth_token settings.
Proof.
  unfold login. split.
  - case_bool_decide as Hmode; cbn [negb]; [|done].
    destruct (login_passphrase_hash settings) as [hash|] eqn:Hhash; cbn; [|done].
    destruct (PyStr.truthy hash) eqn:Ht; cbn; [|done].
    destruct (checkpw _ _) as [[]|e] eqn:Hcheck; cbn.
    + intros [= <-]. split_and!; [done| |done].
      exists hash. split_and!; [done| |done]. by apply truthy_nonempty.
    + done.
    + by destruct (isinstance e Exception).
  - intros (Hmode & (hash & Hhash & Hne & Hcheck) & ->).
    rewrite bool_decide_eq_true_2 by done. cbn [negb].
    rewrite Hhash. cbn. apply truthy_nonempty in Hne. rewrite Hne. cbn.
    by rewrite Hcheck.
Qed.

(** X19.  How [login] fails.  It answers 503 exactly when the mode is not
    local or no passphrase hash is configured, and that answer does not
    depend on [bcrypt.checkpw], which is not consulted.  It answers 401
    exactly when, in local mode with a configured hash, [bcrypt.checkpw]
    answered [False] or raised an [Exception], such as for a malformed hash:
    the two cases give the same answer.  Another status is never raised.
    What [bcrypt.checkpw] raises reaches the caller exactly when it is no
    [Exception]. *)
Theorem login_failures (settings : Settings)
    (checkpw : string -> string -> result bool) (passphrase : string) :
  let answer := login settings checkpw passphrase in
  let verified hash := checkpw (encode_utf8 passphrase) (encode_utf8 hash) in
  (auth_mode settings ≠ LOCAL
   <-> answer = RaisesHTTP 503 (Some "Login endpoint only available in local auth mode"))
  ∧ (auth_mode settings = LOCAL
     ∧ PyStr.truthy_opt (login_passphrase_hash settings) = false
     <-> answer = RaisesHTTP 503 (Some "Login passphrase not configured"))
  ∧ (auth_mode settings ≠ LOCAL
     ∨ PyStr.truthy_opt (login_passphrase_hash settings) = false ->
     forall checkpw', login settings checkpw' passphrase = answer)
  ∧ (auth_mode settings = LOCAL
     ∧ (exists hash,
          login_passphrase_hash settings = Some hash
          ∧ hash ≠ ""
          ∧ (verified hash = Ok false
             ∨ exists e, verified hash = Raise e ∧ isinstance e Exception = true))
     <-> answer = RaisesHTTP 401 (Some "Invalid passphrase"))
  ∧ (forall status_code detail,
       answer = RaisesHTTP status_code detail ->
       (status_code = 503%Z ∨ status_code = 401%Z) ∧ is_Some detail)
  ∧ (forall e,
       auth_mode settings = LOCAL
       ∧ (exists hash,
            login_passphrase_hash settings = Some hash
            ∧ hash ≠ ""
            ∧ verified hash = Raise e
            ∧ isinstance e Exception = false)
       <-> answer = Propagates e).
Proof.
  cbn zeta. unfold login. cbn zeta.
  destruct (decide (auth_mode settings = LOCAL)) as [Hmode|Hmode].
  2:{ rewrite (bool_decide_eq_false_2 _ Hmode). cbn [negb].
      split_and!.
      - by split.
      - split; [by intros [? _]|done].
      - done.
      - split; [by intros [? _]|done].
      - intros status_code detail [= <- <-]. split; [by left|by eexists].
      - intros e. split; [by intros [? _]|done]. }
  rewrite (bool_decide_eq_true_2 _ Hmode). cbn [negb].
  destruct (login_passphrase_hash settings) as [hash|] eqn:Hhash;
    cbn [PyStr.truthy_opt from_option id].
  2:{ cbn [negb]. split_and!.
      - split; [done|]. intros [=].
      - by split.
      - done.
      - split; [|done]. intros (_ & hash & [=] & _).
      - intros status_code detail [= <- <-]. split; [by left|by eexists].
      - intros e. split; [|done]. intros (_ & hash & [=] & _). }
  destruct (PyStr.truthy hash) eqn:Ht; cbn [negb].
  2:{ assert (hash = "") as -> by (by destruct hash).
      split_and!.
      - split; [done|]. intros [=].
      - by split.
      - done.
      - split; [|done]. by intros (_ & hash & [= <-] & Hne & _).
      - intros status_code detail [= <- <-]. split; [by left|by eexists].
      - intros e. split; [|done]. by intros (_ & hash & [= <-] & Hne & _). }
  apply truthy_nonempty in Ht.
  destruct (checkpw (encode_utf8 passphrase) (encode_utf8 hash))
    as [[]|e] eqn:Hcheck; cbn [negb].
  - split_and!.
    + split; [done|]. intros [=].
    + split; [by intros [_ [=]]|]. intros [=].
    + by intros [?|[=]].
    + split; [|intros [=]].
      intros (_ & hash' & [= <-] & _ & [Hfalse|(e & Hraise & _)]); congruence.
    + intros status_code detail [=].
    + intros e. split; [|intros [=]].
      intros (_ & hash' & [= <-] & _ & Hraise & _). congruence.
  - split_and!.
    + split; [done|]. intros [=].
    + split; [by intros [_ [=]]|]. intros [=].
    + by intros [?|[=]].
    + split; [done|]. intros _. split; [done|]. exists hash.
      split_and!; [done|done|by left].
    + intros status_code detail [= <- <-]. split; [by right|by eexists].
    + intros e. split; [|intros [=]].
      intros (_ & hash' & [= <-] & _ & Hraise & _). congruence.
  - destruct (isinstance e Exception) eqn:He.
    + split_and!.
      * split; [done|]. intros [=].
      * split; [by intros [_ [=]]|]. intros [=].
      * by intros [?|[=]].
      * split; [done|]. intros _. split; [done|]. exists hash.
        split_and!; [done|done|]. right. by exists e.
      * intros status_code detail [= <- <-]. split; [by right|by eexists].
      * intros e'. split; [|intros [=]].
        intros (_ & hash' & [= <-] & _ & Hraise & Hnot). congruence.
    + split_and!.
      * split; [done|]. intros [=].
      * split; [by intros [_ [=]]|]. intros [=].
      * by intros [?|[=]].
      * split; [|intros [=]].
        intros (_ & hash' & [= <-] & _ & [Hfalse|(e' & Hraise & He')]); congruence.
      * intros status_code detail [=].
      * intros e'. split.
        -- intros (_ & hash' & [= <-] & _ & Hraise & _). congruence.
        -- intros [= <-]. split; [done|]. by exists hash.
Qed.

End AuthProperties.

Section MigrationProperties.

Import Migration.

Lemma board_columns_elem (boards : list Column) (name : string) :
  name ∈ board_columns boards <-> exists c, c ∈ boards ∧ col_name c = name.
Proof.
  unfold board_columns. rewrite elem_of_list_to_set, list_elem_of_fmap.
  split; intros (c & H1 & H2); exists c; by split.
Qed.

Lemma filter_all {A} (P : A -> Prop) `{forall x, Decision (P x)} (l : list A) :
  (forall x, x ∈ l -> P x) -> filter P l = l.
Proof.
  induction l as [|x l IH]; intros Hall; [done|].
  rewrite filter_cons, decide_True by (apply Hall; by left).
  f_equal. apply IH. intros y Hy. apply Hall. by right.
Qed.

(** X20.  The migration is safe to repeat and to undo.  After [upgrade] the
    [boards] table has the review column and every column it had, in place;
    after [downgrade] it has no column of that name and the others are kept;
    both are idempotent; and on a table that did not have the column,
    [downgrade] after [upgrade] gives the table back. *)
Theorem migration_round_trip (boards : list Column) :
  "comment_required_for_review" ∈ board_columns (upgrade boards)
  ∧ boards `prefix_of` upgrade boards
  ∧ upgrade (upgrade boards) = upgrade boards
  ∧ ("comment_required_for_review" ∉ board_columns (downgrade boards))
  ∧ (forall c, c ∈ downgrade boards
               <-> c ∈ boards ∧ col_name c ≠ "comment_required_for_review")
  ∧ downgrade (downgrade boards) = downgrade boards
  ∧ ("comment_required_for_review" ∉ board_columns boards ->
     downgrade (upgrade boards) = boards).
Proof.
  assert (Hup : "comment_required_for_review" ∈ board_columns (upgrade boards)).
  { unfold upgrade. case_decide as Hin.
    - apply board_columns_elem. exists comment_required_for_review.
      split; [|done]. apply elem_of_app. right. by left.
    - exact Hin. }
  assert (Hdown : "comment_required_for_review" ∉ board_columns (downgrade boards)).
  { unfold downgrade. case_decide as Hin; [|done].
    intros (c & Hc & Hname)%board_columns_elem.
    by apply list_elem_of_filter in Hc as [Hne _]. }
  split_and!; try done.
  - unfold upgrade. case_decide; [by exists [comment_required_for_review]|done].
  - unfold upgrade at 1. by rewrite decide_False by (intros Hnot; by apply Hnot).
  - intros c. unfold downgrade. case_decide as Hin.
    + rewrite list_elem_of_filter. tauto.
    + split; [|tauto]. intros Hc. split; [done|]. intros Hname.
      apply Hin, board_columns_elem. by exists c.
  - unfold downgrade at 1. by rewrite decide_False.
  - intros Hnot. unfold upgrade. rewrite decide_True by done.
    unfold downgrade. rewrite decide_True.
    2:{ apply board_columns_elem. exists comment_required_for_review.
        split; [|done]. apply elem_of_app. right. by left. }
    rewrite filter_app, filter_cons, filter_nil.
    rewrite decide_False by (intros Hne; by apply Hne).
    rewrite app_nil_r. apply filter_all.
    intros c Hc Hname. apply Hnot, board_columns_elem. by exists c.
Qed.

End MigrationProperties.


Section CleanupExtras.

Context {collaborators : Collaborators}.

Lemma released_task_free agent_id now t :
  Task.assigned_agent_id (released_task agent_id now t) ≠ Some agent_id.
Proof.
  unfold released_task. case_bool_decide as Ha; [|done].
  by case_bool_decide.
Qed.

Lemma released_event_free agent_id e :
  ActivityEvent.agent_id (released_event agent_id e) ≠ Some agent_id.
Proof. unfold released_event. by case_bool_decide. Qed.

Lemma released_approval_free agent_id p :
  Approval.agent_id (released_approval agent_id p) ≠ Some agent_id.
Proof. unfold released_approval. by case_bool_decide. Qed.

(** X21.  After [clear_agent_foreign_keys] no task, activity event or
    approval of the session refers to the agent; the agents table itself is
    not touched (the agent is not deleted here); and a second cleanup for the
    same agent finds nothing to do: it leaves every row, [updated_at]
    included, as the first left it. *)
Theorem clear_agent_foreign_keys_releases agent_id w :
  let w' := (clear_agent_foreign_keys agent_id w).2 in
  (forall t, t ∈ tasks (session w') -> Task.assigned_agent_id t ≠ Some agent_id)
  ∧ (forall e, e ∈ activity_events (session w') ->
               ActivityEvent.agent_id e ≠ Some agent_id)
  ∧ (forall p, p ∈ approvals (session w') -> Approval.agent_id p ≠ Some agent_id)
  ∧ agents (session w') = agents (session w)
  ∧ session (clear_agent_foreign_keys agent_id w').2 = session w'.
Proof.
  cbn zeta. rewrite !clear_agent_foreign_keys_run.
  cbn [fst snd session durable ticks trace agents tasks activity_events approvals].
  split_and!.
  - intros t (t0 & -> & _)%list_elem_of_fmap. apply released_task_free.
  - intros e (e0 & -> & _)%list_elem_of_fmap. apply released_event_free.
  - intros p (p0 & -> & _)%list_elem_of_fmap. apply released_approval_free.
  - done.
  - f_equal; rewrite <- list_fmap_compose; apply list_fmap_ext; intros i x _; cbn.
    + pose proof (released_task_free agent_id (utcnow_at (ticks w)) x) as Hfree.
      unfold released_task at 1. by rewrite bool_decide_eq_false_2.
    + pose proof (released_event_free agent_id x) as Hfree.
      unfold released_event at 1. by rewrite bool_decide_eq_false_2.
    + pose proof (released_approval_free agent_id x) as Hfree.
      unfold released_approval at 1. by rewrite bool_decide_eq_false_2.
Qed.

End CleanupExtras.

Section ExtractorExtras.

Lemma lstrip_head (s : string) :
  match PyStr.lstrip s with
  | EmptyString => True
  | String c _ => PyStr.isspace c = false
  end.
Proof.
  induction s as [|c r IH]; cbn [PyStr.lstrip]; [done|].
  destruct (PyStr.isspace c) eqn:Hc; [done|]. exact Hc.
Qed.

Lemma rstrip_head (c : Ascii.ascii) (r : string) :
  PyStr.isspace c = false ->
  exists r', PyStr.rstrip (String c r) = String c r'.
Proof.
  intros Hc. cbn [PyStr.rstrip]. destruct (PyStr.rstrip r).
  - rewrite Hc. by eexists.
  - by eexists.
Qed.

Lemma rstrip_cons (c : Ascii.ascii) (r : string) :
  PyStr.rstrip (String c r)
  = match PyStr.rstrip r with
    | EmptyString => if PyStr.isspace c then EmptyString else String c EmptyString
    | r' => String c r'
    end.
Proof. reflexivity. Qed.

Lemma rstrip_idemp (s : string) : PyStr.rstrip (PyStr.rstrip s) = PyStr.rstrip s.
Proof.
  induction s as [|c r IH]; [done|]. rewrite (rstrip_cons c r).
  destruct (PyStr.rstrip r) as [|c' r'] eqn:Hr.
  - destruct (PyStr.isspace c) eqn:Hc; [done|].
    rewrite rstrip_cons. cbn [PyStr.rstrip]. by rewrite Hc.
  - by rewrite rstrip_cons, IH.
Qed.

Lemma strip_idemp (s : string) : PyStr.strip (PyStr.strip s) = PyStr.strip s.
Proof.
  unfold PyStr.strip. pose proof (lstrip_head s) as Hhead.
  destruct (PyStr.lstrip s) as [|c r]; [done|].
  destruct (rstrip_head c r Hhead) as [r' Hr']. rewrite Hr'.
  cbn [PyStr.lstrip]. rewrite Hhead, <- Hr'. apply rstrip_idemp.
Qed.

(** X22.  An identifier that [extract_agent_id_from_entry] returns is
    normalised: it is not empty, stripping it again changes nothing, and as
    a string entry of a roster it is extracted as itself. *)
Theorem extract_agent_id_from_entry_normalised (item : json) (v : string) :
  extract_agent_id_from_entry item = Some v ->
  v ≠ "" ∧ PyStr.strip v = v ∧ extract_agent_id_from_entry (JStr v) = Some v.
Proof.
  intros (Hne & Hfrom)%extract_agent_id_from_entry_Some.
  assert (Hstrip : PyStr.strip v = v).
  { destruct Hfrom as [(s & _ & ->)|(d & key & raw & _ & _ & _ & ->)];
      apply strip_idemp. }
  split_and!; [done|done|].
  cbn [extract_agent_id_from_entry]. rewrite Hstrip. unfold PyStr.or_none.
  apply truthy_nonempty in Hne. by rewrite Hne.
Qed.

End ExtractorExtras.


(** ** The statements on the concrete deployment *)

Module Checks.

Import Demo.


Lemma rpc_down_exception (n : nat) (call : RemoteCall) (e : exn) :
  gateway_rpc (Collaborators := down) n call = Raise e ->
  isinstance e Exception = true.
Proof. intros [= <-]. reflexivity. Defined.

Example strip_example : PyStr.strip "  mc-gateway-7 " = "mc-gateway-7".
Proof. reflexivity. Qed.

Example extract_agent_id_from_entry_string :
  extract_agent_id_from_entry (JStr " mc-gateway-edge ") = Some "mc-gateway-edge".
Proof. reflexivity. Qed.

Example extract_agent_id_from_entry_blank :
  extract_agent_id_from_entry (JStr "   ") = None.
Proof. reflexivity. Qed.

Example extract_agent_id_from_entry_first_key :
  extract_agent_id_from_entry
    (JDict (<["id" := JStr " "]> (<["agentId" := JStr "a1"]>
           (<["agent_id" := JStr "a2"]> ∅)))) = Some "a1".
Proof. vm_compute. reflexivity. Qed.

Example extract_agents_list_malformed :
  extract_agents_list (JDict (<["agents" := JStr "none"]> ∅)) = [].
Proof. vm_compute. reflexivity. Qed.

Example roster_check_finds_entry :
  (gateway_has_main_agent_entry
     (collaborators :=
        collaborators
          (rpc_up (JDict (<["agents" :=
                              JList [JStr "other";
                                     JDict (<["id" := JStr "mc-gateway-edge"]> ∅)]]>
                            ∅))))
     edge fresh).1 = Ok true.
Proof. vm_compute. reflexivity. Qed.

(** C1 on [edge]: the first call creates the agent, the second call, made
    after the first was committed, changes nothing. *)
Lemma upsert_main_agent_record_idempotent_witness :
  exists w1,
    upsert_main_agent_record (collaborators := down) edge fresh
    = (Ok (0, true), w1)
    ∧ upsert_main_agent_record (collaborators := down) edge (committed w1)
      = (Ok (0, false), committed w1).
Proof.
  destruct (upsert_main_agent_record_idempotent (collaborators := down) edge fresh)
    as (agent & changed & w1 & a & Hrun & _ & Hagain).
  exists w1. split.
  - rewrite Hrun. vm_compute in Hrun. by injection Hrun as <- <- <-.
  - destruct (Hagain (committed w1) eq_refl) as [Hsecond _].
    rewrite Hsecond. vm_compute in Hrun. by injection Hrun as <- <- <-.
Defined.

(** C2 on [edge] with the gateway down: the method returns and the durable
    agent carries the hash of the token generated at the first tick. *)
Lemma provision_main_agent_record_durable_witness :
  exists w' a',
    provision_main_agent_record (collaborators := down)
      edge 0 None "provision" false edge_world = (Ok 0, w')
    ∧ agents (durable w') !! 0 = Some a'
    ∧ Agent.agent_token_hash a' = Some "sha256:token-A"
    ∧ Agent.provision_action a' = Some "provision".
Proof.
  destruct (provision_main_agent_record_durable (collaborators := down)
              edge 0 None "provision" false edge_agent edge_world eq_refl)
    as (r & w' & a' & evs & Hrun & Ha' & Hhash & _ & Haction & _ & _ & _ & Hok).
  exists w', a'. split_and!; [|exact Ha'|exact Hhash|exact Haction].
  rewrite Hrun. f_equal. apply Hok.
  intros n call. exists gateway_error. split; reflexivity.
Defined.

(** C3 on [edge] with the gateway down: the provisioner returns its agent. *)
Lemma gateway_error_swallowed_or_translated_witness :
  (provision_main_agent_record (collaborators := down)
     edge 0 None "provision" true edge_world).1 = Ok 0.
Proof.
  apply (proj1 (proj2 (gateway_error_swallowed_or_translated (collaborators := down)))).
  - by exists edge_agent.
  - apply rpc_down_exception.
Defined.

Lemma listing_roster_contract : roster_call_contract (collaborators := listing).
Proof. intros n method config e Hrpc. discriminate Hrpc. Qed.

Lemma listing_failures : remote_failures_are_exceptions (collaborators := listing).
Proof. intros n call e Hrpc. destruct call; discriminate Hrpc. Qed.



Lemma edge_entry_listed : listed_in edge_roster edge_entry.
Proof.
  right. exists (<["agents" := JList edge_entries]> ∅), edge_entries.
  split_and!; [reflexivity|by vm_compute|].
  apply list_elem_of_further, list_elem_of_here.
Qed.

Lemma edge_entry_names : names_id edge_entry "mc-gateway-edge".
Proof.
  split; [discriminate|]. right.
  exists (<["id" := JStr " "]> (<["agentId" := JStr " mc-gateway-edge "]> ∅)),
    ["id"], "agentId", ["agent_id"], " mc-gateway-edge ".
  split_and!; [reflexivity|reflexivity| |by vm_compute|reflexivity].
  intros k Hk raw Hd. apply list_elem_of_singleton in Hk as ->.
  vm_compute in Hd. by injection Hd as <-.
Qed.

(** C4 on [edge] with a roster that lists its agent under the second key,
    with blanks around the identifier: [true]; on [offline], which has no
    URL: [false], and the world is untouched; on [edge] with the gateway
    down: [true]. *)
Lemma gateway_has_main_agent_entry_spec_witness :
  (gateway_has_main_agent_entry (collaborators := listing) edge fresh).1 = Ok true
  ∧ gateway_has_main_agent_entry (collaborators := down) offline fresh
    = (Ok false, fresh)
  ∧ (gateway_has_main_agent_entry (collaborators := down) edge fresh).1 = Ok true.
Proof.
  split_and!.
  - destruct (proj2 (gateway_has_main_agent_entry_spec (collaborators := listing)
                       edge fresh) "ws://edge" eq_refl)
      as (b & Hrun & Hiff).
    rewrite Hrun. cbn [fst]. f_equal. apply Hiff.
    exists edge_entry. split; [apply edge_entry_listed|apply edge_entry_names].
  - exact (proj1 (gateway_has_main_agent_entry_spec (collaborators := down)
                    offline fresh) eq_refl).
  - by rewrite (proj2 (gateway_has_main_agent_entry_spec (collaborators := down)
                         edge fresh) "ws://edge" eq_refl).
Defined.

(** C4, the claim as stated fails.  The only record of [shadowed_roster]
    holds the identifier of [edge] under the accepted key ["agentId"], yet
    the check answers [false], since ["id"] names another agent and is read
    first.  No entry of [padded_roster] equals the identifier of [edge], yet
    the check answers [true], since the entry is read without the blanks
    around it. *)
Lemma roster_check_reads_first_key_stripped :
  openclaw_agent_id (Collaborators := down) edge = "mc-gateway-edge"
  ∧ (gateway_has_main_agent_entry
       (collaborators := collaborators (rpc_up shadowed_roster)) edge fresh).1
    = Ok false
  ∧ (exists item,
       listed_in shadowed_roster item ∧ equals_id item "mc-gateway-edge")
  ∧ (gateway_has_main_agent_entry
       (collaborators := collaborators (rpc_up padded_roster)) edge fresh).1
    = Ok true
  ∧ ¬ (exists item,
         listed_in padded_roster item ∧ equals_id item "mc-gateway-edge").
Proof.
  split_and!.
  - reflexivity.
  - by vm_compute.
  - exists shadowed_entry. split.
    + left. exists [shadowed_entry]. split; [reflexivity|apply list_elem_of_here].
    + right.
      exists (<["id" := JStr "other"]> (<["agentId" := JStr "mc-gateway-edge"]> ∅)),
        "agentId".
      split_and!; [reflexivity| |by vm_compute].
      apply list_elem_of_further, list_elem_of_here.
  - by vm_compute.
  - intros (item & [(items & Heq & Hin)|(d & items & Heq & _)] & Hid);
      [|discriminate Heq].
    injection Heq as <-. apply list_elem_of_singleton in Hin as ->.
    destruct Hid as [Heq|(d & key & Heq & _)]; discriminate Heq.
Qed.

(** C5 on [edge] with a gateway that lists its agent.  From [settled_world]
    the record is unchanged, has a credential and is listed: the sweep
    returns and has committed nothing, so nothing was provisioned.  From the
    empty database the record is new: the sweep returns and has committed. *)
Lemma ensure_gateway_agents_exist_provisions_when_needed_witness :
  (exists w',
     ensure_gateway_agents_exist (collaborators := listing) [edge] settled_world
     = (Ok tt, w')
     ∧ EvCommit ∉ trace w')
  ∧ (exists w',
       ensure_gateway_agents_exist (collaborators := listing) [edge] fresh
       = (Ok tt, w')
       ∧ EvCommit ∈ trace w').
Proof.
  split.
  - destruct (ensure_gateway_agents_exist_provisions_when_needed
                (collaborators := listing) [] edge [] settled_world
                listing_roster_contract listing_failures)
      as (w0 & agent & changed & w1 & a & has & w2 & w3 & evs
          & Hbefore & Hup & Hhas & Ha & Hrun & Ht & Hiff & _ & _ & Hsweep & _).
    injection Hbefore as <-.
    vm_compute in Hup. injection Hup as <- <- <-.
    vm_compute in Hhas. injection Hhas as <- <-.
    vm_compute in Ha. injection Ha as <-.
    exists w3. split; [exact Hsweep|].
    rewrite Ht. intros Hin. apply Hiff in Hin.
    destruct Hin as [Hin|[Hin|Hin]]; discriminate Hin.
  - destruct (ensure_gateway_agents_exist_provisions_when_needed
                (collaborators := listing) [] edge [] fresh
                listing_roster_contract listing_failures)
      as (w0 & agent & changed & w1 & a & has & w2 & w3 & evs
          & Hbefore & Hup & Hhas & Ha & Hrun & Ht & Hiff & _ & _ & Hsweep & _).
    injection Hbefore as <-.
    vm_compute in Hup. injection Hup as <- <- <-.
    exists w3. split; [exact Hsweep|].
    rewrite Ht. apply Hiff. by left.
Defined.

(** C6 on the cleanup scenario: the in-progress task of agent 42 goes back to
    the inbox. *)
Lemma clear_agent_foreign_keys_spec_witness :
  exists w' t',
    clear_agent_foreign_keys (collaborators := down) 42%N cleanup_world
    = (Ok tt, w')
    ∧ tasks (session w') !! 0 = Some t'
    ∧ Task.status t' = "inbox"
    ∧ Task.assigned_agent_id t' = None
    ∧ Task.in_progress_at t' = None
    ∧ durable w' = cleanup_db.
Proof.
  destruct (clear_agent_foreign_keys_spec (collaborators := down) 42%N cleanup_world)
    as (w' & Hrun & Htasks & _ & _ & _ & _ & _ & Hdurable & _).
  destruct (Htasks 0 _ eq_refl) as (t' & Ht' & _ & Hmoved & _).
  destruct (Hmoved eq_refl eq_refl) as (Hstatus & Hassigned & Hat).
  by exists w', t'.
Defined.

(** C7 on [edge] and [core]: after four calls [edge] has one main agent. *)
Lemma upsert_main_agent_record_unique_witness :
  exists w',
    reconcile_sequence (collaborators := down) [edge; core; edge; edge] fresh
    = (Ok tt, w')
    ∧ count_main_agents edge w' = 1.
Proof.
  apply (upsert_main_agent_record_unique (collaborators := down)).
  - reflexivity.
  - exists edge. split; [left|reflexivity].
Defined.


(** C9 on [edge_world]: the agent exists, its missing profile and heartbeat
    are defaulted, its hash stays absent. *)
Lemma upsert_main_agent_record_frame_witness :
  exists agent changed w1,
    upsert_main_agent_record (collaborators := down) edge edge_world
    = (Ok (agent, changed), w1)
    ∧ exists b', lookup_agent w1 0 = Some b'
                 ∧ Agent.agent_token_hash b' = None
                 ∧ Agent.status b' = "provisioning".
Proof.
  destruct (upsert_main_agent_record_frame (collaborators := down) edge edge_world)
    as (agent & changed & w1 & Hrun & Hframe & _).
  exists agent, changed, w1. split; [exact Hrun|].
  destruct (Hframe 0 edge_agent eq_refl) as (b' & Hb' & Hhash & Hstatus).
  exists b'. split_and!; [exact Hb'|exact Hhash|by apply Hstatus].
Defined.

(** C10 on a malformed payload: the roster call answers with a number and
    the check returns a boolean. *)
Lemma roster_payload_total_witness :
  exists b w',
    gateway_has_main_agent_entry
      (collaborators := collaborators (rpc_up (JInt 3))) edge fresh = (Ok b, w').
Proof.
  apply (proj2 (proj2 (roster_payload_total
                         (collaborators := collaborators (rpc_up (JInt 3)))))
           edge fresh (JInt 3)).
  reflexivity.
Defined.

(** X2 on [start_message]: the header the application set stays, the missing
    one is appended, the blank ones are not. *)
Lemma send_with_security_headers_appends_missing_witness :
  SecurityHeaders.msg_headers
    (SecurityHeaders.send_with_security_headers
       (SecurityHeaders._build_configured_headers "nosniff" " SAMEORIGIN " "" "  ")
       start_message)
  = Some [("X-Frame-Options", "DENY"); ("x-content-type-options", "nosniff")].
Proof.
  rewrite (send_with_security_headers_appends_missing
             "nosniff" " SAMEORIGIN " "" "  " start_message eq_refl).
  vm_compute. reflexivity.
Defined.

(** X3 on [start_message]: the frame options are on the response. *)
Lemma send_with_security_headers_complete_witness :
  exists kv,
    kv ∈ headers_of
           (SecurityHeaders.send_with_security_headers
              (SecurityHeaders._build_configured_headers
                 "nosniff" " SAMEORIGIN " "" "  ")
              start_message)
    ∧ SecurityHeaders.lower kv.1 = "x-frame-options".
Proof.
  apply (send_with_security_headers_complete "nosniff" " SAMEORIGIN " "" "  "
           start_message ("x-frame-options", "x-frame-options", "SAMEORIGIN") eq_refl).
  vm_compute. apply list_elem_of_further, list_elem_of_here.
Defined.

(** X6 on [edge] with the gateway up: the three calls are made. *)
Lemma provision_main_agent_record_calls_in_order_witness :
  exists r w' evs,
    provision_main_agent_record (collaborators := up)
      edge 0 None "provision" true edge_world = (r, w')
    ∧ trace w' = EvCommit :: evs
    ∧ List.length (List.filter is_remote evs) = 3.
Proof.
  destruct (provision_main_agent_record_calls_in_order (collaborators := up)
              edge 0 None "provision" true edge_agent edge_world "ws://edge"
              eq_refl eq_refl)
    as (r & w' & evs & Hrun & Htrace & _ & Hall).
  exists r, w', evs. split_and!; [exact Hrun|exact Htrace|].
  rewrite Hall; [reflexivity|].
  intros j call' _. destruct call'; by eexists.
Defined.

(** X7 on [edge] with the gateway down: a run with its trace. *)
Lemma provision_main_agent_record_sends_committed_credential_witness :
  exists r w' evs,
    provision_main_agent_record (collaborators := down)
      edge 0 None "provision" false edge_world = (r, w')
    ∧ trace w' = EvCommit :: evs
    ∧ forall a_sent request outcome,
        EvRemote (ProvisionMainAgent a_sent request) outcome ∈ evs ->
        Agent.agent_token_hash a_sent = Some ("sha256:" ++ req_auth_token request).
Proof.
  destruct (provision_main_agent_record_sends_committed_credential
              (collaborators := down)
              edge 0 None "provision" false edge_agent edge_world eq_refl)
    as (r & w' & evs & Hrun & Htrace & Hsent).
  exists r, w', evs. split_and!; [exact Hrun|exact Htrace|].
  intros a_sent request outcome Hin.
  by destruct (Hsent a_sent request outcome Hin) as (_ & Hhash & _).
Defined.

(** X8 on [edge] with every call timing out: the agent is returned and the
    failure is logged at ERROR. *)
Lemma provision_main_agent_record_logs_by_tier_witness :
  exists w' evs,
    provision_main_agent_record (collaborators := timing_out)
      edge 0 None "provision" false edge_world = (Ok 0, w')
    ∧ trace w' = EvCommit :: evs
    ∧ List.filter is_log evs
      = [EvLog ERROR "gateway.main_agent.provision_failed" (Some timeout_error)].
Proof.
  destruct (provision_main_agent_record_logs_by_tier (collaborators := timing_out)
              edge 0 None "provision" false edge_agent edge_world "ws://edge"
              eq_refl eq_refl)
    as (r & w' & evs & Hrun & Htrace & _ & Hfail).
  destruct (Hfail 0 _ timeout_error eq_refl eq_refl) as [Hr Hlog].
  { intros j call' Hj. lia. }
  exists w', evs. split_and!; [by rewrite Hrun, Hr|exact Htrace|exact Hlog].
Defined.

(** X9 on [edge]: the name stays, the heartbeat configuration is filled in
    and the session is published. *)
Lemma provision_main_agent_record_frame_witness :
  exists r w' a',
    provision_main_agent_record (collaborators := down)
      edge 0 None "provision" false edge_world = (r, w')
    ∧ lookup_agent w' 0 = Some a'
    ∧ Agent.name a' = "edge Gateway Agent"
    ∧ Agent.heartbeat_config a'
      = Some (DEFAULT_HEARTBEAT_CONFIG (Collaborators := down))
    ∧ durable w' = session w'.
Proof.
  destruct (provision_main_agent_record_frame (collaborators := down)
              edge 0 None "provision" false edge_agent edge_world eq_refl)
    as (r & w' & a' & Hrun & Ha' & _ & Hname & _ & _ & _ & _ & _ & _ & Hhb
        & _ & _ & _ & _ & Hpublished).
  by exists r, w', a'.
Defined.

(** X13 on [offline]: the iteration commits and calls nothing. *)
Lemma ensure_gateway_agent_without_url_rotates_witness :
  exists w',
    ensure_gateway_agent (collaborators := down) offline fresh = (Ok tt, w')
    ∧ trace w' = [EvCommit].
Proof.
  destruct (ensure_gateway_agent_without_url_rotates (collaborators := down)
              offline fresh eq_refl)
    as (agent & changed & w1 & w' & a & _ & Hrun & Htrace & _).
  by exists w'.
Defined.

(** X22 on a roster entry with blanks around the identifier. *)
Lemma extract_agent_id_from_entry_normalised_witness :
  extract_agent_id_from_entry (JStr "mc-gateway-edge") = Some "mc-gateway-edge".
Proof.
  apply (extract_agent_id_from_entry_normalised
           (JDict (<["agentId" := JStr " mc-gateway-edge "]> ∅)) "mc-gateway-edge").
  vm_compute. reflexivity.
Defined.

End Checks.
